(** * SQLMCP: validation, execution and result shaping of [sql_mcp_server.py]

    A shallow embedding of the query tools of [src/sql_mcp_server.py]
    ([validate_sql_query], [format_query_result], [query_sql],
    [execute_dml], [export_to_csv], [query_to_csv], [get_db_connection],
    [Config.get_connection_string]) and the properties of the
    specification that concern them; then the thirteen catalog tools of the
    same file and [check_python_version] of [src/verify_installation.py],
    with properties read off the code.

    Conventions of the model
    - Statement text is a [string] of 7-bit characters ([PyStr.isascii]);
      Python's [str.upper], [str.lower], [str.strip] and the [re] classes
      [\s], [\w], [\b], [.] are modelled on that range, where they are
      given by fixed tables. On other text Python follows the Unicode
      tables (U+00A0 is a space, U+00E9 a word character, the upper case
      of U+017F is S), which are not part of this development: a statement
      whose truth depends on the tables carries the hypothesis that the
      text is ASCII.
    - Python [int] is [Z]; an [Optional[int]] argument is [option Z].
    - The database driver, the file system and the clock are external: they
      are a record of oracles ([World]) that the tools consult, and every
      interaction is recorded in a trace of [event]s.
    - A tool either returns the dictionary it passes to [json.dumps]
      (an ordered list of fields) or lets an exception escape. *)

From Stdlib Require Import String Ascii List ZArith Lia Bool DecimalString.
Import ListNotations.
Local Open Scope string_scope.
Set Warnings "-register-all".

(* ===================================================================== *)
(** ** Python strings *)
(* ===================================================================== *)

Module PyStr.

Definition code (c : ascii) : nat := nat_of_ascii c.

Definition between (lo hi : nat) (c : ascii) : bool :=
  Nat.leb lo (code c) && Nat.leb (code c) hi.

(** [s.isascii()]: every code point is below 128 (true of the empty
    string). The tables below are Python's on such text and on such text
    only. *)
Fixpoint isascii (s : string) : bool :=
  match s with
  | EmptyString => true
  | String c r => if Nat.ltb (code c) 128 then isascii r else false
  end.

Definition is_lower (c : ascii) : bool := between 97 122 c.
Definition is_upper (c : ascii) : bool := between 65 90 c.
Definition is_digit (c : ascii) : bool := between 48 57 c.

(** [str.isspace] on one ASCII character: TAB, LF, VT, FF, CR, FS, GS, RS,
    US and the blank. [str.strip] and the class [\s] both use this table. *)
Definition is_space (c : ascii) : bool :=
  between 9 13 c || between 28 32 c.

(** The class [\w] on one ASCII character: letters, digits and the
    underscore. *)
Definition is_word (c : ascii) : bool :=
  is_lower c || is_upper c || is_digit c || Nat.eqb (code c) 95.

(** [c.upper()] for an ASCII character. *)
Definition upper_char (c : ascii) : ascii :=
  if is_lower c then ascii_of_nat (code c - 32) else c.

(** [s.upper()] for ASCII text. *)
Fixpoint upper (s : string) : string :=
  match s with
  | EmptyString => EmptyString
  | String c r => String (upper_char c) (upper r)
  end.

(** [c.lower()] and [s.lower()] for ASCII text. *)
Definition lower_char (c : ascii) : ascii :=
  if is_upper c then ascii_of_nat (code c + 32) else c.

Fixpoint lower (s : string) : string :=
  match s with
  | EmptyString => EmptyString
  | String c r => String (lower_char c) (lower r)
  end.

Fixpoint lstrip (s : string) : string :=
  match s with
  | EmptyString => EmptyString
  | String c r => if is_space c then lstrip r else s
  end.

Fixpoint rstrip (s : string) : string :=
  match s with
  | EmptyString => EmptyString
  | String c r =>
      match rstrip r with
      | EmptyString => if is_space c then EmptyString else String c EmptyString
      | r' => String c r'
      end
  end.

(** [s.strip()] *)
Definition strip (s : string) : string := rstrip (lstrip s).

(** [s.startswith(p)] *)
Definition startswith (s p : string) : bool := String.prefix p s.

(** Truth value of a string: non-empty. *)
Definition truthy (s : string) : bool :=
  match s with EmptyString => false | _ => true end.

(** [sep.join(parts)] *)
Fixpoint join (sep : string) (parts : list string) : string :=
  match parts with
  | [] => ""
  | [p] => p
  | p :: rest => p ++ sep ++ join sep rest
  end.

End PyStr.

(* ===================================================================== *)
(** ** The fragment of Python's [re] used by the validator *)
(* ===================================================================== *)

Module Re.

(** What one position of a pattern can consume. *)
Inductive charclass :=
| CLit (c : ascii)      (* the character itself *)
| CSpace                (* \s *)
| CAny.                 (* .  (no DOTALL: everything but LF) *)

Inductive quant := Once | ZeroOrMore | OneOrMore.

Inductive atom :=
| Boundary                              (* \b *)
| Rep (q : quant) (k : charclass).

Definition regex := list atom.

(** *** Reading a pattern *)

Inductive token :=
| TClass (k : charclass)
| TBoundary
| TStar
| TPlus.

Fixpoint tokens (s : string) : list token :=
  match s with
  | EmptyString => []
  | String "\" (String "b" r) => TBoundary :: tokens r
  | String "\" (String "s" r) => TClass CSpace :: tokens r
  | String "\" (String c r) => TClass (CLit c) :: tokens r
  | String "." r => TClass CAny :: tokens r
  | String "*" r => TStar :: tokens r
  | String "+" r => TPlus :: tokens r
  | String c r => TClass (CLit c) :: tokens r
  end.

Fixpoint atoms (ts : list token) : regex :=
  match ts with
  | [] => []
  | TClass k :: TStar :: r => Rep ZeroOrMore k :: atoms r
  | TClass k :: TPlus :: r => Rep OneOrMore k :: atoms r
  | TClass k :: r => Rep Once k :: atoms r
  | TBoundary :: r => Boundary :: atoms r
  | TStar :: r => Rep Once (CLit "*") :: atoms r
  | TPlus :: r => Rep Once (CLit "+") :: atoms r
  end.

(** [re.compile(pattern)], for patterns made of literals, [\b], [\s], [.]
    and the postfix [*] and [+] on one character or class. *)
Definition compile (pattern : string) : regex := atoms (tokens pattern).

(** *** Matching *)

Definition in_class (k : charclass) (c : ascii) : bool :=
  match k with
  | CLit d => Ascii.eqb c d
  | CSpace => PyStr.is_space c
  | CAny => negb (Nat.eqb (PyStr.code c) 10)
  end.

Definition word_at (o : option ascii) : bool :=
  match o with Some c => PyStr.is_word c | None => false end.

Definition next_char (s : string) : option ascii :=
  match s with String c _ => Some c | EmptyString => None end.

(** [\b] holds between a word character and a non-word character, the two
    ends of the text counting as non-word. *)
Definition at_boundary (prev : option ascii) (s : string) : bool :=
  xorb (word_at prev) (word_at (next_char s)).

(** [k*] followed by the continuation [cont]: as many characters as
    possible first, then fewer. [prev] is the character before the
    current position. *)
Fixpoint star (k : charclass) (cont : option ascii -> string -> bool)
         (prev : option ascii) (s : string) {struct s} : bool :=
  match s with
  | String c r =>
      if in_class k c then
        if star k cont (Some c) r then true else cont prev s
      else cont prev s
  | EmptyString => cont prev s
  end.

(** Does pattern [p] match starting exactly at the current position? *)
Fixpoint match_here (p : regex) : option ascii -> string -> bool :=
  match p with
  | [] => fun _ _ => true
  | a :: rest =>
      let cont := match_here rest in
      match a with
      | Boundary => fun prev s =>
          if at_boundary prev s then cont prev s else false
      | Rep Once k => fun _ s =>
          match s with
          | String c r => if in_class k c then cont (Some c) r else false
          | EmptyString => false
          end
      | Rep ZeroOrMore k => star k cont
      | Rep OneOrMore k => fun _ s =>
          match s with
          | String c r => if in_class k c then star k cont (Some c) r else false
          | EmptyString => false
          end
      end
  end.

(** The leftmost position first, then the next ones. *)
Fixpoint search_from (p : regex) (prev : option ascii) (s : string) : bool :=
  if match_here p prev s then true
  else
    match s with
    | String c r => search_from p (Some c) r
    | EmptyString => false
    end.

(** Truth value of [re.search(pattern, s)]: the pattern matches at some
    position of [s]. *)
Definition search (pattern : string) (s : string) : bool :=
  search_from (compile pattern) None s.

End Re.


(* ===================================================================== *)
(** ** Values, envelopes, exceptions and events *)
(* ===================================================================== *)

(** A value of a result-set column, as the driver hands it to Python. *)
Inductive cell :=
| VNull                        (* None *)
| VInt (z : Z)
| VStr (s : string)
| VOther (rendered : string).  (* any other type, with its [str()] *)

Definition row := list cell.

(** The argument of [json.dumps]: dictionaries keep their insertion order. *)
Inductive json :=
| JNull
| JBool (b : bool)
| JInt (z : Z)
| JStr (s : string)
| JList (items : list json)
| JDict (fields : list (string * json))
| JCsvText (lines : list row)   (* the text a [csv.writer] produced *)
| JMegabytes (bytes : Z).       (* the float [round(bytes / 1024 / 1024, 2)] *)

(** [json.dumps(..., default=str)] on a cell. *)
Definition cell_json (v : cell) : json :=
  match v with
  | VNull => JNull
  | VInt z => JInt z
  | VStr s => JStr s
  | VOther s => JStr s
  end.

Fixpoint assoc (k : string) (fields : list (string * json)) : option json :=
  match fields with
  | [] => None
  | (k', v) :: rest => if String.eqb k k' then Some v else assoc k rest
  end.

(** [envelope[k]] when the envelope is a dictionary that has the key. *)
Definition field (k : string) (envelope : json) : option json :=
  match envelope with
  | JDict fields => assoc k fields
  | _ => None
  end.

Inductive exn_class :=
| PyodbcError        (* pyodbc.Error and its subclasses *)
| ValueError
| IOError            (* OSError *)
| TypeError
| OtherException.

Record exn := mk_exn { exn_kind : exn_class; exn_str : string }.

Definition is_pyodbc (e : exn) : bool :=
  match exn_kind e with PyodbcError => true | _ => false end.
Definition is_ioerror (e : exn) : bool :=
  match exn_kind e with IOError => true | _ => false end.
Definition is_exception (e : exn) : bool := true.

Inductive loglevel := INFO | WARNING | ERROR.

(** What a tool does to the outside world, in order. *)
Inductive event :=
| ELog (level : loglevel) (msg : string)
| EConnect (conn_str : string)           (* pyodbc.connect called *)
| EExecute (sql : string)                (* cursor.execute called *)
| ECommit                                (* conn.commit called *)
| EClose                                 (* conn.close called *)
| EMakedirs (dir : string)
| EOpenWrite (path : string)
| EWriteRow (path : string) (r : row).

Definition trace := list event.

(** The lines a trace has left in the file [path]: opening for writing
    empties the file, each [writerow] adds a line. *)
Definition file_step (path : string) (lines : list row) (e : event) : list row :=
  match e with
  | EOpenWrite p => if String.eqb p path then [] else lines
  | EWriteRow p r => if String.eqb p path then app lines [r] else lines
  | _ => lines
  end.

Definition file_lines (path : string) (t : trace) : list row :=
  fold_left (file_step path) t [].

(* ===================================================================== *)
(** ** A monad for traces and exceptions *)
(* ===================================================================== *)

Inductive result (A : Type) :=
| Ok (a : A)
| Raise (e : exn).
Arguments Ok {A} a.
Arguments Raise {A} e.

Definition M (A : Type) : Type := trace -> result A * trace.

Definition ret {A} (a : A) : M A := fun t => (Ok a, t).

Definition bind {A B} (c : M A) (k : A -> M B) : M B :=
  fun t =>
    match c t with
    | (Ok a, t') => k a t'
    | (Raise e, t') => (Raise e, t')
    end.

Definition raise {A} (e : exn) : M A := fun t => (Raise e, t).

Definition emit (e : event) : M unit := fun t => (Ok tt, app t [e]).

Declare Scope py_scope.
Delimit Scope py_scope with py.
Notation "x <- c ;; k" := (bind c (fun x => k))
  (at level 61, c at next level, right associativity) : py_scope.
Notation "c ;; k" := (bind c (fun _ => k))
  (at level 61, right associativity) : py_scope.
Local Open Scope py_scope.

(** One [except] clause: which exceptions it takes, and its body. *)
Definition clause (A : Type) : Type := (exn -> bool) * (exn -> M A).

Fixpoint dispatch {A} (clauses : list (clause A)) (e : exn) : M A :=
  match clauses with
  | [] => raise e
  | (takes, body) :: rest => if takes e then body e else dispatch rest e
  end.

(** [try: c  except ...: ...] with the clauses tried in order. *)
Definition try_except {A} (c : M A) (clauses : list (clause A)) : M A :=
  fun t =>
    match c t with
    | (Ok a, t') => (Ok a, t')
    | (Raise e, t') => dispatch clauses e t'
    end.

(** [try: c  finally: f] *)
Definition try_finally {A} (c : M A) (f : M unit) : M A :=
  fun t =>
    match c t with
    | (r, t') =>
        match f t' with
        | (Ok _, t'') => (r, t'')
        | (Raise e, t'') => (Raise e, t'')
        end
    end.

(** Run [c] and hand back how it ended. *)
Definition attempt {A} (c : M A) : M (result A) :=
  fun t => match c t with (r, t') => (Ok r, t') end.

Definition lift {A} (r : result A) : M A := fun t => (r, t).

Definition log (level : loglevel) (msg : string) : M unit := emit (ELog level msg).

(** A tool called from outside starts with an empty trace. *)
Definition run {A} (c : M A) : result A * trace := c [].

(* ===================================================================== *)
(** ** Python integers and lists *)
(* ===================================================================== *)

(** [str(n)] *)
Definition str_int (n : Z) : string := NilZero.string_of_int (Z.to_int n).

(** [len(l)] *)
Definition len {A} (l : list A) : Z := Z.of_nat (length l).

(** [l[:n]]: a negative [n] counts from the end. *)
Definition slice_to {A} (n : Z) (l : list A) : list A :=
  if (0 <=? n)%Z then firstn (Z.to_nat n) l
  else firstn (Z.to_nat (len l + n)) l.

(** [x or d] for an optional integer [x]: [None] and [0] are false. *)
Definition int_or (x : option Z) (d : Z) : Z :=
  match x with
  | Some n => if (n =? 0)%Z then d else n
  | None => d
  end.

(** Truth value of an optional integer. *)
Definition int_truthy (x : option Z) : bool :=
  match x with
  | Some n => negb (n =? 0)%Z
  | None => false
  end.

(** Truth value of an optional string. *)
Definition str_truthy (x : option string) : bool :=
  match x with
  | Some s => PyStr.truthy s
  | None => false
  end.

(* ===================================================================== *)
(** ** Configuration and the outside world *)
(* ===================================================================== *)

(** [class Config]: read from the environment once, at import. *)
Record Config := {
  DRIVER : string;
  SERVER : string;
  DATABASE : string;
  TRUSTED_CONNECTION : string;
  USERNAME : option string;
  PASSWORD : option string;
  MAX_ROWS : Z;
  QUERY_TIMEOUT : Z
}.

(** [Config.get_connection_string()] *)
Definition get_connection_string (cfg : Config) : result string :=
  let parts := [ "DRIVER={" ++ DRIVER cfg ++ "}";
                 "SERVER=" ++ SERVER cfg;
                 "DATABASE=" ++ DATABASE cfg ] in
  if String.eqb (PyStr.lower (TRUSTED_CONNECTION cfg)) "yes" then
    Ok (PyStr.join ";" (app parts ["Trusted_Connection=yes"]))
  else
    match USERNAME cfg, PASSWORD cfg with
    | Some u, Some p =>
        if PyStr.truthy u && PyStr.truthy p then
          Ok (PyStr.join ";" (app parts ["UID=" ++ u; "PWD=" ++ p]))
        else
          Raise (mk_exn ValueError
                   "Either use Trusted_Connection or provide USERNAME and PASSWORD")
    | _, _ =>
        Raise (mk_exn ValueError
                 "Either use Trusted_Connection or provide USERNAME and PASSWORD")
    end.

(** How [cursor.execute(sql)] ends: it raises, or the cursor then has a
    [description] ([None] when the statement produces no result set), the
    rows of the result set and a [rowcount]. *)
Inductive exec_result :=
| ExecRaises (e : exn)
| ExecDone (description : option (list string)) (rows : list row) (rowcount : Z).

(** The driver ([pyodbc]) and the server behind it. *)
Record Database := {
  db_connect : string -> Z -> option exn;      (* pyodbc.connect(s, timeout=t) *)
  db_execute : string -> exec_result;          (* cursor.execute(sql) *)
  db_commit : option exn;                      (* conn.commit() *)
  (* cursor.fetchmany(n) for n < 0 is the driver's business *)
  db_fetchmany_negative : Z -> list row -> result (list row)
}.

(** [os] and [open]. *)
Record Filesystem := {
  fs_dirname : string -> string;               (* os.path.dirname *)
  fs_exists : string -> bool;                  (* os.path.exists *)
  fs_makedirs : string -> option exn;          (* os.makedirs *)
  fs_open_w : string -> option exn;            (* open(path, 'w', ...) *)
  fs_getsize : string -> list row -> Z         (* os.path.getsize, given what was written *)
}.

Record World := {
  cfg : Config;
  db : Database;
  fs : Filesystem;
  now : string                                 (* datetime.now().isoformat() *)
}.

(* ===================================================================== *)
(** ** [validate_sql_query] *)
(* ===================================================================== *)

Definition dangerous_patterns : list string :=
  [ "\bDROP\s+DATABASE\b";
    "\bDROP\s+TABLE\b";
    "\bTRUNCATE\b";
    "\bDELETE\s+FROM\b.*WHERE\s+1\s*=\s*1";
    "\bUPDATE\b.*WHERE\s+1\s*=\s*1";
    ";\s*DROP\b";
    "--";
    "xp_cmdshell";
    "sp_executesql" ].

(** The [for pattern in dangerous_patterns] loop. *)
Fixpoint validate_loop (patterns : list string) (sql_upper : string) : M bool :=
  match patterns with
  | [] => ret true
  | pattern :: rest =>
      if Re.search pattern sql_upper then
        log WARNING ("Blocked potentially dangerous SQL pattern: " ++ pattern) ;;
        ret false
      else validate_loop rest sql_upper
  end.

Definition validate_sql_query (sql : string) : M bool :=
  let sql_upper := PyStr.strip (PyStr.upper sql) in
  validate_loop dangerous_patterns sql_upper.

(** The verdict alone, without the log. *)
Definition accepts (sql : string) : bool :=
  forallb (fun pattern => negb (Re.search pattern (PyStr.strip (PyStr.upper sql))))
          dangerous_patterns.

(** The first pattern of the list that the text matches, if any. *)
Definition matched_rule (sql : string) : option string :=
  find (fun pattern => Re.search pattern (PyStr.strip (PyStr.upper sql)))
       dangerous_patterns.

Section Tools.

Variable w : World.

Definition error_envelope (msg : string) : json :=
  JDict [ ("error", JStr msg); ("timestamp", JStr (now w)) ].

(* ------------------------------------------------------------------- *)
(** *** [get_db_connection] *)

Definition pyodbc_connect (conn_str : string) : M unit :=
  emit (EConnect conn_str) ;;
  match db_connect (db w) conn_str (QUERY_TIMEOUT (cfg w)) with
  | Some e => raise e
  | None => ret tt
  end.

Definition connection_error {A} : clause A :=
  (is_pyodbc,
   fun e => log ERROR ("Database connection error: " ++ exn_str e) ;; raise e).

(** [with get_db_connection() as conn: body]. The generator's [try] covers
    both the connect and, through [yield], the body; its [finally] closes
    the connection only when the connect succeeded. *)
Definition get_db_connection {A} (body : M A) : M A :=
  connected <- attempt
    (try_except
       (conn_str <- lift (get_connection_string (cfg w)) ;;
        pyodbc_connect conn_str ;;
        log INFO "Database connection established")
       [connection_error]) ;;
  match connected with
  | Raise e => raise e
  | Ok _ =>
      try_finally
        (try_except body [connection_error])
        (emit EClose ;; log INFO "Database connection closed")
  end.

Definition cursor_execute (sql : string) : M (option (list string) * list row * Z) :=
  emit (EExecute sql) ;;
  match db_execute (db w) sql with
  | ExecRaises e => raise e
  | ExecDone description rows rowcount => ret (description, rows, rowcount)
  end.

Definition conn_commit : M unit :=
  emit ECommit ;;
  match db_commit (db w) with
  | Some e => raise e
  | None => ret tt
  end.

(** [cursor.fetchmany(size)] on a cursor holding [rows]. *)
Definition fetchmany (size : option Z) (rows : list row) : M (list row) :=
  match size with
  | None => raise (mk_exn TypeError "an integer is required")
  | Some n =>
      if (0 <=? n)%Z then ret (firstn (Z.to_nat n) rows)
      else lift (db_fetchmany_negative (db w) n rows)
  end.

(* ------------------------------------------------------------------- *)
(** *** [format_query_result] *)

Definition format_query_result (columns : list string) (rows : list row)
           (max_rows : option Z) : json :=
  let max_rows := int_or max_rows (MAX_ROWS (cfg w)) in
  JDict [ ("columns", JList (map JStr columns));
          ("rows", JList (map (fun r => JList (map cell_json r)) (slice_to max_rows rows)));
          ("row_count", JInt (len rows));
          ("truncated", JBool (max_rows <? len rows)%Z);
          ("timestamp", JStr (now w)) ].

Definition database_error : clause json :=
  (is_pyodbc,
   fun e => let error_msg := "Database error: " ++ exn_str e in
            log ERROR error_msg ;; ret (error_envelope error_msg)).

Definition file_io_error : clause json :=
  (is_ioerror,
   fun e => let error_msg := "File I/O error: " ++ exn_str e in
            log ERROR error_msg ;; ret (error_envelope error_msg)).

Definition unexpected_error : clause json :=
  (is_exception,
   fun e => let error_msg := "Unexpected error: " ++ exn_str e in
            log ERROR error_msg ;; ret (error_envelope error_msg)).

(* ------------------------------------------------------------------- *)
(** *** [query_sql] *)

Definition query_sql (sql : string) (max_rows : option Z) : M json :=
  try_except
    (valid <- validate_sql_query sql ;;
     if negb valid then
       ret (error_envelope "Query validation failed. Potentially unsafe SQL detected.")
     else if negb (PyStr.startswith (PyStr.upper (PyStr.strip sql)) "SELECT") then
       ret (error_envelope
              "Only SELECT queries are allowed. Use execute_dml for INSERT/UPDATE/DELETE.")
     else
       get_db_connection
         (cur <- cursor_execute sql ;;
          let '(description, fetched, _) := cur in
          match description with
          | None =>
              ret (JDict [("message", JStr "Query executed successfully with no results")])
          | Some columns =>
              let rows := fetched in
              let result := format_query_result columns rows max_rows in
              log INFO ("Query executed successfully. Returned "
                          ++ str_int (len rows) ++ " rows") ;;
              ret result
          end))
    [ database_error; unexpected_error ].

(* ------------------------------------------------------------------- *)
(** *** [execute_dml] *)

Definition allowed_commands : list string := ["INSERT"; "UPDATE"; "DELETE"].

Definition execute_dml (sql : string) : M json :=
  try_except
    (valid <- validate_sql_query sql ;;
     if negb valid then
       ret (error_envelope "Query validation failed. Potentially unsafe SQL detected.")
     else
       let sql_upper := PyStr.upper (PyStr.strip sql) in
       if negb (existsb (fun cmd => PyStr.startswith sql_upper cmd) allowed_commands) then
         ret (error_envelope
                ("Only " ++ PyStr.join ", " allowed_commands ++ " statements are allowed."))
       else
         get_db_connection
           (cur <- cursor_execute sql ;;
            let '(_, _, rows_affected) := cur in
            conn_commit ;;
            log INFO ("DML executed successfully. "
                        ++ str_int rows_affected ++ " rows affected") ;;
            ret (JDict [ ("success", JBool true);
                         ("rows_affected", JInt rows_affected);
                         ("timestamp", JStr (now w)) ])))
    [ database_error ].

(* ------------------------------------------------------------------- *)
(** *** [export_to_csv] *)

(** [writer.writerow(row); rows_written += 1] for each row, on the file. *)
Fixpoint write_rows (path : string) (rows : list row) (rows_written : Z) : M Z :=
  match rows with
  | [] => ret rows_written
  | r :: rest =>
      emit (EWriteRow path r) ;;
      write_rows path rest (rows_written + 1)%Z
  end.

Definition open_write (path : string) : M unit :=
  emit (EOpenWrite path) ;;
  match fs_open_w (fs w) path with
  | Some e => raise e
  | None => ret tt
  end.

Definition makedirs (dir : string) : M unit :=
  emit (EMakedirs dir) ;;
  match fs_makedirs (fs w) dir with
  | Some e => raise e
  | None => ret tt
  end.

(** [os.path.getsize(path)]: the size of what the file now holds. *)
Definition getsize (path : string) : M Z :=
  fun t => (Ok (fs_getsize (fs w) path (file_lines path t)), t).

Definition header (columns : list string) : row := map VStr columns.

Definition export_to_csv (sql file_path : string) (max_rows : option Z) : M json :=
  try_except
    (valid <- validate_sql_query sql ;;
     if negb valid then
       ret (error_envelope "Query validation failed. Potentially unsafe SQL detected.")
     else if negb (PyStr.startswith (PyStr.upper (PyStr.strip sql)) "SELECT") then
       ret (error_envelope "Only SELECT queries are allowed for CSV export.")
     else
       bad_path <- try_except
         (let export_dir := fs_dirname (fs w) file_path in
          (if PyStr.truthy export_dir && negb (fs_exists (fs w) export_dir)
           then makedirs export_dir else ret tt) ;;
          ret None)
         [ (is_exception,
            fun e => ret (Some (error_envelope ("Invalid file path: " ++ exn_str e)))) ] ;;
       match bad_path with
       | Some envelope => ret envelope
       | None =>
           get_db_connection
             (cur <- cursor_execute sql ;;
              let '(description, pending, _) := cur in
              match description with
              | None => ret (error_envelope "Query returned no results to export")
              | Some columns =>
                  open_write file_path ;;
                  emit (EWriteRow file_path (header columns)) ;;
                  rows_written <-
                    (if int_truthy max_rows then
                       batch <- fetchmany max_rows pending ;;
                       write_rows file_path batch 0
                     else
                       write_rows file_path pending 0) ;;
                  file_size <- getsize file_path ;;
                  log INFO ("CSV export successful: " ++ str_int rows_written
                              ++ " rows written to " ++ file_path) ;;
                  ret (JDict [ ("success", JBool true);
                               ("file_path", JStr file_path);
                               ("rows_exported", JInt rows_written);
                               ("file_size_bytes", JInt file_size);
                               ("file_size_mb", JMegabytes file_size);
                               ("columns", JList (map JStr columns));
                               ("timestamp", JStr (now w)) ])
              end)
       end)
    [ database_error; file_io_error; unexpected_error ].

(* ------------------------------------------------------------------- *)
(** *** [query_to_csv] *)

(** [writer.writerow(row); rows_written += 1] for each row, on the
    in-memory buffer. *)
Fixpoint buffer_rows (rows : list row) (output : list row) (rows_written : Z)
  : list row * Z :=
  match rows with
  | [] => (output, rows_written)
  | r :: rest => buffer_rows rest (app output [r]) (rows_written + 1)%Z
  end.

(** [rows_written >= max_rows] *)
Definition ge_optional (rows_written : Z) (max_rows : option Z) : M bool :=
  match max_rows with
  | Some n => ret (n <=? rows_written)%Z
  | None =>
      raise (mk_exn TypeError
               "'>=' not supported between instances of 'int' and 'NoneType'")
  end.

Definition query_to_csv (sql : string) (max_rows : option Z) : M json :=
  try_except
    (valid <- validate_sql_query sql ;;
     if negb valid then
       ret (error_envelope "Query validation failed. Potentially unsafe SQL detected.")
     else if negb (PyStr.startswith (PyStr.upper (PyStr.strip sql)) "SELECT") then
       ret (error_envelope "Only SELECT queries are allowed for CSV download.")
     else
       get_db_connection
         (cur <- cursor_execute sql ;;
          let '(description, pending, _) := cur in
          match description with
          | None => ret (error_envelope "Query returned no results to convert to CSV")
          | Some columns =>
              batch <- fetchmany max_rows pending ;;
              let '(output, rows_written) := buffer_rows batch [header columns] 0 in
              let csv_content := JCsvText output in
              log INFO ("CSV generation successful: " ++ str_int rows_written ++ " rows") ;;
              truncated <- ge_optional rows_written max_rows ;;
              ret (JDict [ ("success", JBool true);
                           ("csv_content", csv_content);
                           ("rows", JInt rows_written);
                           ("columns", JInt (len columns));
                           ("truncated", JBool truncated);
                           ("timestamp", JStr (now w));
                           ("instructions",
                            JStr "Claude Desktop can save this as a downloadable CSV file") ])
          end))
    [ database_error; unexpected_error ].

(** The signature's default: [max_rows: Optional[int] = 10000]. *)
Definition query_to_csv_default (sql : string) : M json :=
  query_to_csv sql (Some 10000%Z).

End Tools.

(* ===================================================================== *)
(** ** Observations on envelopes and traces *)
(* ===================================================================== *)

(** The envelope has an [error] field holding a non-empty message. *)
Definition error_populated (envelope : json) : bool :=
  match field "error" envelope with
  | Some (JStr msg) => PyStr.truthy msg
  | _ => false
  end.

Definition has_field (k : string) (envelope : json) : bool :=
  match field k envelope with Some _ => true | None => false end.

(** Number of entries of the envelope's [rows] list. *)
Definition rows_length (envelope : json) : option Z :=
  match field "rows" envelope with
  | Some (JList items) => Some (len items)
  | _ => None
  end.

Definition is_connect (e : event) : bool :=
  match e with EConnect _ => true | _ => false end.

Definition is_execute (e : event) : bool :=
  match e with EExecute _ => true | _ => false end.

Definition is_commit (e : event) : bool :=
  match e with ECommit => true | _ => false end.

(** A connection was asked for at some point of the trace. *)
Definition acquires_connection (t : trace) : bool := existsb is_connect t.

(** Some statement was handed to the server. *)
Definition reaches_database (t : trace) : bool := existsb is_execute t.

Definition commits (t : trace) : bool := existsb is_commit t.

(** The warning the validator logs for a text: one line for the first rule
    that matched. *)
Definition warning (sql : string) : trace :=
  match matched_rule sql with
  | Some pattern => [ELog WARNING ("Blocked potentially dangerous SQL pattern: " ++ pattern)]
  | None => []
  end.

Fixpoint all_chars (P : ascii -> bool) (s : string) : bool :=
  match s with
  | EmptyString => true
  | String c r => P c && all_chars P r
  end.

Definition not_lower (c : ascii) : bool := negb (PyStr.is_lower c).

(** The connection can be opened: the configuration yields a connection
    string and the driver accepts it. *)
Definition connects (w : World) : Prop :=
  exists conn_str,
    get_connection_string (cfg w) = Ok conn_str /\
    db_connect (db w) conn_str (QUERY_TIMEOUT (cfg w)) = None.

(** The tool went through: it returned an envelope without an [error]
    field, and its run asked for a connection and handed a statement to the
    server. *)
Definition served (tool : M json) : Prop :=
  exists envelope t,
    run tool = (Ok envelope, t) /\
    has_field "error" envelope = false /\
    acquires_connection t = true /\
    reaches_database t = true.

(** The envelope of a validator rejection, the same in the four tools. *)
Definition validation_failed (w : World) : json :=
  error_envelope w "Query validation failed. Potentially unsafe SQL detected.".

(** The [finally] of [get_db_connection] once a connection is open. *)
Definition release : M unit :=
  emit EClose ;; log INFO "Database connection closed".

(** Row-cap accounting of a read envelope for [row_count] fetched rows under
    the cap [cap]. *)
Definition capped_envelope (envelope : json) (row_count cap : Z) : Prop :=
  rows_length envelope = Some (Z.min row_count cap) /\
  field "row_count" envelope = Some (JInt row_count) /\
  field "truncated" envelope = Some (JBool (cap <? row_count)%Z).

(** Whether the directory of the export file has to be created first. *)
Definition directory_missing (w : World) (file_path : string) : bool :=
  let export_dir := fs_dirname (fs w) file_path in
  PyStr.truthy export_dir && negb (fs_exists (fs w) export_dir).

(** The directory of the export file is there, or can be created. *)
Definition directory_ready (w : World) (file_path : string) : Prop :=
  directory_missing w file_path = true ->
  fs_makedirs (fs w) (fs_dirname (fs w) file_path) = None.

(** What preparing the directory leaves in the trace. *)
Definition directory_events (w : World) (file_path : string) : trace :=
  if directory_missing w file_path
  then [EMakedirs (fs_dirname (fs w) file_path)]
  else [].

(** The prefix tests of the entry points. *)
Definition starts_with_select (sql : string) : bool :=
  PyStr.startswith (PyStr.upper (PyStr.strip sql)) "SELECT".

Definition starts_with_dml_verb (sql : string) : bool :=
  existsb (fun cmd => PyStr.startswith (PyStr.upper (PyStr.strip sql)) cmd)
          allowed_commands.

(* ===================================================================== *)
(** ** The specification's wording, for comparison *)
(* ===================================================================== *)

Module Spec.

Fixpoint leading_word (s : string) : string :=
  match s with
  | EmptyString => EmptyString
  | String c r => if PyStr.is_word c then String c (leading_word r) else EmptyString
  end.

(** Section 4.1 of the specification: the first keyword token, case
    folded, leading whitespace trimmed. *)
Definition first_keyword (sql : string) : string :=
  PyStr.upper (leading_word (PyStr.lstrip sql)).

(** [needle in s] *)
Fixpoint contains (needle s : string) : bool :=
  if String.prefix needle s then true
  else match s with
       | EmptyString => false
       | String _ r => contains needle r
       end.

(** Section 4.2, rule 5 of the deny list: a dangerous procedure name
    (command execution: xp_cmdshell; dynamic SQL: sp_executesql) appears
    anywhere in the text, in any letter case. *)
Definition names_dangerous_procedure (sql : string) : bool :=
  if contains "xp_cmdshell" (PyStr.lower sql) then true
  else contains "sp_executesql" (PyStr.lower sql).

(** Section 6: the effective cap is the explicit request value, or the
    system default when there is none. *)
Definition effective_cap (max_rows : option Z) (default : Z) : Z :=
  match max_rows with
  | Some n => n
  | None => default
  end.

(** Section 3: [truncated] is true iff the actual row count exceeds the
    applied cap. *)
Definition truncated (row_count cap : Z) : bool := (cap <? row_count)%Z.

(** Section 8, second property: for an accepted SELECT whose execution
    yields a result set, the envelope is capped at the effective cap. *)
Definition read_query_claim (w : World) (sql : string) (max_rows : option Z) : Prop :=
  forall columns rows rowcount,
    accepts sql = true ->
    starts_with_select sql = true ->
    connects w ->
    db_execute (db w) sql = ExecDone (Some columns) rows rowcount ->
    exists envelope t,
      run (query_sql w sql max_rows) = (Ok envelope, t) /\
      capped_envelope envelope (len rows)
                      (effective_cap max_rows (MAX_ROWS (cfg w))).

(** Section 3 applied to the text export: [truncated] iff the result set
    has more rows than the cap. *)
Definition text_export_claim (w : World) (sql : string) (cap : Z) : Prop :=
  forall columns rows rowcount,
    accepts sql = true ->
    starts_with_select sql = true ->
    connects w ->
    db_execute (db w) sql = ExecDone (Some columns) rows rowcount ->
    exists envelope t,
      run (query_to_csv w sql (Some cap)) = (Ok envelope, t) /\
      field "truncated" envelope = Some (JBool (truncated (len rows) cap)).

End Spec.

(* ===================================================================== *)
(** ** Sample worlds *)
(* ===================================================================== *)

Module Samples.

Definition trusted : Config :=
  {| DRIVER := "ODBC Driver 17 for SQL Server";
     SERVER := "localhost";
     DATABASE := "ServiceNow";
     TRUSTED_CONNECTION := "yes";
     USERNAME := None;
     PASSWORD := None;
     MAX_ROWS := 1000;
     QUERY_TIMEOUT := 30 |}.

(** [DB_TRUSTED_CONNECTION=no] with no [DB_USERNAME] and [DB_PASSWORD]. *)
Definition no_credentials : Config :=
  {| DRIVER := "ODBC Driver 17 for SQL Server";
     SERVER := "localhost";
     DATABASE := "ServiceNow";
     TRUSTED_CONNECTION := "no";
     USERNAME := None;
     PASSWORD := None;
     MAX_ROWS := 1000;
     QUERY_TIMEOUT := 30 |}.

(** A server that answers every statement with the result set [rows] of
    one column [name]. *)
Definition serving (rows : list row) : Database :=
  {| db_connect := fun _ _ => None;
     db_execute := fun _ => ExecDone (Some ["name"]) rows (-1);
     db_commit := None;
     db_fetchmany_negative := fun _ _ => Ok [] |}.

(** A server on which every statement affects [n] rows. *)
Definition affecting (n : Z) : Database :=
  {| db_connect := fun _ _ => None;
     db_execute := fun _ => ExecDone None [] n;
     db_commit := None;
     db_fetchmany_negative := fun _ _ => Ok [] |}.

Definition disk : Filesystem :=
  {| fs_dirname := fun _ => "exports";
     fs_exists := fun _ => false;
     fs_makedirs := fun _ => None;
     fs_open_w := fun _ => None;
     fs_getsize := fun _ lines => (8 * len lines)%Z |}.

Definition clock : string := "2024-05-01T12:00:00".

Definition reading (rows : list row) : World :=
  {| cfg := trusted; db := serving rows; fs := disk; now := clock |}.

Definition mutating (n : Z) : World :=
  {| cfg := trusted; db := affecting n; fs := disk; now := clock |}.

Definition misconfigured : World :=
  {| cfg := no_credentials; db := affecting 1; fs := disk; now := clock |}.

Definition employees (n : nat) : list row :=
  map (fun i => [VStr ("employee " ++ str_int (Z.of_nat i))]) (seq 1 n).

End Samples.

(* ===================================================================== *)
(** ** What a computation adds to the trace *)
(* ===================================================================== *)

(** [c] only appends to the trace it is given, and what it appends
    satisfies [Q]. *)
Definition adds {A} (Q : trace -> Prop) (c : M A) : Prop :=
  forall t : trace, exists added : trace,
    snd (c t) = app t added /\ Q added.

(** Every event that [c] appends satisfies [P]. *)
Definition appends {A} (P : event -> bool) (c : M A) : Prop :=
  adds (fun added => forallb P added = true) c.

Definition is_close (e : event) : bool :=
  match e with EClose => true | _ => false end.

Definition is_file_event (e : event) : bool :=
  match e with
  | EMakedirs _ | EOpenWrite _ | EWriteRow _ _ => true
  | _ => false
  end.

(** Events of a tool that only reads: no commit and nothing on disk. *)
Definition read_only_event (e : event) : bool :=
  negb (is_commit e) && negb (is_file_event e).

(** Events that hand to the server no other text than [sql]. *)
Definition executes_only (sql : string) (e : event) : bool :=
  match e with
  | EExecute s => String.eqb s sql
  | _ => true
  end.

(** Events that touch no other file than [path] (and no directory but the
    one [dir]). *)
Definition writes_only (dir path : string) (e : event) : bool :=
  match e with
  | EMakedirs d => String.eqb d dir
  | EOpenWrite p => String.eqb p path
  | EWriteRow p _ => String.eqb p path
  | _ => true
  end.

(** [os.makedirs] is called only if [needed]. *)
Definition makedirs_only_if (needed : bool) (e : event) : bool :=
  match e with
  | EMakedirs _ => needed
  | _ => true
  end.

(** Events inside a [with get_db_connection()] block: neither a connect
    nor a close. *)
Definition inside_connection (e : event) : bool :=
  negb (is_connect e) && negb (is_close e).

(** Number of [conn.close()] calls in a trace. *)
Definition closes (t : trace) : nat := length (filter is_close t).

(** Number of [pyodbc.connect] calls in a trace. *)
Definition connects_tried (t : trace) : nat := length (filter is_connect t).

(** What [get_db_connection] logs when the exception [e] passes through its
    [except pyodbc.Error] clause. *)
Definition error_log (e : exn) : trace :=
  if is_pyodbc e
  then [ELog ERROR ("Database connection error: " ++ exn_str e)]
  else [].

Definition connection_error_log {A} (r : result A) : trace :=
  match r with
  | Raise e => error_log e
  | Ok _ => []
  end.

(** Whether the connection of the world [w] can be opened. *)
Definition can_connect (w : World) : bool :=
  match get_connection_string (cfg w) with
  | Ok conn_str =>
      match db_connect (db w) conn_str (QUERY_TIMEOUT (cfg w)) with
      | None => true
      | Some _ => false
      end
  | Raise _ => false
  end.

(** Every connection that was opened has been closed: as many closes as
    connects where the connect succeeds, none where it fails. *)
Definition balanced (w : World) (t : trace) : Prop :=
  closes t = if can_connect w then connects_tried t else 0.

(** What a successful connect, and the release, leave in the trace. *)
Definition established (conn_str : string) : trace :=
  [EConnect conn_str; ELog INFO "Database connection established"].

Definition closed : trace :=
  [EClose; ELog INFO "Database connection closed"].

(** A row as [format_query_result] puts it in the envelope. *)
Definition row_json (r : row) : json := JList (map cell_json r).

(** The body of the with-block of [export_to_csv]. *)
Definition export_body (w : World) (sql file_path : string) (max_rows : option Z)
  : M json :=
  bind (cursor_execute w sql)
    (fun cur =>
       let '(description, pending, _) := cur in
       match description with
       | None => ret (error_envelope w "Query returned no results to export")
       | Some columns =>
           bind (open_write w file_path) (fun _ =>
           bind (emit (EWriteRow file_path (header columns))) (fun _ =>
           bind (if int_truthy max_rows then
                   bind (fetchmany w max_rows pending)
                        (fun batch => write_rows file_path batch 0)
                 else
                   write_rows file_path pending 0) (fun rows_written =>
           bind (getsize w file_path) (fun file_size =>
           bind (log INFO ("CSV export successful: " ++ str_int rows_written
                             ++ " rows written to " ++ file_path)) (fun _ =>
           ret (JDict [ ("success", JBool true);
                        ("file_path", JStr file_path);
                        ("rows_exported", JInt rows_written);
                        ("file_size_bytes", JInt file_size);
                        ("file_size_mb", JMegabytes file_size);
                        ("columns", JList (map JStr columns));
                        ("timestamp", JStr (now w)) ]))))))
       end).

(** The body of the with-block of [query_to_csv]. *)
Definition text_export_body (w : World) (sql : string) (max_rows : option Z)
  : M json :=
  bind (cursor_execute w sql)
    (fun cur =>
       let '(description, pending, _) := cur in
       match description with
       | None => ret (error_envelope w "Query returned no results to convert to CSV")
       | Some columns =>
           bind (fetchmany w max_rows pending) (fun batch =>
           let '(output, rows_written) := buffer_rows batch [header columns] 0 in
           let csv_content := JCsvText output in
           bind (log INFO ("CSV generation successful: "
                             ++ str_int rows_written ++ " rows")) (fun _ =>
           bind (ge_optional rows_written max_rows) (fun truncated =>
           ret (JDict [ ("success", JBool true);
                        ("csv_content", csv_content);
                        ("rows", JInt rows_written);
                        ("columns", JInt (len columns));
                        ("truncated", JBool truncated);
                        ("timestamp", JStr (now w));
                        ("instructions",
                         JStr "Claude Desktop can save this as a downloadable CSV file") ]))))
       end).

(* ===================================================================== *)
(** ** Plain substring tests, to compare the patterns with *)
(* ===================================================================== *)

(** The text contains two hyphens in a row. *)
Fixpoint has_dashes (s : string) : bool :=
  match s with
  | EmptyString => false
  | String c r =>
      match r with
      | String d _ =>
          if Ascii.eqb c "-" && Ascii.eqb d "-" then true else has_dashes r
      | EmptyString => false
      end
  end.

(** The last character of a text, if any. *)
Fixpoint last_char (s : string) : option ascii :=
  match s with
  | EmptyString => None
  | String c EmptyString => Some c
  | String _ r => last_char r
  end.

(** A text that does not begin with whitespace. *)
Definition starts_clean (s : string) : Prop :=
  match s with
  | EmptyString => True
  | String c _ => PyStr.is_space c = false
  end.

(** The character before the current position when [x] has just been read
    and [prev] came before [x]. *)
Definition last_or (prev : option ascii) (x : string) : option ascii :=
  match last_char x with
  | Some c => Some c
  | None => prev
  end.

(* ===================================================================== *)
(** ** The texts of the catalog tools *)
(* ===================================================================== *)

(** The SQL of the schema, index, monitoring and maintenance tools, as the
    source has it between its triple quotes. A text into which the source
    interpolates arguments is cut at the holes: [_head] is what stands
    before the first hole, [_tail] what stands after the last one. *)
Module Sql.

Definition list_tables_head : string :=
"
        SELECT
            s.name AS schema_name,
            t.name AS table_name,
            p.rows AS row_count,
            CAST(ROUND(((SUM(a.total_pages) * 8) / 1024.00), 2) AS NUMERIC(36, 2)) AS total_space_mb
        FROM
            sys.tables t
        INNER JOIN
            sys.schemas s ON t.schema_id = s.schema_id
        INNER JOIN
            sys.indexes i ON t.object_id = i.object_id
        INNER JOIN
            sys.partitions p ON i.object_id = p.object_id AND i.index_id = p.index_id
        INNER JOIN
            sys.allocation_units a ON p.partition_id = a.container_id
        WHERE
            t.is_ms_shipped = 0
            AND i.index_id <= 1
        ".

Definition list_tables_tail : string :=
"
        GROUP BY
            s.name, t.name, p.rows
        ORDER BY
            s.name, t.name
        ".

Definition describe_table_head : string :=
"
        SELECT
            c.name AS column_name,
            t.name AS data_type,
            c.max_length,
            c.precision,
            c.scale,
            c.is_nullable,
            c.is_identity,
            ISNULL(dc.definition, '') AS default_value,
            ISNULL(pk.is_primary_key, 0) AS is_primary_key,
            ISNULL(fk.is_foreign_key, 0) AS is_foreign_key
        FROM
            sys.columns c
        INNER JOIN
            sys.types t ON c.user_type_id = t.user_type_id
        LEFT JOIN
            sys.default_constraints dc ON c.default_object_id = dc.object_id
        LEFT JOIN (
            SELECT ic.object_id, ic.column_id, 1 AS is_primary_key
            FROM sys.index_columns ic
            INNER JOIN sys.indexes i ON ic.object_id = i.object_id AND ic.index_id = i.index_id
            WHERE i.is_primary_key = 1
        ) pk ON c.object_id = pk.object_id AND c.column_id = pk.column_id
        LEFT JOIN (
            SELECT fkc.parent_object_id, fkc.parent_column_id, 1 AS is_foreign_key
            FROM sys.foreign_key_columns fkc
        ) fk ON c.object_id = fk.parent_object_id AND c.column_id = fk.parent_column_id
        WHERE
            c.object_id = OBJECT_ID('".

Definition describe_table_tail : string :=
"')
        ORDER BY
            c.column_id
        ".

Definition list_indexes : string :=
"
        SELECT
            s.name AS schema_name,
            t.name AS table_name,
            i.name AS index_name,
            i.type_desc AS index_type,
            i.is_unique,
            i.is_primary_key,
            STUFF((
                SELECT ', ' + c.name
                FROM sys.index_columns ic
                INNER JOIN sys.columns c ON ic.object_id = c.object_id AND ic.column_id = c.column_id
                WHERE ic.object_id = i.object_id AND ic.index_id = i.index_id
                ORDER BY ic.key_ordinal
                FOR XML PATH('')
            ), 1, 2, '') AS index_columns,
            ps.used_page_count * 8 / 1024.0 AS index_size_mb,
            ps.row_count
        FROM
            sys.indexes i
        INNER JOIN
            sys.tables t ON i.object_id = t.object_id
        INNER JOIN
            sys.schemas s ON t.schema_id = s.schema_id
        LEFT JOIN
            sys.dm_db_partition_stats ps ON i.object_id = ps.object_id AND i.index_id = ps.index_id
        WHERE
            t.is_ms_shipped = 0
        ".

Definition get_index_fragmentation : string :=
"
        SELECT
            OBJECT_SCHEMA_NAME(ips.object_id) AS schema_name,
            OBJECT_NAME(ips.object_id) AS table_name,
            i.name AS index_name,
            ips.index_type_desc,
            ips.avg_fragmentation_in_percent,
            ips.page_count,
            CASE
                WHEN ips.avg_fragmentation_in_percent > 30 THEN 'REBUILD'
                WHEN ips.avg_fragmentation_in_percent > 10 THEN 'REORGANIZE'
                ELSE 'OK'
            END AS recommendation
        FROM
            sys.dm_db_index_physical_stats(DB_ID(), NULL, NULL, NULL, 'LIMITED') ips
        INNER JOIN
            sys.indexes i ON ips.object_id = i.object_id AND ips.index_id = i.index_id
        WHERE
            ips.avg_fragmentation_in_percent > 0
            AND ips.page_count > 100
        ".

Definition get_table_statistics : string :=
"
        SELECT
            s.name AS schema_name,
            t.name AS table_name,
            p.rows AS row_count,
            CAST(ROUND(((SUM(a.total_pages) * 8) / 1024.00), 2) AS NUMERIC(36, 2)) AS total_space_mb,
            CAST(ROUND(((SUM(a.used_pages) * 8) / 1024.00), 2) AS NUMERIC(36, 2)) AS used_space_mb,
            CAST(ROUND(((SUM(a.total_pages) - SUM(a.used_pages)) * 8) / 1024.00, 2) AS NUMERIC(36, 2)) AS unused_space_mb,
            STATS_DATE(t.object_id, i.index_id) AS last_stats_update
        FROM
            sys.tables t
        INNER JOIN
            sys.schemas s ON t.schema_id = s.schema_id
        INNER JOIN
            sys.indexes i ON t.object_id = i.object_id
        INNER JOIN
            sys.partitions p ON i.object_id = p.object_id AND i.index_id = p.index_id
        INNER JOIN
            sys.allocation_units a ON p.partition_id = a.container_id
        WHERE
            t.is_ms_shipped = 0
            AND i.index_id <= 1
        GROUP BY
            s.name, t.name, t.object_id, i.index_id, p.rows
        ORDER BY
            total_space_mb DESC
        ".

Definition get_active_sessions : string :=
"
        SELECT
            s.session_id,
            s.login_name,
            s.host_name,
            s.program_name,
            s.status,
            s.cpu_time,
            s.memory_usage,
            s.total_elapsed_time,
            s.last_request_start_time,
            s.last_request_end_time,
            r.command,
            r.wait_type,
            r.wait_time,
            DB_NAME(s.database_id) AS database_name,
            SUBSTRING(
                st.text,
                (r.statement_start_offset/2) + 1,
                ((CASE r.statement_end_offset
                    WHEN -1 THEN DATALENGTH(st.text)
                    ELSE r.statement_end_offset
                END - r.statement_start_offset)/2) + 1
            ) AS executing_query
        FROM
            sys.dm_exec_sessions s
        LEFT JOIN
            sys.dm_exec_requests r ON s.session_id = r.session_id
        OUTER APPLY
            sys.dm_exec_sql_text(r.sql_handle) st
        WHERE
            s.is_user_process = 1
            AND s.session_id != @@SPID
        ORDER BY
            s.last_request_start_time DESC
        ".

Definition get_long_running_queries_head : string :=
"
        SELECT
            r.session_id,
            s.login_name,
            s.host_name,
            DB_NAME(r.database_id) AS database_name,
            r.status,
            r.command,
            r.cpu_time,
            r.total_elapsed_time / 1000 AS elapsed_seconds,
            r.wait_type,
            r.wait_time,
            r.blocking_session_id,
            SUBSTRING(
                st.text,
                (r.statement_start_offset/2) + 1,
                ((CASE r.statement_end_offset
                    WHEN -1 THEN DATALENGTH(st.text)
                    ELSE r.statement_end_offset
                END - r.statement_start_offset)/2) + 1
            ) AS query_text
        FROM
            sys.dm_exec_requests r
        INNER JOIN
            sys.dm_exec_sessions s ON r.session_id = s.session_id
        CROSS APPLY
            sys.dm_exec_sql_text(r.sql_handle) st
        WHERE
            r.total_elapsed_time / 1000 >= ".

Definition get_long_running_queries_tail : string :=
"
        ORDER BY
            r.total_elapsed_time DESC
        ".

Definition get_blocking_sessions : string :=
"
        SELECT
            blocking.session_id AS blocking_session_id,
            blocking_s.login_name AS blocking_login,
            blocking_s.host_name AS blocking_host,
            blocked.session_id AS blocked_session_id,
            blocked_s.login_name AS blocked_login,
            blocked_s.host_name AS blocked_host,
            blocked.wait_type,
            blocked.wait_time / 1000 AS wait_seconds,
            SUBSTRING(
                blocking_st.text,
                (blocking_r.statement_start_offset/2) + 1,
                ((CASE blocking_r.statement_end_offset
                    WHEN -1 THEN DATALENGTH(blocking_st.text)
                    ELSE blocking_r.statement_end_offset
                END - blocking_r.statement_start_offset)/2) + 1
            ) AS blocking_query,
            SUBSTRING(
                blocked_st.text,
                (blocked.statement_start_offset/2) + 1,
                ((CASE blocked.statement_end_offset
                    WHEN -1 THEN DATALENGTH(blocked_st.text)
                    ELSE blocked.statement_end_offset
                END - blocked.statement_start_offset)/2) + 1
            ) AS blocked_query
        FROM
            sys.dm_exec_requests blocked
        INNER JOIN
            sys.dm_exec_sessions blocking ON blocked.blocking_session_id = blocking.session_id
        INNER JOIN
            sys.dm_exec_sessions blocked_s ON blocked.session_id = blocked_s.session_id
        INNER JOIN
            sys.dm_exec_sessions blocking_s ON blocking.session_id = blocking_s.session_id
        LEFT JOIN
            sys.dm_exec_requests blocking_r ON blocking.session_id = blocking_r.session_id
        CROSS APPLY
            sys.dm_exec_sql_text(blocked.sql_handle) blocked_st
        OUTER APPLY
            sys.dm_exec_sql_text(blocking_r.sql_handle) blocking_st
        WHERE
            blocked.blocking_session_id > 0
        ORDER BY
            blocked.wait_time DESC
        ".

Definition get_database_info : string :=
"
        SELECT
            name AS database_name,
            database_id,
            compatibility_level,
            collation_name,
            state_desc AS state,
            recovery_model_desc AS recovery_model,
            page_verify_option_desc AS page_verify,
            is_auto_close_on,
            is_auto_shrink_on,
            is_auto_create_stats_on,
            is_auto_update_stats_on,
            snapshot_isolation_state_desc,
            is_read_committed_snapshot_on,
            create_date,
            (
                SELECT SUM(size) * 8.0 / 1024
                FROM sys.master_files
                WHERE database_id = d.database_id AND type = 0
            ) AS data_size_mb,
            (
                SELECT SUM(size) * 8.0 / 1024
                FROM sys.master_files
                WHERE database_id = d.database_id AND type = 1
            ) AS log_size_mb
        FROM
            sys.databases d
        WHERE
            name = DB_NAME()
        ".

Definition get_backup_history_head : string :=
"
        SELECT
            bs.database_name,
            bs.backup_start_date,
            bs.backup_finish_date,
            DATEDIFF(SECOND, bs.backup_start_date, bs.backup_finish_date) AS duration_seconds,
            bs.type AS backup_type,
            CASE bs.type
                WHEN 'D' THEN 'Full'
                WHEN 'I' THEN 'Differential'
                WHEN 'L' THEN 'Log'
                ELSE 'Other'
            END AS backup_type_desc,
            bs.backup_size / 1024.0 / 1024.0 AS backup_size_mb,
            bs.compressed_backup_size / 1024.0 / 1024.0 AS compressed_size_mb,
            bmf.physical_device_name,
            bs.user_name,
            bs.is_copy_only
        FROM
            msdb.dbo.backupset bs
        INNER JOIN
            msdb.dbo.backupmediafamily bmf ON bs.media_set_id = bmf.media_set_id
        WHERE
            bs.database_name = DB_NAME()
            AND bs.backup_start_date >= DATEADD(DAY, -".

Definition get_backup_history_tail : string :=
", GETDATE())
        ORDER BY
            bs.backup_start_date DESC
        ".

Definition get_database_files : string :=
"
        SELECT
            name AS file_name,
            type_desc AS file_type,
            physical_name,
            size * 8.0 / 1024 AS size_mb,
            max_size,
            CASE max_size
                WHEN -1 THEN 'Unlimited'
                WHEN 268435456 THEN 'Unlimited'
                ELSE CAST(max_size * 8.0 / 1024 AS VARCHAR(50)) + ' MB'
            END AS max_size_desc,
            growth,
            CASE is_percent_growth
                WHEN 1 THEN CAST(growth AS VARCHAR(10)) + '%'
                ELSE CAST(growth * 8 / 1024 AS VARCHAR(10)) + ' MB'
            END AS growth_desc,
            state_desc AS state
        FROM
            sys.database_files
        ORDER BY
            file_id
        ".

Definition get_wait_statistics : string :=
"
        SELECT TOP 20
            wait_type,
            wait_time_ms / 1000.0 AS wait_time_seconds,
            waiting_tasks_count,
            (wait_time_ms / 1000.0) / NULLIF(waiting_tasks_count, 0) AS avg_wait_time_seconds,
            max_wait_time_ms / 1000.0 AS max_wait_time_seconds,
            signal_wait_time_ms / 1000.0 AS signal_wait_time_seconds
        FROM
            sys.dm_os_wait_stats
        WHERE
            wait_type NOT IN (
                'CLR_SEMAPHORE', 'LAZYWRITER_SLEEP', 'RESOURCE_QUEUE',
                'SLEEP_TASK', 'SLEEP_SYSTEMTASK', 'SQLTRACE_BUFFER_FLUSH',
                'WAITFOR', 'LOGMGR_QUEUE', 'CHECKPOINT_QUEUE',
                'REQUEST_FOR_DEADLOCK_SEARCH', 'XE_TIMER_EVENT', 'BROKER_TO_FLUSH',
                'BROKER_TASK_STOP', 'CLR_MANUAL_EVENT', 'CLR_AUTO_EVENT',
                'DISPATCHER_QUEUE_SEMAPHORE', 'FT_IFTS_SCHEDULER_IDLE_WAIT',
                'XE_DISPATCHER_WAIT', 'XE_DISPATCHER_JOIN', 'SQLTRACE_INCREMENTAL_FLUSH_SLEEP'
            )
        ORDER BY
            wait_time_ms DESC
        ".

End Sql.

(* ===================================================================== *)
(** ** The catalog tools *)
(* ===================================================================== *)

Section Catalog.

Variable w : World.

(** [columns = [col[0] for col in cursor.description]]: iterating [None]
    is a [TypeError]. *)
Definition column_names (description : option (list string)) : M (list string) :=
  match description with
  | Some columns => ret columns
  | None => raise (mk_exn TypeError "'NoneType' object is not iterable")
  end.

(** The block that the thirteen catalog tools share, after they have built
    their [query]: execute it on a fresh connection, shape the rows with
    the tool's cap, log the tool's line, return; a [pyodbc.Error] becomes an
    error envelope. *)
Definition run_catalog_query (query : string) (max_rows : option Z)
           (info : list row -> string) : M json :=
  try_except
    (get_db_connection w
       (cur <- cursor_execute w query ;;
        let '(description, fetched, _) := cur in
        columns <- column_names description ;;
        let rows := fetched in
        let result_json := format_query_result w columns rows max_rows in
        log INFO (info rows) ;;
        ret result_json))
    [ database_error w ].

Definition list_tables_query (schema : option string) : string :=
  Sql.list_tables_head
  ++ (match schema with
      | Some s => if PyStr.truthy s then " AND s.name = '" ++ s ++ "'" else ""
      | None => ""
      end)
  ++ Sql.list_tables_tail.

Definition list_tables (schema : option string) : M json :=
  run_catalog_query (list_tables_query schema) None
    (fun rows => "Listed " ++ str_int (len rows) ++ " tables").

Definition describe_table_query (table_name schema : string) : string :=
  Sql.describe_table_head ++ schema ++ "." ++ table_name ++ Sql.describe_table_tail.

Definition describe_table (table_name schema : string) : M json :=
  run_catalog_query (describe_table_query table_name schema) None
    (fun _ => "Described table " ++ schema ++ "." ++ table_name).

Definition get_table_sample_query (table_name schema : string) (limit : Z) : string :=
  "SELECT TOP " ++ str_int limit ++ " * FROM " ++ schema ++ "." ++ table_name.

Definition get_table_sample (table_name schema : string) (limit : Z) : M json :=
  run_catalog_query (get_table_sample_query table_name schema limit) (Some limit)
    (fun _ => "Retrieved " ++ str_int limit ++ " sample rows from "
                ++ schema ++ "." ++ table_name).

Definition list_indexes_query (table_name : option string) (schema : string) : string :=
  Sql.list_indexes
  ++ (match table_name with
      | Some t =>
          if PyStr.truthy t
          then " AND t.name = '" ++ t ++ "' AND s.name = '" ++ schema ++ "'"
          else ""
      | None => ""
      end)
  ++ " ORDER BY s.name, t.name, i.name".

Definition list_indexes (table_name : option string) (schema : string) : M json :=
  run_catalog_query (list_indexes_query table_name schema) None
    (fun _ => "Listed indexes").

Definition get_index_fragmentation_query
           (table_name : option string) (schema : string) : string :=
  Sql.get_index_fragmentation
  ++ (match table_name with
      | Some t =>
          if PyStr.truthy t
          then " AND OBJECT_NAME(ips.object_id) = '" ++ t
               ++ "' AND OBJECT_SCHEMA_NAME(ips.object_id) = '" ++ schema ++ "'"
          else ""
      | None => ""
      end)
  ++ " ORDER BY ips.avg_fragmentation_in_percent DESC".

Definition get_index_fragmentation
           (table_name : option string) (schema : string) : M json :=
  run_catalog_query (get_index_fragmentation_query table_name schema) None
    (fun _ => "Analyzed index fragmentation").

Definition get_table_statistics : M json :=
  run_catalog_query Sql.get_table_statistics None (fun _ => "Retrieved table statistics").

Definition get_active_sessions : M json :=
  run_catalog_query Sql.get_active_sessions (Some 100%Z) (fun _ => "Retrieved active sessions").

Definition get_long_running_queries_query (min_duration_seconds : Z) : string :=
  Sql.get_long_running_queries_head ++ str_int min_duration_seconds ++ Sql.get_long_running_queries_tail.

Definition get_long_running_queries (min_duration_seconds : Z) : M json :=
  run_catalog_query (get_long_running_queries_query min_duration_seconds)
    (Some 100%Z) (fun _ => "Retrieved long-running queries").

Definition get_blocking_sessions : M json :=
  run_catalog_query Sql.get_blocking_sessions (Some 100%Z) (fun _ => "Retrieved blocking sessions").

Definition get_database_info : M json :=
  run_catalog_query Sql.get_database_info None (fun _ => "Retrieved database information").

Definition get_backup_history_query (days : Z) : string :=
  Sql.get_backup_history_head ++ str_int days ++ Sql.get_backup_history_tail.

Definition get_backup_history (days : Z) : M json :=
  run_catalog_query (get_backup_history_query days) None
    (fun _ => "Retrieved backup history for last " ++ str_int days ++ " days").

Definition get_database_files : M json :=
  run_catalog_query Sql.get_database_files None (fun _ => "Retrieved database file information").

Definition get_wait_statistics : M json :=
  run_catalog_query Sql.get_wait_statistics None (fun _ => "Retrieved wait statistics").

End Catalog.

(** The thirteen catalog tools at given arguments, each with the text it
    executes and the cap it passes to [format_query_result]. *)
Record catalog_args := {
  arg_schema_filter : option string;   (* list_tables(schema) *)
  arg_table_filter : option string;    (* list_indexes / get_index_fragmentation(table_name) *)
  arg_table_name : string;             (* describe_table / get_table_sample(table_name) *)
  arg_schema : string;                 (* schema of the four tools above *)
  arg_limit : Z;                       (* get_table_sample(limit) *)
  arg_min_duration_seconds : Z;        (* get_long_running_queries *)
  arg_days : Z                         (* get_backup_history *)
}.

Definition catalog (w : World) (a : catalog_args)
  : list (string * option Z * M json) :=
  [ (list_tables_query (arg_schema_filter a), None,
     list_tables w (arg_schema_filter a));
    (describe_table_query (arg_table_name a) (arg_schema a), None,
     describe_table w (arg_table_name a) (arg_schema a));
    (get_table_sample_query (arg_table_name a) (arg_schema a) (arg_limit a),
     Some (arg_limit a),
     get_table_sample w (arg_table_name a) (arg_schema a) (arg_limit a));
    (list_indexes_query (arg_table_filter a) (arg_schema a), None,
     list_indexes w (arg_table_filter a) (arg_schema a));
    (get_index_fragmentation_query (arg_table_filter a) (arg_schema a), None,
     get_index_fragmentation w (arg_table_filter a) (arg_schema a));
    (Sql.get_table_statistics, None, get_table_statistics w);
    (Sql.get_active_sessions, Some 100%Z, get_active_sessions w);
    (get_long_running_queries_query (arg_min_duration_seconds a), Some 100%Z,
     get_long_running_queries w (arg_min_duration_seconds a));
    (Sql.get_blocking_sessions, Some 100%Z, get_blocking_sessions w);
    (Sql.get_database_info, None, get_database_info w);
    (get_backup_history_query (arg_days a), None, get_backup_history w (arg_days a));
    (Sql.get_database_files, None, get_database_files w);
    (Sql.get_wait_statistics, None, get_wait_statistics w) ].

(** The defaults of the signatures: no filter, schema [dbo], [limit=10],
    [min_duration_seconds=10], [days=7]. *)
Definition default_args (table_name : string) : catalog_args :=
  {| arg_schema_filter := None;
     arg_table_filter := None;
     arg_table_name := table_name;
     arg_schema := "dbo";
     arg_limit := 10;
     arg_min_duration_seconds := 10;
     arg_days := 7 |}.

(* ===================================================================== *)
(** ** [verify_installation.py]: the version check *)
(* ===================================================================== *)

(** [check_python_version()], on the [sys.version_info] it reads: the
    verdict and the lines it prints. *)
Definition check_python_version (major minor micro : Z) : bool * list string :=
  let banner := "Python Version: " ++ str_int major ++ "." ++ str_int minor
                  ++ "." ++ str_int micro in
  if (3 <=? major)%Z && (8 <=? minor)%Z
  then (true, [banner; "  [OK] Python version is compatible"])
  else (false, [banner; "  [ERROR] Python 3.8+ required"]).

(** What the message of the check asks for: version 3.8 or later. *)
Definition at_least_3_8 (major minor : Z) : bool :=
  (3 <? major)%Z || ((major =? 3)%Z && (8 <=? minor)%Z).

(** A text without a line feed. *)
Definition on_one_line (s : string) : bool :=
  all_chars (fun c => negb (Nat.eqb (PyStr.code c) 10)) s.

(* ===================================================================== *)
(** ** Facts about strings and patterns *)
(* ===================================================================== *)

Ltac by_cases_on_char c :=
  destruct c as [[] [] [] [] [] [] [] []]; reflexivity.

Lemma upper_char_not_lower (c : ascii) : not_lower (PyStr.upper_char c) = true.
Proof. by_cases_on_char c. Qed.

Lemma upper_has_no_lower (s : string) : all_chars not_lower (PyStr.upper s) = true.
Proof.
  induction s as [|c r IH]; simpl.
  - reflexivity.
  - now rewrite upper_char_not_lower, IH.
Qed.

Lemma lstrip_all_chars P (s : string) :
  all_chars P s = true -> all_chars P (PyStr.lstrip s) = true.
Proof.
  induction s as [|c r IH]; simpl; intros H.
  - reflexivity.
  - destruct (PyStr.is_space c).
    + apply IH. now apply andb_prop in H.
    + exact H.
Qed.

Lemma rstrip_all_chars P (s : string) :
  all_chars P s = true -> all_chars P (PyStr.rstrip s) = true.
Proof.
  induction s as [|c r IH]; simpl; intros H.
  - reflexivity.
  - apply andb_prop in H. destruct H as [Hc Hr].
    specialize (IH Hr).
    destruct (PyStr.rstrip r) as [|d r'].
    + destruct (PyStr.is_space c); simpl; [reflexivity | now rewrite Hc].
    + simpl. simpl in IH. now rewrite Hc, IH.
Qed.

Lemma sql_upper_has_no_lower (sql : string) :
  all_chars not_lower (PyStr.strip (PyStr.upper sql)) = true.
Proof.
  unfold PyStr.strip.
  apply rstrip_all_chars, lstrip_all_chars, upper_has_no_lower.
Qed.

(** A pattern that begins with a lower-case literal finds nothing in a text
    without lower-case letters. *)
Lemma lower_literal_never_found (d : ascii) (rest : Re.regex) (s : string) :
  PyStr.is_lower d = true ->
  all_chars not_lower s = true ->
  forall prev, Re.search_from (Re.Rep Re.Once (Re.CLit d) :: rest) prev s = false.
Proof.
  intros Hd. induction s as [|c r IH]; intros Hs prev.
  - reflexivity.
  - simpl in Hs. apply andb_prop in Hs. destruct Hs as [Hc Hr].
    cbn [Re.search_from Re.match_here Re.in_class].
    destruct (Ascii.eqb_spec c d) as [->|_].
    + unfold not_lower in Hc. rewrite Hd in Hc. discriminate.
    + now apply IH.
Qed.

(** The run of the validator: its verdict is [accepts], and it logs the
    first rule that matched. *)
Lemma validate_loop_run (patterns : list string) (s : string) (t : trace) :
  validate_loop patterns s t =
  (Ok (forallb (fun pattern => negb (Re.search pattern s)) patterns),
   app t match find (fun pattern => Re.search pattern s) patterns with
         | Some pattern =>
             [ELog WARNING ("Blocked potentially dangerous SQL pattern: " ++ pattern)]
         | None => []
         end).
Proof.
  induction patterns as [|p rest IH]; simpl.
  - unfold ret. now rewrite app_nil_r.
  - destruct (Re.search p s); simpl.
    + reflexivity.
    + apply IH.
Qed.

Lemma validate_sql_query_run (sql : string) (t : trace) :
  validate_sql_query sql t = (Ok (accepts sql), app t (warning sql)).
Proof. apply validate_loop_run. Qed.

Lemma accepts_iff_no_rule (sql : string) :
  accepts sql = true <-> matched_rule sql = None.
Proof.
  unfold accepts, matched_rule.
  induction dangerous_patterns as [|p rest IH]; simpl.
  - tauto.
  - destruct (Re.search p _); simpl.
    + split; discriminate.
    + exact IH.
Qed.

Lemma rejects_iff_some_rule (sql : string) :
  accepts sql = false <->
  exists pattern, In pattern dangerous_patterns /\
                  Re.search pattern (PyStr.strip (PyStr.upper sql)) = true.
Proof.
  unfold accepts. rewrite <- not_true_iff_false, forallb_forall. split.
  - intros H.
    destruct (existsb (fun p => Re.search p (PyStr.strip (PyStr.upper sql)))
                      dangerous_patterns) eqn:E.
    + apply existsb_exists in E. exact E.
    + exfalso. apply H. intros p Hp.
      destruct (Re.search p _) eqn:Ep; [|reflexivity].
      assert (existsb (fun p => Re.search p (PyStr.strip (PyStr.upper sql)))
                      dangerous_patterns = true)
        by (apply existsb_exists; eauto).
      congruence.
  - intros (p & Hin & Hp) H. specialize (H p Hin). rewrite Hp in H. discriminate.
Qed.

Lemma accepted_logs_nothing (sql : string) :
  accepts sql = true -> warning sql = [].
Proof.
  intros H. unfold warning.
  now rewrite (proj1 (accepts_iff_no_rule sql) H).
Qed.

Lemma rejected_logs_only (sql : string) :
  acquires_connection (warning sql) = false /\
  reaches_database (warning sql) = false.
Proof. unfold warning. destruct (matched_rule sql); split; reflexivity. Qed.

(** The validator rejects exactly the texts that some pattern of its list
    matches, and the warning names the first such pattern. *)
Lemma validator_follows_its_list (sql : string) :
  (fst (run (validate_sql_query sql)) = Ok false <->
   exists pattern, In pattern dangerous_patterns /\
                   Re.search pattern (PyStr.strip (PyStr.upper sql)) = true) /\
  snd (run (validate_sql_query sql)) = warning sql.
Proof.
  unfold run. rewrite validate_sql_query_run. simpl. split; [|reflexivity].
  rewrite <- rejects_iff_some_rule. split.
  - intros H. now injection H.
  - intros ->. reflexivity.
Qed.

(* ===================================================================== *)
(** ** Facts about the entry points *)
(* ===================================================================== *)

Section ToolFacts.

Variable w : World.

(** *** Rejection by the validator comes first *)

Lemma query_sql_rejected sql max_rows :
  accepts sql = false ->
  run (query_sql w sql max_rows) = (Ok (validation_failed w), warning sql).
Proof.
  intros H. unfold run, query_sql, try_except, bind.
  rewrite validate_sql_query_run, H. reflexivity.
Qed.

Lemma execute_dml_rejected sql :
  accepts sql = false ->
  run (execute_dml w sql) = (Ok (validation_failed w), warning sql).
Proof.
  intros H. unfold run, execute_dml, try_except, bind.
  rewrite validate_sql_query_run, H. reflexivity.
Qed.

Lemma export_to_csv_rejected sql file_path max_rows :
  accepts sql = false ->
  run (export_to_csv w sql file_path max_rows) = (Ok (validation_failed w), warning sql).
Proof.
  intros H. unfold run, export_to_csv, try_except, bind.
  rewrite validate_sql_query_run, H. reflexivity.
Qed.

Lemma query_to_csv_rejected sql max_rows :
  accepts sql = false ->
  run (query_to_csv w sql max_rows) = (Ok (validation_failed w), warning sql).
Proof.
  intros H. unfold run, query_to_csv, try_except, bind.
  rewrite validate_sql_query_run, H. reflexivity.
Qed.

(** *** The prefix tests *)

Lemma query_sql_not_select sql max_rows :
  accepts sql = true ->
  starts_with_select sql = false ->
  run (query_sql w sql max_rows) =
  (Ok (error_envelope w
         "Only SELECT queries are allowed. Use execute_dml for INSERT/UPDATE/DELETE."),
   []).
Proof.
  intros Ha Hs. unfold run, query_sql, try_except, bind.
  rewrite validate_sql_query_run, Ha, (accepted_logs_nothing _ Ha).
  unfold starts_with_select in Hs. simpl. now rewrite Hs.
Qed.

Lemma execute_dml_not_dml sql :
  accepts sql = true ->
  starts_with_dml_verb sql = false ->
  run (execute_dml w sql) =
  (Ok (error_envelope w "Only INSERT, UPDATE, DELETE statements are allowed."), []).
Proof.
  intros Ha Hs. unfold run, execute_dml, try_except, bind.
  rewrite validate_sql_query_run, Ha, (accepted_logs_nothing _ Ha).
  unfold starts_with_dml_verb in Hs. rewrite Hs. reflexivity.
Qed.

(** *** The connection *)

Lemma get_db_connection_connected {A} (body : M A) conn_str t :
  get_connection_string (cfg w) = Ok conn_str ->
  db_connect (db w) conn_str (QUERY_TIMEOUT (cfg w)) = None ->
  get_db_connection w body t =
  try_finally (try_except body [connection_error]) release
    (app t [EConnect conn_str; ELog INFO "Database connection established"]).
Proof.
  intros Hs Hc.
  unfold get_db_connection, bind, attempt, try_except, lift, pyodbc_connect,
    bind, emit, log, emit.
  rewrite Hs, Hc. unfold ret. rewrite <- app_assoc. reflexivity.
Qed.

(** A configuration without credentials: nothing is opened and the
    [ValueError] leaves the context manager as it is. *)
Lemma get_db_connection_unconfigured {A} (body : M A) e t :
  get_connection_string (cfg w) = Raise e ->
  is_pyodbc e = false ->
  get_db_connection w body t = (Raise e, t).
Proof.
  intros Hs He.
  unfold get_db_connection, bind, attempt, try_except, lift.
  rewrite Hs. simpl. rewrite He. reflexivity.
Qed.

End ToolFacts.

Section Mutation.

Variable w : World.

(** The whole run of an accepted mutation on a server that executes and
    commits it. *)
Lemma execute_dml_success sql conn_str description rows rows_affected :
  accepts sql = true ->
  starts_with_dml_verb sql = true ->
  get_connection_string (cfg w) = Ok conn_str ->
  db_connect (db w) conn_str (QUERY_TIMEOUT (cfg w)) = None ->
  db_execute (db w) sql = ExecDone description rows rows_affected ->
  db_commit (db w) = None ->
  run (execute_dml w sql) =
  (Ok (JDict [ ("success", JBool true);
               ("rows_affected", JInt rows_affected);
               ("timestamp", JStr (now w)) ]),
   [ EConnect conn_str;
     ELog INFO "Database connection established";
     EExecute sql;
     ECommit;
     ELog INFO ("DML executed successfully. " ++ str_int rows_affected ++ " rows affected");
     EClose;
     ELog INFO "Database connection closed" ]).
Proof.
  intros Ha Hv Hs Hc He Hk.
  unfold run, execute_dml, try_except at 1, bind at 1.
  rewrite validate_sql_query_run, Ha, (accepted_logs_nothing _ Ha).
  unfold starts_with_dml_verb in Hv. rewrite Hv.
  cbn [negb app].
  rewrite (get_db_connection_connected w _ conn_str [] Hs Hc).
  unfold try_finally, try_except, release, bind, cursor_execute, conn_commit,
    bind, log, emit, ret.
  rewrite He, Hk. reflexivity.
Qed.

(** An exception that is not a [pyodbc.Error], raised while the
    connection string is built, meets no [except] clause on its way out of
    [execute_dml]. *)
Lemma execute_dml_unhandled sql e :
  accepts sql = true ->
  starts_with_dml_verb sql = true ->
  get_connection_string (cfg w) = Raise e ->
  is_pyodbc e = false ->
  run (execute_dml w sql) = (Raise e, []).
Proof.
  intros Ha Hv Hs He.
  unfold run, execute_dml, try_except at 1, bind at 1.
  rewrite validate_sql_query_run, Ha, (accepted_logs_nothing _ Ha).
  unfold starts_with_dml_verb in Hv. rewrite Hv.
  cbn [negb app].
  rewrite (get_db_connection_unconfigured w _ e [] Hs He).
  cbn [dispatch database_error fst]. rewrite He. reflexivity.
Qed.

(** The same exception in [query_sql] is taken by [except Exception]. *)
Lemma query_sql_unexpected sql max_rows e :
  accepts sql = true ->
  starts_with_select sql = true ->
  get_connection_string (cfg w) = Raise e ->
  is_pyodbc e = false ->
  run (query_sql w sql max_rows) =
  (Ok (error_envelope w ("Unexpected error: " ++ exn_str e)),
   [ELog ERROR ("Unexpected error: " ++ exn_str e)]).
Proof.
  intros Ha Hv Hs He.
  unfold run, query_sql, try_except at 1, bind at 1.
  rewrite validate_sql_query_run, Ha, (accepted_logs_nothing _ Ha).
  unfold starts_with_select in Hv. rewrite Hv.
  cbn [negb app].
  rewrite (get_db_connection_unconfigured w _ e [] Hs He).
  cbn [dispatch database_error fst]. rewrite He. reflexivity.
Qed.

(** When the connection string can be built and the driver raises nothing
    but [pyodbc.Error], [execute_dml] returns an envelope on every path:
    the success envelope, or one with [error] set. *)
Lemma execute_dml_formats_database_errors sql conn_str :
  get_connection_string (cfg w) = Ok conn_str ->
  (forall e, db_connect (db w) conn_str (QUERY_TIMEOUT (cfg w)) = Some e ->
             is_pyodbc e = true) ->
  (forall e, db_execute (db w) sql = ExecRaises e -> is_pyodbc e = true) ->
  (forall e, db_commit (db w) = Some e -> is_pyodbc e = true) ->
  exists envelope t,
    run (execute_dml w sql) = (Ok envelope, t) /\
    (field "success" envelope = Some (JBool true) \/
     error_populated envelope = true).
Proof.
  intros Hs Hconn Hexec Hcommit.
  destruct (accepts sql) eqn:Ha.
  2:{ eexists _, _. split; [now apply execute_dml_rejected|]. now right. }
  destruct (starts_with_dml_verb sql) eqn:Hv.
  2:{ eexists _, _. split; [now apply execute_dml_not_dml|]. now right. }
  unfold run, execute_dml, try_except at 1, bind at 1.
  rewrite validate_sql_query_run, Ha, (accepted_logs_nothing _ Ha).
  unfold starts_with_dml_verb in Hv. rewrite Hv.
  cbn [negb app].
  destruct (db_connect (db w) conn_str (QUERY_TIMEOUT (cfg w))) as [e|] eqn:Hc.
  - specialize (Hconn e eq_refl).
    unfold get_db_connection, bind, attempt, try_except, lift, pyodbc_connect,
      bind, emit.
    rewrite Hs, Hc. cbn [app raise dispatch connection_error fst snd].
    rewrite Hconn. unfold bind, log, emit, raise.
    cbn [dispatch database_error fst snd]. rewrite Hconn.
    unfold bind, log, emit, ret.
    eexists _, _. split; [reflexivity|]. now right.
  - rewrite (get_db_connection_connected w _ conn_str [] Hs Hc).
    unfold try_finally, try_except, release, bind, cursor_execute, conn_commit,
      bind, log, emit, ret, raise.
    destruct (db_execute (db w) sql) as [e|description rows rows_affected] eqn:He.
    + specialize (Hexec e eq_refl).
      cbn [app dispatch connection_error database_error fst snd].
      rewrite Hexec. unfold bind, log, emit, raise.
      cbn [dispatch database_error fst snd]. rewrite Hexec.
      unfold bind, log, emit, ret.
      eexists _, _. split; [reflexivity|]. now right.
    + destruct (db_commit (db w)) as [e|] eqn:Hk.
      * specialize (Hcommit e eq_refl).
        cbn [app dispatch connection_error database_error fst snd].
        rewrite Hcommit. unfold bind, log, emit, raise.
        cbn [dispatch database_error fst snd]. rewrite Hcommit.
        unfold bind, log, emit, ret.
        eexists _, _. split; [reflexivity|]. now right.
      * eexists _, _. split; [reflexivity|]. now left.
Qed.

End Mutation.

Section Reading.

Variable w : World.

(** The whole run of an accepted SELECT whose execution yields a result
    set. *)
Lemma query_sql_result_set sql max_rows conn_str columns rows rowcount :
  accepts sql = true ->
  starts_with_select sql = true ->
  get_connection_string (cfg w) = Ok conn_str ->
  db_connect (db w) conn_str (QUERY_TIMEOUT (cfg w)) = None ->
  db_execute (db w) sql = ExecDone (Some columns) rows rowcount ->
  run (query_sql w sql max_rows) =
  (Ok (format_query_result w columns rows max_rows),
   [ EConnect conn_str;
     ELog INFO "Database connection established";
     EExecute sql;
     ELog INFO ("Query executed successfully. Returned "
                  ++ str_int (len rows) ++ " rows");
     EClose;
     ELog INFO "Database connection closed" ]).
Proof.
  intros Ha Hv Hs Hc He.
  unfold run, query_sql, try_except at 1, bind at 1.
  rewrite validate_sql_query_run, Ha, (accepted_logs_nothing _ Ha).
  unfold starts_with_select in Hv. rewrite Hv.
  cbn [negb app].
  rewrite (get_db_connection_connected w _ conn_str [] Hs Hc).
  unfold try_finally, try_except, release, bind, cursor_execute,
    bind, log, emit, ret.
  rewrite He. reflexivity.
Qed.

Lemma slice_to_length {A} (n : Z) (l : list A) :
  (0 <= n)%Z -> len (slice_to n l) = Z.min (len l) n.
Proof.
  intros Hn. unfold slice_to, len.
  destruct (Z.leb_spec 0 n); [|lia].
  rewrite length_firstn. lia.
Qed.

Lemma format_query_result_capped columns rows max_rows :
  (0 <= int_or max_rows (MAX_ROWS (cfg w)))%Z ->
  capped_envelope (format_query_result w columns rows max_rows)
                  (len rows) (int_or max_rows (MAX_ROWS (cfg w))).
Proof.
  intros Hc. unfold capped_envelope, format_query_result, rows_length.
  cbn [field assoc String.eqb Ascii.eqb Bool.eqb].
  repeat split.
  f_equal. unfold len at 1. rewrite length_map.
  now apply slice_to_length.
Qed.

End Reading.

Section Exporting.

Variable w : World.

Lemma buffer_rows_run (rows output : list row) (n : Z) :
  buffer_rows rows output n = (app output rows, (n + len rows)%Z).
Proof.
  revert output n. induction rows as [|r rest IH]; intros output n; simpl.
  - rewrite app_nil_r. f_equal. unfold len. simpl. lia.
  - rewrite IH, <- app_assoc. f_equal. unfold len. simpl length. lia.
Qed.

Lemma write_rows_run (path : string) (rows : list row) (n : Z) (t : trace) :
  write_rows path rows n t =
  (Ok (n + len rows)%Z, app t (map (EWriteRow path) rows)).
Proof.
  revert n t. induction rows as [|r rest IH]; intros n t; simpl.
  - unfold ret. rewrite app_nil_r. do 2 f_equal. unfold len. simpl. lia.
  - unfold bind, emit. rewrite IH, <- app_assoc. simpl.
    do 2 f_equal. unfold len. simpl length. lia.
Qed.

Lemma file_lines_of_rows (path : string) (rows lines : list row) :
  fold_left (file_step path) (map (EWriteRow path) rows) lines = app lines rows.
Proof.
  revert lines. induction rows as [|r rest IH]; intros lines; simpl.
  - now rewrite app_nil_r.
  - now rewrite String.eqb_refl, IH, <- app_assoc.
Qed.

Lemma len_firstn {A} (n : Z) (l : list A) :
  (0 <= n)%Z -> len (firstn (Z.to_nat n) l) = Z.min n (len l).
Proof. intros Hn. unfold len. rewrite length_firstn. lia. Qed.

(** The whole run of the text export of an accepted SELECT whose
    execution yields a result set, under a cap that is not negative. *)
Lemma query_to_csv_result_set sql cap conn_str columns rows rowcount :
  accepts sql = true ->
  starts_with_select sql = true ->
  get_connection_string (cfg w) = Ok conn_str ->
  db_connect (db w) conn_str (QUERY_TIMEOUT (cfg w)) = None ->
  db_execute (db w) sql = ExecDone (Some columns) rows rowcount ->
  (0 <= cap)%Z ->
  let batch := firstn (Z.to_nat cap) rows in
  run (query_to_csv w sql (Some cap)) =
  (Ok (JDict [ ("success", JBool true);
               ("csv_content", JCsvText (header columns :: batch));
               ("rows", JInt (len batch));
               ("columns", JInt (len columns));
               ("truncated", JBool (cap <=? len batch)%Z);
               ("timestamp", JStr (now w));
               ("instructions",
                JStr "Claude Desktop can save this as a downloadable CSV file") ]),
   [ EConnect conn_str;
     ELog INFO "Database connection established";
     EExecute sql;
     ELog INFO ("CSV generation successful: " ++ str_int (len batch) ++ " rows");
     EClose;
     ELog INFO "Database connection closed" ]).
Proof.
  intros Ha Hv Hs Hc He Hcap batch.
  unfold run, query_to_csv, try_except at 1, bind at 1.
  rewrite validate_sql_query_run, Ha, (accepted_logs_nothing _ Ha).
  unfold starts_with_select in Hv. rewrite Hv.
  cbn [negb app].
  rewrite (get_db_connection_connected w _ conn_str [] Hs Hc).
  unfold try_finally, try_except, release, bind, cursor_execute, fetchmany,
    ge_optional, bind, log, emit, ret.
  rewrite He. cbn [app].
  destruct (Z.leb_spec 0 cap) as [_|]; [|lia].
  rewrite buffer_rows_run. fold batch. reflexivity.
Qed.

Lemma directory_events_write_nothing (path : string) (lines : list row) :
  fold_left (file_step path) (directory_events w path) lines = lines.
Proof. unfold directory_events. now destruct (directory_missing w path). Qed.

(** The whole run of the file export of an accepted SELECT whose
    execution yields a result set, when the cap is false in Python's
    sense ([None] or [0]). *)
Lemma export_to_csv_uncapped sql file_path max_rows conn_str columns rows rowcount :
  accepts sql = true ->
  starts_with_select sql = true ->
  directory_ready w file_path ->
  fs_open_w (fs w) file_path = None ->
  get_connection_string (cfg w) = Ok conn_str ->
  db_connect (db w) conn_str (QUERY_TIMEOUT (cfg w)) = None ->
  db_execute (db w) sql = ExecDone (Some columns) rows rowcount ->
  int_truthy max_rows = false ->
  let file_size := fs_getsize (fs w) file_path (header columns :: rows) in
  run (export_to_csv w sql file_path max_rows) =
  (Ok (JDict [ ("success", JBool true);
               ("file_path", JStr file_path);
               ("rows_exported", JInt (len rows));
               ("file_size_bytes", JInt file_size);
               ("file_size_mb", JMegabytes file_size);
               ("columns", JList (map JStr columns));
               ("timestamp", JStr (now w)) ]),
   app (directory_events w file_path)
       (app [ EConnect conn_str;
              ELog INFO "Database connection established";
              EExecute sql;
              EOpenWrite file_path;
              EWriteRow file_path (header columns) ]
            (app (map (EWriteRow file_path) rows)
                 [ ELog INFO ("CSV export successful: " ++ str_int (len rows)
                                ++ " rows written to " ++ file_path);
                   EClose;
                   ELog INFO "Database connection closed" ]))).
Proof.
  intros Ha Hv Hd Ho Hs Hc He Hm file_size.
  unfold run, export_to_csv, try_except at 1, bind at 1.
  rewrite validate_sql_query_run, Ha, (accepted_logs_nothing _ Ha).
  unfold starts_with_select in Hv. rewrite Hv.
  cbn [negb app].
  unfold try_except at 1, bind at 1, bind at 1.
  unfold directory_ready in Hd. unfold directory_events.
  unfold directory_missing in *. cbv zeta in *.
  assert (Hprep :
    (if PyStr.truthy (fs_dirname (fs w) file_path)
        && negb (fs_exists (fs w) (fs_dirname (fs w) file_path))
     then makedirs w (fs_dirname (fs w) file_path) else ret tt) [] =
    (Ok tt,
     if PyStr.truthy (fs_dirname (fs w) file_path)
        && negb (fs_exists (fs w) (fs_dirname (fs w) file_path))
     then [EMakedirs (fs_dirname (fs w) file_path)] else [])).
  { destruct (PyStr.truthy _ && negb _).
    - unfold makedirs, bind, emit. now rewrite (Hd eq_refl).
    - reflexivity. }
  rewrite Hprep. cbn [ret].
  rewrite (get_db_connection_connected w _ conn_str _ Hs Hc).
  unfold try_finally, try_except, release, bind, cursor_execute, open_write,
    getsize, bind, log, emit.
  rewrite He, Ho, Hm. cbn [ret].
  rewrite write_rows_run, Z.add_0_l.
  unfold file_lines. rewrite !fold_left_app, file_lines_of_rows.
  fold (directory_missing w file_path). fold (directory_events w file_path).
  rewrite directory_events_write_nothing.
  cbn [fold_left file_step]. rewrite String.eqb_refl.
  unfold ret, file_size. cbn [app].
  rewrite <- !app_assoc. reflexivity.
Qed.

End Exporting.

(* ===================================================================== *)
(** ** The validator *)
(* ===================================================================== *)

(** C8. The verdict of the validator is a function of the statement text
    alone: whatever happened before (any two starting traces), the same
    text gets the same verdict, and validating a text twice in a row gives
    the same verdict both times. *)
Theorem validator_verdict_depends_on_text_only (sql : string) :
  (forall t1 t2 : trace,
      fst (validate_sql_query sql t1) = fst (validate_sql_query sql t2)) /\
  (forall t : trace,
      fst ((first <- validate_sql_query sql ;;
            second <- validate_sql_query sql ;;
            ret (first, second)) t) = Ok (accepts sql, accepts sql)).
Proof.
  split.
  - intros t1 t2. now rewrite !validate_sql_query_run.
  - intros t. unfold bind. rewrite validate_sql_query_run.
    now rewrite validate_sql_query_run.
Qed.

(** C2. The two procedure-name rules are written in lower case and searched
    in the upper-cased text, so they match no text at all; a statement that
    calls xp_cmdshell is accepted, without a warning. *)
Theorem validator_misses_procedure_names :
  (forall sql : string,
      Re.search "xp_cmdshell" (PyStr.strip (PyStr.upper sql)) = false /\
      Re.search "sp_executesql" (PyStr.strip (PyStr.upper sql)) = false) /\
  run (validate_sql_query "EXEC xp_cmdshell 'dir'") = (Ok true, []) /\
  run (validate_sql_query "EXEC sp_executesql @stmt") = (Ok true, []).
Proof.
  split; [|split; reflexivity].
  intros sql. split.
  - apply lower_literal_never_found; [reflexivity | apply sql_upper_has_no_lower].
  - apply lower_literal_never_found; [reflexivity | apply sql_upper_has_no_lower].
Qed.

(* ===================================================================== *)
(** ** Validation comes before the connection *)
(* ===================================================================== *)

(** In all four tools the validator runs first: a text that one of its
    patterns matches gets an error envelope, and the run neither asks for a
    connection nor hands anything to the server. This is as far as the
    validator's own patterns go; which texts they match is another matter
    (the two procedure-name patterns match none). *)
Lemma rejected_text_never_connects
      (w : World) (sql file_path : string) (max_rows : option Z) :
  (exists pattern, In pattern dangerous_patterns /\
                   Re.search pattern (PyStr.strip (PyStr.upper sql)) = true) ->
  forall tool : M json,
    In tool [ query_sql w sql max_rows;
              execute_dml w sql;
              export_to_csv w sql file_path max_rows;
              query_to_csv w sql max_rows ] ->
    exists envelope t,
      run tool = (Ok envelope, t) /\
      error_populated envelope = true /\
      acquires_connection t = false /\
      reaches_database t = false.
Proof.
  intros Hrule tool Htool.
  apply rejects_iff_some_rule in Hrule.
  exists (validation_failed w), (warning sql).
  destruct (rejected_logs_only sql) as [Hconn Hdb].
  repeat split; try assumption.
  simpl in Htool.
  destruct Htool as [<-|[<-|[<-|[<-|[]]]]].
  - now apply query_sql_rejected.
  - now apply execute_dml_rejected.
  - now apply export_to_csv_rejected.
  - now apply query_to_csv_rejected.
Qed.

Lemma rejected_text_never_connects_witness :
  exists envelope t,
    run (export_to_csv (Samples.reading []) "DROP TABLE dbo.Employees" "out.csv" None)
    = (Ok envelope, t) /\
    error_populated envelope = true /\
    acquires_connection t = false /\
    reaches_database t = false.
Proof.
  apply (rejected_text_never_connects
           (Samples.reading []) "DROP TABLE dbo.Employees" "out.csv" None).
  - exists "\bDROP\s+TABLE\b". split; [simpl; tauto | reflexivity].
  - simpl. tauto.
Defined.

(** C7. A text that names xp_cmdshell matches rule 5 of the deny list of
    the specification, yet each of query_sql, execute_dml, export_to_csv and
    query_to_csv returns no error for it, opens a connection and hands the
    text to the server (execute_dml also commits): the validator that
    stands before the connection never matches the procedure names. *)
Theorem denied_procedure_call_gets_a_connection :
  Spec.names_dangerous_procedure "SELECT 1; EXEC xp_cmdshell 'dir'" = true /\
  Spec.names_dangerous_procedure
    "DELETE FROM dbo.Temp WHERE id=5; EXEC xp_cmdshell 'dir'" = true /\
  served (query_sql (Samples.reading [])
            "SELECT 1; EXEC xp_cmdshell 'dir'" None) /\
  served (execute_dml (Samples.mutating 1)
            "DELETE FROM dbo.Temp WHERE id=5; EXEC xp_cmdshell 'dir'") /\
  served (export_to_csv (Samples.reading [])
            "SELECT 1; EXEC xp_cmdshell 'dir'" "out.csv" None) /\
  served (query_to_csv (Samples.reading [])
            "SELECT 1; EXEC xp_cmdshell 'dir'" (Some 10%Z)) /\
  commits (snd (run (execute_dml (Samples.mutating 1)
                       "DELETE FROM dbo.Temp WHERE id=5; EXEC xp_cmdshell 'dir'")))
  = true.
Proof.
  assert (Hserved : forall tool envelope t,
             run tool = (Ok envelope, t) ->
             has_field "error" envelope = false ->
             acquires_connection t = true ->
             reaches_database t = true ->
             served tool).
  { intros tool envelope t Hrun He Hc Hd. exists envelope, t. tauto. }
  split; [reflexivity|]. split; [reflexivity|].
  split; [eapply Hserved; [vm_compute; reflexivity | reflexivity ..]|].
  split; [eapply Hserved; [vm_compute; reflexivity | reflexivity ..]|].
  split; [eapply Hserved; [vm_compute; reflexivity | reflexivity ..]|].
  split; [eapply Hserved; [vm_compute; reflexivity | reflexivity ..]|].
  vm_compute. reflexivity.
Qed.

(** The same happens to a blanket DELETE whose WHERE stands on the next
    line: the pattern's dot does not cross a line feed, the validator
    accepts the text, and execute_dml executes and commits it. *)
Example blanket_delete_across_lines_is_committed :
  accepts ("DELETE FROM dbo.Temp" ++ String "010" "WHERE 1=1") = true /\
  commits (snd (run (execute_dml (Samples.mutating 3)
                       ("DELETE FROM dbo.Temp" ++ String "010" "WHERE 1=1"))))
  = true.
Proof. split; vm_compute; reflexivity. Qed.

(* ===================================================================== *)
(** ** The entry-point tests on the leading verb *)
(* ===================================================================== *)

(** Once the validator and the prefix test are passed and the connection
    opens, the text is handed to the server, however the execution ends. *)
Lemma query_sql_executes (w : World) (sql : string) (max_rows : option Z) :
  accepts sql = true ->
  starts_with_select sql = true ->
  connects w ->
  In (EExecute sql) (snd (run (query_sql w sql max_rows))).
Proof.
  intros Ha Hv (conn_str & Hs & Hc).
  unfold run, query_sql, try_except at 1, bind at 1.
  rewrite validate_sql_query_run, Ha, (accepted_logs_nothing _ Ha).
  unfold starts_with_select in Hv. rewrite Hv. cbn [negb app].
  rewrite (get_db_connection_connected w _ conn_str [] Hs Hc).
  unfold try_finally, try_except, release, bind, cursor_execute,
    bind, log, emit, ret, raise.
  destruct (db_execute (db w) sql) as [e|[columns|] rows rowcount].
  - cbn [app dispatch connection_error database_error unexpected_error fst snd].
    destruct (is_pyodbc e) eqn:Hp; cbn; rewrite ?Hp; cbn;
      try (destruct (is_exception e); cbn); tauto.
  - cbn. tauto.
  - cbn. tauto.
Qed.

Lemma execute_dml_executes (w : World) (sql : string) :
  accepts sql = true ->
  starts_with_dml_verb sql = true ->
  connects w ->
  In (EExecute sql) (snd (run (execute_dml w sql))).
Proof.
  intros Ha Hv (conn_str & Hs & Hc).
  unfold run, execute_dml, try_except at 1, bind at 1.
  rewrite validate_sql_query_run, Ha, (accepted_logs_nothing _ Ha).
  unfold starts_with_dml_verb in Hv. cbv zeta. rewrite Hv. cbn [negb app].
  rewrite (get_db_connection_connected w _ conn_str [] Hs Hc).
  unfold try_finally, try_except, release, bind, cursor_execute, conn_commit,
    bind, log, emit, ret, raise.
  destruct (db_execute (db w) sql) as [e|description rows rowcount].
  - cbn [app dispatch connection_error database_error fst snd].
    destruct (is_pyodbc e) eqn:Hp; cbn; rewrite ?Hp; cbn; tauto.
  - destruct (db_commit (db w)) as [e|].
    + cbn [app dispatch connection_error database_error fst snd].
      destruct (is_pyodbc e) eqn:Hp; cbn; rewrite ?Hp; cbn; tauto.
    + cbn. tauto.
Qed.

(** The wording of C5 (every text whose first keyword is not SELECT gets an
    error envelope and is not executed) fails on the code. *)
Lemma first_token_test_fails_for_query_sql :
  ~ (forall (w : World) (sql : string) (max_rows : option Z),
        Spec.first_keyword sql <> "SELECT" ->
        exists envelope t,
          run (query_sql w sql max_rows) = (Ok envelope, t) /\
          error_populated envelope = true /\
          reaches_database t = false).
Proof.
  intros claim.
  destruct (claim (Samples.reading []) "SELECTX 1" None)
    as (envelope & t & Hrun & _ & Hdb).
  - vm_compute. intros E. discriminate E.
  - vm_compute in Hrun. injection Hrun as <- <-.
    vm_compute in Hdb. discriminate Hdb.
Qed.

(** C5. The guard of query_sql, under the comment that only SELECT queries
    are allowed, tests the first six characters and not the first keyword:
    the first keyword of SELECTX 1 is SELECTX, and wherever the connection
    opens query_sql hands that text to the server, for every cap. *)
Theorem query_sql_executes_a_non_select_statement
        (w : World) (max_rows : option Z) :
  connects w ->
  Spec.first_keyword "SELECTX 1" <> "SELECT" /\
  In (EExecute "SELECTX 1") (snd (run (query_sql w "SELECTX 1" max_rows))).
Proof.
  intros Hw. split.
  - vm_compute. intros E. discriminate E.
  - now apply query_sql_executes.
Qed.

Lemma query_sql_executes_a_non_select_statement_witness :
  Spec.first_keyword "SELECTX 1" <> "SELECT" /\
  In (EExecute "SELECTX 1")
     (snd (run (query_sql (Samples.reading []) "SELECTX 1" None))).
Proof.
  apply (query_sql_executes_a_non_select_statement (Samples.reading []) None).
  eexists. split; reflexivity.
Defined.

(** What the guard does keep out, on ASCII text: a text whose trimmed,
    upper-cased form does not start with the characters SELECT gets an error
    envelope from query_sql and nothing is opened or executed. *)
Lemma query_sql_requires_select_prefix
      (w : World) (sql : string) (max_rows : option Z) :
  PyStr.isascii sql = true ->
  starts_with_select sql = false ->
  exists envelope t,
    run (query_sql w sql max_rows) = (Ok envelope, t) /\
    error_populated envelope = true /\
    acquires_connection t = false /\
    reaches_database t = false.
Proof.
  intros _ Hs. destruct (accepts sql) eqn:Ha.
  - eexists _, _. split; [now apply query_sql_not_select|].
    repeat split.
  - destruct (rejected_logs_only sql) as [Hconn Hdb].
    eexists _, _. split; [now apply query_sql_rejected|].
    repeat split; assumption.
Qed.

Lemma query_sql_requires_select_prefix_witness :
  exists envelope t,
    run (query_sql (Samples.reading []) "  insert into t values (1)" (Some 5%Z))
    = (Ok envelope, t) /\
    error_populated envelope = true /\
    acquires_connection t = false /\
    reaches_database t = false.
Proof.
  apply (query_sql_requires_select_prefix
           (Samples.reading []) "  insert into t values (1)" (Some 5%Z));
    reflexivity.
Defined.

(** The wording of C6 (every statement whose first keyword is none of
    INSERT, UPDATE, DELETE is rejected with an error envelope) fails on the
    code. *)
Lemma first_token_test_fails_for_execute_dml :
  ~ (forall (w : World) (sql : string),
        ~ In (Spec.first_keyword sql) allowed_commands ->
        exists envelope t,
          run (execute_dml w sql) = (Ok envelope, t) /\
          error_populated envelope = true).
Proof.
  intros claim.
  destruct (claim (Samples.mutating 1) "DELETEX 1")
    as (envelope & t & Hrun & Herr).
  - vm_compute. intros [E|[E|[E|[]]]]; discriminate E.
  - vm_compute in Hrun. injection Hrun as <- <-.
    vm_compute in Herr. discriminate Herr.
Qed.

(** C6. The verb restriction of execute_dml, whose message says that only
    INSERT, UPDATE, DELETE statements are allowed, tests prefixes and not
    the first keyword: the first keyword of DELETEX 1 is none of the three
    verbs, and wherever the connection opens execute_dml hands that text to
    the server; when the server executes and commits it, the run commits and
    returns the success envelope with the cursor's rowcount and no error. *)
Theorem execute_dml_commits_a_non_dml_statement (w : World) :
  connects w ->
  ~ In (Spec.first_keyword "DELETEX 1") allowed_commands /\
  In (EExecute "DELETEX 1") (snd (run (execute_dml w "DELETEX 1"))) /\
  (forall description rows rows_affected,
      db_execute (db w) "DELETEX 1" = ExecDone description rows rows_affected ->
      db_commit (db w) = None ->
      exists envelope t,
        run (execute_dml w "DELETEX 1") = (Ok envelope, t) /\
        field "success" envelope = Some (JBool true) /\
        field "rows_affected" envelope = Some (JInt rows_affected) /\
        has_field "error" envelope = false /\
        commits t = true).
Proof.
  intros Hw. split; [|split].
  - vm_compute. intros [E|[E|[E|[]]]]; discriminate E.
  - now apply execute_dml_executes.
  - intros description rows rows_affected He Hk.
    destruct Hw as (conn_str & Hs & Hc).
    eexists _, _. split.
    + exact (execute_dml_success w "DELETEX 1" conn_str description rows
               rows_affected eq_refl eq_refl Hs Hc He Hk).
    + repeat split.
Qed.

Lemma execute_dml_commits_a_non_dml_statement_witness :
  ~ In (Spec.first_keyword "DELETEX 1") allowed_commands /\
  In (EExecute "DELETEX 1")
     (snd (run (execute_dml (Samples.mutating 1) "DELETEX 1"))) /\
  (forall description rows rows_affected,
      db_execute (db (Samples.mutating 1)) "DELETEX 1"
      = ExecDone description rows rows_affected ->
      db_commit (db (Samples.mutating 1)) = None ->
      exists envelope t,
        run (execute_dml (Samples.mutating 1) "DELETEX 1") = (Ok envelope, t) /\
        field "success" envelope = Some (JBool true) /\
        field "rows_affected" envelope = Some (JInt rows_affected) /\
        has_field "error" envelope = false /\
        commits t = true).
Proof.
  apply (execute_dml_commits_a_non_dml_statement (Samples.mutating 1)).
  eexists. split; reflexivity.
Defined.

(** What execute_dml does as the specification says. On ASCII text it
    rejects, with an error envelope and without touching the database, every
    text whose trimmed, upper-cased form starts with none of INSERT, UPDATE,
    DELETE. For a text the validator accepts and that has such a prefix,
    when the server executes and commits it the envelope has success true,
    rows_affected equal to the cursor's rowcount, no rows, columns or error
    field, and the run committed. *)
Lemma execute_dml_contract (w : World) (sql : string) :
  (PyStr.isascii sql = true ->
   starts_with_dml_verb sql = false ->
   exists envelope t,
     run (execute_dml w sql) = (Ok envelope, t) /\
     error_populated envelope = true /\
     acquires_connection t = false /\
     reaches_database t = false)
  /\
  (accepts sql = true ->
   starts_with_dml_verb sql = true ->
   connects w ->
   db_commit (db w) = None ->
   forall description rows rows_affected,
     db_execute (db w) sql = ExecDone description rows rows_affected ->
     exists envelope t,
       run (execute_dml w sql) = (Ok envelope, t) /\
       field "success" envelope = Some (JBool true) /\
       field "rows_affected" envelope = Some (JInt rows_affected) /\
       has_field "rows" envelope = false /\
       has_field "columns" envelope = false /\
       has_field "error" envelope = false /\
       reaches_database t = true /\
       commits t = true).
Proof.
  split.
  - intros _ Hv. destruct (accepts sql) eqn:Ha.
    + eexists _, _. split; [now apply execute_dml_not_dml|].
      repeat split.
    + destruct (rejected_logs_only sql) as [Hconn Hdb].
      eexists _, _. split; [now apply execute_dml_rejected|].
      repeat split; assumption.
  - intros Ha Hv (conn_str & Hs & Hc) Hk description rows rows_affected He.
    eexists _, _. split.
    + exact (execute_dml_success w sql conn_str description rows rows_affected
               Ha Hv Hs Hc He Hk).
    + repeat split.
Qed.

Lemma execute_dml_contract_witness :
  (exists envelope t,
      run (execute_dml (Samples.mutating 1) "EXEC dbo.Cleanup") = (Ok envelope, t) /\
      error_populated envelope = true /\
      acquires_connection t = false /\
      reaches_database t = false)
  /\
  (exists envelope t,
      run (execute_dml (Samples.mutating 1) "DELETE FROM dbo.Temp WHERE id=5")
      = (Ok envelope, t) /\
      field "success" envelope = Some (JBool true) /\
      field "rows_affected" envelope = Some (JInt 1%Z) /\
      has_field "rows" envelope = false /\
      has_field "columns" envelope = false /\
      has_field "error" envelope = false /\
      reaches_database t = true /\
      commits t = true).
Proof.
  split.
  - apply (proj1 (execute_dml_contract (Samples.mutating 1) "EXEC dbo.Cleanup"));
      reflexivity.
  - apply (proj2 (execute_dml_contract (Samples.mutating 1)
                    "DELETE FROM dbo.Temp WHERE id=5")
             eq_refl eq_refl) with (description := None) (rows := []).
    + eexists. split; reflexivity.
    + reflexivity.
    + reflexivity.
Defined.

(* ===================================================================== *)
(** ** Row caps of query_sql *)
(* ===================================================================== *)

(** C1, as the specification words it (the cap is the caller's value
    whenever one is supplied), fails for a supplied cap of 0, which the
    code replaces by the default, and for a negative cap, which Python's
    slice counts from the end. *)
Lemma supplied_cap_is_not_always_applied :
  ~ Spec.read_query_claim (Samples.reading (Samples.employees 2))
      "SELECT name FROM dbo.Employees" (Some 0%Z)
  /\
  ~ Spec.read_query_claim (Samples.reading (Samples.employees 3))
      "SELECT name FROM dbo.Employees" (Some (-1)%Z).
Proof.
  split; intros claim.
  - destruct (claim ["name"] (Samples.employees 2) (-1)%Z)
      as (envelope & t & Hrun & Hrows & _); try reflexivity.
    + eexists. split; reflexivity.
    + vm_compute in Hrun. injection Hrun as <- <-.
      vm_compute in Hrows. discriminate Hrows.
  - destruct (claim ["name"] (Samples.employees 3) (-1)%Z)
      as (envelope & t & Hrun & Hrows & _); try reflexivity.
    + eexists. split; reflexivity.
    + vm_compute in Hrun. injection Hrun as <- <-.
      vm_compute in Hrows. discriminate Hrows.
Qed.

(** C1, amended. Let c be the caller's max_rows when it is given and not 0,
    and Config.MAX_ROWS otherwise. For an accepted SELECT whose execution
    yields a result set, and c not negative, the envelope of query_sql has
    min(row_count, c) rows, row_count is the number of rows fetched, and
    truncated is (row_count > c). *)
Theorem query_sql_cap_accounting
        (w : World) (sql : string) (max_rows : option Z)
        (columns : list string) (rows : list row) (rowcount : Z) :
  accepts sql = true ->
  starts_with_select sql = true ->
  connects w ->
  db_execute (db w) sql = ExecDone (Some columns) rows rowcount ->
  (0 <= int_or max_rows (MAX_ROWS (cfg w)))%Z ->
  exists envelope t,
    run (query_sql w sql max_rows) = (Ok envelope, t) /\
    capped_envelope envelope (len rows) (int_or max_rows (MAX_ROWS (cfg w))).
Proof.
  intros Ha Hv (conn_str & Hs & Hc) He Hcap.
  eexists _, _. split.
  - exact (query_sql_result_set w sql max_rows conn_str columns rows rowcount
             Ha Hv Hs Hc He).
  - now apply format_query_result_capped.
Qed.

Lemma query_sql_cap_accounting_witness :
  exists envelope t,
    run (query_sql (Samples.reading (Samples.employees 5))
                   "SELECT name FROM dbo.Employees" (Some 3%Z)) = (Ok envelope, t) /\
    capped_envelope envelope 5 3.
Proof.
  apply (query_sql_cap_accounting
           (Samples.reading (Samples.employees 5))
           "SELECT name FROM dbo.Employees" (Some 3%Z)
           ["name"] (Samples.employees 5) (-1)%Z).
  - reflexivity.
  - reflexivity.
  - eexists. split; reflexivity.
  - reflexivity.
  - simpl. lia.
Defined.

(** The scenario of the specification: 1500 rows under the default cap of
    1000. *)
Example fifteen_hundred_rows_default_cap :
  exists envelope t,
    run (query_sql (Samples.reading (Samples.employees 1500))
                   "SELECT name FROM dbo.Employees" None) = (Ok envelope, t) /\
    rows_length envelope = Some 1000%Z /\
    field "row_count" envelope = Some (JInt 1500) /\
    field "truncated" envelope = Some (JBool true).
Proof.
  eexists _, _. split; [vm_compute; reflexivity|].
  repeat split.
Qed.

(** C9. In query_sql a supplied cap of 0 is replaced by Config.MAX_ROWS:
    the run is the run with no cap argument, and for an accepted SELECT whose
    execution yields a result set (Config.MAX_ROWS not negative) the envelope
    holds exactly the first Config.MAX_ROWS rows of the result set, all of
    them when there are fewer, never none of a non-empty result under a
    positive default, and truncated says whether the row count exceeds
    Config.MAX_ROWS. *)
Theorem zero_cap_falls_back_to_default
        (w : World) (sql : string)
        (columns : list string) (rows : list row) (rowcount : Z) :
  accepts sql = true ->
  starts_with_select sql = true ->
  connects w ->
  db_execute (db w) sql = ExecDone (Some columns) rows rowcount ->
  (0 <= MAX_ROWS (cfg w))%Z ->
  run (query_sql w sql (Some 0%Z)) = run (query_sql w sql None) /\
  exists envelope t,
    run (query_sql w sql (Some 0%Z)) = (Ok envelope, t) /\
    field "rows" envelope =
    Some (JList (map row_json (firstn (Z.to_nat (MAX_ROWS (cfg w))) rows))) /\
    rows_length envelope = Some (Z.min (len rows) (MAX_ROWS (cfg w))) /\
    field "row_count" envelope = Some (JInt (len rows)) /\
    field "truncated" envelope = Some (JBool (MAX_ROWS (cfg w) <? len rows)%Z).
Proof.
  intros Ha Hv (conn_str & Hs & Hc) He Hcap.
  split; [reflexivity|].
  eexists _, _. split.
  - exact (query_sql_result_set w sql (Some 0%Z) conn_str columns rows rowcount
             Ha Hv Hs Hc He).
  - assert (Hshape : capped_envelope
                       (format_query_result w columns rows (Some 0%Z))
                       (len rows) (int_or (Some 0%Z) (MAX_ROWS (cfg w))))
      by now apply format_query_result_capped.
    destruct Hshape as (Hrows & Hcount & Htrunc).
    split; [|split; [exact Hrows | split; [exact Hcount | exact Htrunc]]].
    unfold format_query_result, int_or. cbn.
    unfold slice_to.
    destruct (Z.leb_spec 0 (MAX_ROWS (cfg w))) as [_|Hneg]; [reflexivity | lia].
Qed.

Lemma zero_cap_falls_back_to_default_witness :
  run (query_sql (Samples.reading (Samples.employees 1500))
                 "SELECT name FROM dbo.Employees" (Some 0%Z))
  = run (query_sql (Samples.reading (Samples.employees 1500))
                   "SELECT name FROM dbo.Employees" None) /\
  exists envelope t,
    run (query_sql (Samples.reading (Samples.employees 1500))
                   "SELECT name FROM dbo.Employees" (Some 0%Z)) = (Ok envelope, t) /\
    field "rows" envelope =
    Some (JList (map row_json (firstn 1000 (Samples.employees 1500)))) /\
    rows_length envelope = Some 1000%Z /\
    field "row_count" envelope = Some (JInt 1500) /\
    field "truncated" envelope = Some (JBool true).
Proof.
  apply (zero_cap_falls_back_to_default
           (Samples.reading (Samples.employees 1500))
           "SELECT name FROM dbo.Employees"
           ["name"] (Samples.employees 1500) (-1)%Z).
  - reflexivity.
  - reflexivity.
  - eexists. split; reflexivity.
  - reflexivity.
  - simpl. lia.
Defined.

(* ===================================================================== *)
(** ** Row caps of the exports *)
(* ===================================================================== *)

(** C4, as the specification words it, fails: a result set of exactly as
    many rows as the cap is reported as truncated. *)
Lemma full_page_is_reported_truncated :
  ~ Spec.text_export_claim (Samples.reading (Samples.employees 2))
      "SELECT name FROM dbo.Employees" 2.
Proof.
  intros claim.
  destruct (claim ["name"] (Samples.employees 2) (-1)%Z)
    as (envelope & t & Hrun & Htrunc); try reflexivity.
  - eexists. split; reflexivity.
  - vm_compute in Hrun. injection Hrun as <- <-.
    vm_compute in Htrunc. discriminate Htrunc.
Qed.

(** C4, amended. For an accepted SELECT whose execution yields a result
    set, and a cap c that is not negative, query_to_csv writes the first
    min(c, row_count) rows and sets truncated iff the result set has at
    least c rows (rows_written >= c): a result of exactly c rows is reported
    as truncated. *)
Theorem query_to_csv_truncated_when_cap_reached
        (w : World) (sql : string) (cap : Z)
        (columns : list string) (rows : list row) (rowcount : Z) :
  accepts sql = true ->
  starts_with_select sql = true ->
  connects w ->
  db_execute (db w) sql = ExecDone (Some columns) rows rowcount ->
  (0 <= cap)%Z ->
  exists envelope t,
    run (query_to_csv w sql (Some cap)) = (Ok envelope, t) /\
    field "rows" envelope = Some (JInt (Z.min cap (len rows))) /\
    field "truncated" envelope = Some (JBool (cap <=? len rows)%Z).
Proof.
  intros Ha Hv (conn_str & Hs & Hc) He Hcap.
  eexists _, _. split.
  - exact (query_to_csv_result_set w sql cap conn_str columns rows rowcount
             Ha Hv Hs Hc He Hcap).
  - cbn [field assoc String.eqb Ascii.eqb Bool.eqb].
    rewrite (len_firstn cap rows Hcap). split; [reflexivity|].
    do 2 f_equal.
    destruct (Z.leb_spec cap (Z.min cap (len rows)));
      destruct (Z.leb_spec cap (len rows)); try reflexivity; lia.
Qed.

Lemma query_to_csv_truncated_when_cap_reached_witness :
  exists envelope t,
    run (query_to_csv (Samples.reading (Samples.employees 4))
                      "SELECT name FROM dbo.Employees" (Some 4%Z)) = (Ok envelope, t) /\
    field "rows" envelope = Some (JInt 4) /\
    field "truncated" envelope = Some (JBool true).
Proof.
  apply (query_to_csv_truncated_when_cap_reached
           (Samples.reading (Samples.employees 4))
           "SELECT name FROM dbo.Employees" 4%Z
           ["name"] (Samples.employees 4) (-1)%Z).
  - reflexivity.
  - reflexivity.
  - eexists. split; reflexivity.
  - reflexivity.
  - lia.
Defined.

(** C10. In export_to_csv a cap of 0 is no cap: the run is the same as
    with no cap argument, and for an accepted SELECT whose execution yields
    a result set, with the file writable, every row of the result set is
    written after the header and rows_exported is the size of the result
    set. *)
Theorem zero_cap_exports_everything
        (w : World) (sql file_path : string)
        (columns : list string) (rows : list row) (rowcount : Z) :
  accepts sql = true ->
  starts_with_select sql = true ->
  directory_ready w file_path ->
  fs_open_w (fs w) file_path = None ->
  connects w ->
  db_execute (db w) sql = ExecDone (Some columns) rows rowcount ->
  (forall t : trace,
      export_to_csv w sql file_path (Some 0%Z) t = export_to_csv w sql file_path None t) /\
  exists envelope t,
    run (export_to_csv w sql file_path (Some 0%Z)) = (Ok envelope, t) /\
    field "success" envelope = Some (JBool true) /\
    field "rows_exported" envelope = Some (JInt (len rows)) /\
    file_lines file_path t = header columns :: rows.
Proof.
  intros Ha Hv Hd Ho (conn_str & Hs & Hc) He.
  split; [reflexivity|].
  eexists _, _. split.
  - exact (export_to_csv_uncapped w sql file_path (Some 0%Z) conn_str
             columns rows rowcount Ha Hv Hd Ho Hs Hc He eq_refl).
  - split; [reflexivity|]. split; [reflexivity|].
    unfold file_lines.
    rewrite fold_left_app, directory_events_write_nothing.
    cbn [app fold_left file_step].
    rewrite String.eqb_refl. cbn [app].
    rewrite fold_left_app, file_lines_of_rows. reflexivity.
Qed.

Lemma zero_cap_exports_everything_witness :
  exists envelope t,
    run (export_to_csv (Samples.reading (Samples.employees 3))
                       "SELECT name FROM dbo.Employees" "exports/all.csv" (Some 0%Z))
    = (Ok envelope, t) /\
    field "success" envelope = Some (JBool true) /\
    field "rows_exported" envelope = Some (JInt 3) /\
    file_lines "exports/all.csv" t = header ["name"] :: Samples.employees 3.
Proof.
  apply (zero_cap_exports_everything
           (Samples.reading (Samples.employees 3))
           "SELECT name FROM dbo.Employees" "exports/all.csv"
           ["name"] (Samples.employees 3) (-1)%Z).
  - reflexivity.
  - reflexivity.
  - intros Hmissing. reflexivity.
  - reflexivity.
  - eexists. split; reflexivity.
  - reflexivity.
Defined.

(* ===================================================================== *)
(** ** Failures of execute_dml *)
(* ===================================================================== *)

(** C3. execute_dml has no handler but the one for pyodbc.Error: with
    DB_TRUSTED_CONNECTION off and no credentials, the ValueError of
    Config.get_connection_string leaves execute_dml as an exception, while
    query_sql in the same world returns an envelope with error set. *)
Theorem execute_dml_lets_value_error_escape :
  run (execute_dml Samples.misconfigured "DELETE FROM dbo.Temp WHERE id=5") =
  (Raise (mk_exn ValueError
            "Either use Trusted_Connection or provide USERNAME and PASSWORD"),
   [])
  /\
  exists envelope t,
    run (query_sql Samples.misconfigured "SELECT name FROM dbo.Employees" None)
    = (Ok envelope, t) /\
    error_populated envelope = true.
Proof.
  split.
  - now apply execute_dml_unhandled.
  - eexists _, _. split.
    + now apply query_sql_unexpected.
    + reflexivity.
Qed.

(* ===================================================================== *)
(** ** The four ways a with-block ends *)
(* ===================================================================== *)

Section WithBlock.

Variable w : World.

Lemma with_block_returns {A} (body : M A) conn_str t a t1 :
  get_connection_string (cfg w) = Ok conn_str ->
  db_connect (db w) conn_str (QUERY_TIMEOUT (cfg w)) = None ->
  body (app t (established conn_str)) = (Ok a, t1) ->
  get_db_connection w body t = (Ok a, app t1 closed).
Proof.
  intros Hs Hc Hb.
  rewrite (get_db_connection_connected w body conn_str t Hs Hc).
  unfold try_finally, try_except, release, bind, log, emit.
  fold (established conn_str). rewrite Hb.
  unfold closed. now rewrite <- app_assoc.
Qed.

Lemma with_block_raises {A} (body : M A) conn_str t e t1 :
  get_connection_string (cfg w) = Ok conn_str ->
  db_connect (db w) conn_str (QUERY_TIMEOUT (cfg w)) = None ->
  body (app t (established conn_str)) = (Raise e, t1) ->
  get_db_connection w body t =
  (Raise e, app t1 (app (error_log e) closed)).
Proof.
  intros Hs Hc Hb.
  rewrite (get_db_connection_connected w body conn_str t Hs Hc).
  unfold try_finally, try_except, release, bind, log, emit.
  fold (established conn_str). rewrite Hb.
  cbn [dispatch connection_error fst snd]. unfold error_log.
  destruct (is_pyodbc e).
  - unfold bind, log, emit, raise, closed. rewrite <- !app_assoc. reflexivity.
  - unfold raise, closed. cbn [app]. now rewrite <- app_assoc.
Qed.

Lemma with_block_refused {A} (body : M A) conn_str t e :
  get_connection_string (cfg w) = Ok conn_str ->
  db_connect (db w) conn_str (QUERY_TIMEOUT (cfg w)) = Some e ->
  get_db_connection w body t =
  (Raise e, app t (EConnect conn_str :: error_log e)).
Proof.
  intros Hs Hc.
  unfold get_db_connection, bind, attempt, try_except, lift,
    pyodbc_connect, bind, emit, raise.
  rewrite Hs, Hc. cbn [dispatch connection_error fst snd]. unfold error_log.
  destruct (is_pyodbc e).
  - unfold bind, log, emit, raise. now rewrite <- app_assoc.
  - reflexivity.
Qed.

Lemma with_block_unconfigured {A} (body : M A) t e :
  get_connection_string (cfg w) = Raise e ->
  get_db_connection w body t =
  (Raise e, app t (error_log e)).
Proof.
  intros Hs.
  unfold get_db_connection, bind, attempt, try_except, lift.
  rewrite Hs. cbn [dispatch connection_error fst snd]. unfold error_log.
  destruct (is_pyodbc e).
  - reflexivity.
  - unfold raise. now rewrite app_nil_r.
Qed.

End WithBlock.

(* ===================================================================== *)
(** ** The connection as a scoped resource *)
(* ===================================================================== *)

(** X1. Once the connection is open, the with-block ends as its body ends
    (same value or same exception), and the connection is closed after the
    body in either case; a pyodbc.Error of the body is logged on the way. *)
Theorem get_db_connection_releases
        {A} (w : World) (body : M A) (conn_str : string) (t : trace) :
  get_connection_string (cfg w) = Ok conn_str ->
  db_connect (db w) conn_str (QUERY_TIMEOUT (cfg w)) = None ->
  get_db_connection w body t =
  (fst (body (app t [EConnect conn_str; ELog INFO "Database connection established"])),
   app (snd (body (app t [EConnect conn_str;
                           ELog INFO "Database connection established"])))
       (app (connection_error_log
               (fst (body (app t [EConnect conn_str;
                                  ELog INFO "Database connection established"]))))
            [EClose; ELog INFO "Database connection closed"])).
Proof.
  intros Hs Hc.
  destruct (body _) as [[a|e] t1] eqn:Hb; cbn [fst snd connection_error_log].
  - exact (with_block_returns w body conn_str t a t1 Hs Hc Hb).
  - exact (with_block_raises w body conn_str t e t1 Hs Hc Hb).
Qed.

Lemma get_db_connection_releases_witness :
  get_db_connection (Samples.mutating 1)
    (raise (mk_exn OtherException "boom") : M unit) [] =
  (Raise (mk_exn OtherException "boom"),
   [ EConnect "DRIVER={ODBC Driver 17 for SQL Server};SERVER=localhost;DATABASE=ServiceNow;Trusted_Connection=yes";
     ELog INFO "Database connection established";
     EClose;
     ELog INFO "Database connection closed" ]).
Proof.
  exact (get_db_connection_releases (Samples.mutating 1)
           (raise (mk_exn OtherException "boom") : M unit)
           "DRIVER={ODBC Driver 17 for SQL Server};SERVER=localhost;DATABASE=ServiceNow;Trusted_Connection=yes"
           [] eq_refl eq_refl).
Defined.

(** X2. When the connection cannot be opened (the configuration is
    incomplete or the driver refuses), the with-block raises without running
    its body: outcome and trace are the same for every body, and nothing is
    executed or closed. *)
Theorem get_db_connection_unacquired (w : World) (t : trace) :
  (forall conn_str,
      get_connection_string (cfg w) = Ok conn_str ->
      db_connect (db w) conn_str (QUERY_TIMEOUT (cfg w)) <> None) ->
  exists (e : exn) (added : trace),
    (forall (A : Type) (body : M A),
        get_db_connection w body t = (Raise e, app t added)) /\
    forallb (fun ev => negb (is_close ev) && negb (is_execute ev)) added = true.
Proof.
  intros Hno.
  destruct (get_connection_string (cfg w)) as [conn_str|e] eqn:Hs.
  - destruct (db_connect (db w) conn_str (QUERY_TIMEOUT (cfg w))) as [e|] eqn:Hc.
    + exists e, (EConnect conn_str :: error_log e).
      split.
      * intros A body. now apply with_block_refused.
      * unfold error_log. simpl. now destruct (is_pyodbc e).
    + now destruct (Hno conn_str eq_refl).
  - exists e, (error_log e).
    split.
    + intros A body. now apply with_block_unconfigured.
    + unfold error_log. now destruct (is_pyodbc e).
Qed.

Lemma get_db_connection_unacquired_witness :
  exists (e : exn) (added : trace),
    (forall (A : Type) (body : M A),
        get_db_connection Samples.misconfigured body [] = (Raise e, app [] added)) /\
    forallb (fun ev => negb (is_close ev) && negb (is_execute ev)) added = true.
Proof.
  apply (get_db_connection_unacquired Samples.misconfigured []).
  intros conn_str H. vm_compute in H. discriminate H.
Defined.

(* ===================================================================== *)
(** ** Footprints: what the tools can add to a trace *)
(* ===================================================================== *)

Section Footprint.

Variable w : World.
Variable Q : trace -> Prop.
Hypothesis nothing_allowed : Q [].
Hypothesis sequence_allowed : forall a b, Q a -> Q b -> Q (app a b).
Hypothesis logging_allowed : forall level msg, Q [ELog level msg].
Hypothesis connection_allowed :
  forall (A : Type) (body : M A), adds Q body -> adds Q (get_db_connection w body).

Lemma adds_ret {A} (a : A) : adds Q (ret a).
Proof. intros t. exists []. now rewrite app_nil_r. Qed.

Lemma adds_raise {A} (e : exn) : adds Q (raise e : M A).
Proof. intros t. exists []. now rewrite app_nil_r. Qed.

Lemma adds_lift {A} (r : result A) : adds Q (lift r).
Proof. intros t. exists []. now rewrite app_nil_r. Qed.

Lemma adds_emit (e : event) : Q [e] -> adds Q (emit e).
Proof. intros He t. exists [e]. now split. Qed.

Lemma adds_log level msg : adds Q (log level msg).
Proof. apply adds_emit, logging_allowed. Qed.

Lemma adds_bind {A B} (c : M A) (k : A -> M B) :
  adds Q c -> (forall a, adds Q (k a)) -> adds Q (bind c k).
Proof.
  intros Hc Hk t. unfold bind.
  destruct (Hc t) as (added & Ht & HQ).
  destruct (c t) as [[a|e] t1]; simpl in Ht; subst t1.
  - destruct (Hk a (app t added)) as (more & -> & HQ').
    exists (app added more). rewrite app_assoc. auto.
  - exists added. now split.
Qed.

Lemma adds_try_except {A} (c : M A) (clauses : list (clause A)) :
  adds Q c ->
  (forall e, adds Q (dispatch clauses e)) ->
  adds Q (try_except c clauses).
Proof.
  intros Hc Hh t. unfold try_except.
  destruct (Hc t) as (added & Ht & HQ).
  destruct (c t) as [[a|e] t1]; simpl in Ht; subst t1.
  - exists added. now split.
  - destruct (Hh e (app t added)) as (more & -> & HQ').
    exists (app added more). rewrite app_assoc. auto.
Qed.

Lemma adds_dispatch_nil {A} (e : exn) : adds Q (dispatch (@nil (clause A)) e).
Proof. apply adds_raise. Qed.

Lemma adds_dispatch_cons {A} takes (body : exn -> M A) rest (e : exn) :
  adds Q (body e) ->
  adds Q (dispatch rest e) ->
  adds Q (dispatch ((takes, body) :: rest) e).
Proof. intros Hb Hr. simpl. now destruct (takes e). Qed.

Lemma adds_validate_loop patterns s : adds Q (validate_loop patterns s).
Proof.
  induction patterns as [|p rest IH]; simpl.
  - apply adds_ret.
  - destruct (Re.search p s); [|exact IH].
    apply adds_bind; [apply adds_log|]. intros _. apply adds_ret.
Qed.

Lemma adds_validate sql : adds Q (validate_sql_query sql).
Proof. apply adds_validate_loop. Qed.

Lemma adds_handlers (clauses : list (clause json)) (e : exn) :
  Forall (fun c => In c [database_error w; file_io_error w; unexpected_error w])
         clauses ->
  adds Q (dispatch clauses e).
Proof.
  induction 1 as [|c rest Hc _ IH].
  - apply adds_dispatch_nil.
  - destruct c as [takes body]. apply adds_dispatch_cons; [|exact IH].
    simpl in Hc.
    destruct Hc as [Hc|[Hc|[Hc|[]]]]; injection Hc as _ <-;
      (apply adds_bind; [apply adds_log|]; intros _; apply adds_ret).
Qed.

Lemma adds_cursor_execute sql : Q [EExecute sql] -> adds Q (cursor_execute w sql).
Proof.
  intros He. unfold cursor_execute.
  apply adds_bind; [now apply adds_emit|]. intros _.
  destruct (db_execute _ _); [apply adds_raise | apply adds_ret].
Qed.

Lemma adds_fetchmany size rows : adds Q (fetchmany w size rows).
Proof.
  unfold fetchmany. destruct size as [n|]; [|apply adds_raise].
  destruct (0 <=? n)%Z; [apply adds_ret | apply adds_lift].
Qed.

(** The footprint of [query_sql]. *)
Lemma adds_query_sql sql max_rows :
  Q [EExecute sql] -> adds Q (query_sql w sql max_rows).
Proof.
  intros He. unfold query_sql.
  apply adds_try_except;
    [|intros e; apply adds_handlers; repeat constructor; simpl; tauto].
  apply adds_bind; [apply adds_validate|]. intros valid.
  destruct (negb valid); [apply adds_ret|].
  destruct (negb _); [apply adds_ret|].
  apply connection_allowed.
  apply adds_bind; [now apply adds_cursor_execute|].
  intros [[description fetched] rowcount].
  destruct description as [columns|]; [|apply adds_ret].
  apply adds_bind; [apply adds_log|]. intros _. apply adds_ret.
Qed.

(** The footprint of [query_to_csv]. *)
Lemma adds_query_to_csv sql max_rows :
  Q [EExecute sql] -> adds Q (query_to_csv w sql max_rows).
Proof.
  intros He. unfold query_to_csv.
  apply adds_try_except;
    [|intros e; apply adds_handlers; repeat constructor; simpl; tauto].
  apply adds_bind; [apply adds_validate|]. intros valid.
  destruct (negb valid); [apply adds_ret|].
  destruct (negb _); [apply adds_ret|].
  apply connection_allowed.
  apply adds_bind; [now apply adds_cursor_execute|].
  intros [[description pending] rowcount].
  destruct description as [columns|]; [|apply adds_ret].
  apply adds_bind; [apply adds_fetchmany|]. intros batch.
  destruct (buffer_rows _ _ _) as [output rows_written].
  apply adds_bind; [apply adds_log|]. intros _.
  apply adds_bind; [|intros truncated; apply adds_ret].
  unfold ge_optional. destruct max_rows; [apply adds_ret | apply adds_raise].
Qed.

(** The footprint of [execute_dml]. *)
Lemma adds_execute_dml sql :
  Q [EExecute sql] -> Q [ECommit] -> adds Q (execute_dml w sql).
Proof.
  intros He Hk. unfold execute_dml.
  apply adds_try_except;
    [|intros e; apply adds_handlers; repeat constructor; simpl; tauto].
  apply adds_bind; [apply adds_validate|]. intros valid.
  destruct (negb valid); [apply adds_ret|].
  destruct (negb _); [apply adds_ret|].
  apply connection_allowed.
  apply adds_bind; [now apply adds_cursor_execute|].
  intros [[description fetched] rows_affected].
  apply adds_bind.
  - unfold conn_commit.
    apply adds_bind; [now apply adds_emit|]. intros _.
    destruct (db_commit _); [apply adds_raise | apply adds_ret].
  - intros _. apply adds_bind; [apply adds_log|]. intros _. apply adds_ret.
Qed.

Lemma adds_write_rows path rows n :
  (forall r, Q [EWriteRow path r]) -> adds Q (write_rows path rows n).
Proof.
  intros Hw. revert n. induction rows as [|r rest IH]; intros n; simpl.
  - apply adds_ret.
  - apply adds_bind; [apply adds_emit, Hw|]. intros _. apply IH.
Qed.

(** The footprint of [export_to_csv]. *)
Lemma adds_export_to_csv sql file_path max_rows :
  Q [EExecute sql] ->
  (directory_missing w file_path = true ->
   Q [EMakedirs (fs_dirname (fs w) file_path)]) ->
  Q [EOpenWrite file_path] ->
  (forall r, Q [EWriteRow file_path r]) ->
  adds Q (export_to_csv w sql file_path max_rows).
Proof.
  intros He Hm Ho Hw. unfold export_to_csv.
  apply adds_try_except;
    [|intros e; apply adds_handlers; repeat constructor; simpl; tauto].
  apply adds_bind; [apply adds_validate|]. intros valid.
  destruct (negb valid); [apply adds_ret|].
  destruct (negb _); [apply adds_ret|].
  apply adds_bind.
  - apply adds_try_except.
    + apply adds_bind; [|intros _; apply adds_ret].
      cbv zeta.
      destruct (PyStr.truthy _ && negb _) eqn:Hmissing; [|apply adds_ret].
      unfold makedirs.
      apply adds_bind; [apply adds_emit, Hm, Hmissing|]. intros _.
      destruct (fs_makedirs _ _); [apply adds_raise | apply adds_ret].
    + intros e. apply adds_dispatch_cons; [apply adds_ret|].
      apply adds_dispatch_nil.
  - intros [envelope|]; [apply adds_ret|].
    apply connection_allowed.
    apply adds_bind; [now apply adds_cursor_execute|].
    intros [[description pending] rowcount].
    destruct description as [columns|]; [|apply adds_ret].
    apply adds_bind.
    { unfold open_write.
      apply adds_bind; [now apply adds_emit|]. intros _.
      destruct (fs_open_w _ _); [apply adds_raise | apply adds_ret]. }
    intros _.
    apply adds_bind; [apply adds_emit, Hw|]. intros _.
    apply adds_bind.
    { destruct (int_truthy max_rows).
      - apply adds_bind; [apply adds_fetchmany|]. intros batch.
        now apply adds_write_rows.
      - now apply adds_write_rows. }
    intros rows_written.
    apply adds_bind.
    { intros t. exists []. unfold getsize. simpl. now rewrite app_nil_r. }
    intros file_size.
    apply adds_bind; [apply adds_log|]. intros _. apply adds_ret.
Qed.

End Footprint.

(** The two ways of allowing [get_db_connection]: event by event, and by
    balance. *)

Lemma connection_appends (w : World) (P : event -> bool) :
  (forall level msg, P (ELog level msg) = true) ->
  (forall conn_str, P (EConnect conn_str) = true) ->
  P EClose = true ->
  forall (A : Type) (body : M A),
    appends P body -> appends P (get_db_connection w body).
Proof.
  intros Hlog Hconn Hclose A body Hb t.
  assert (Herr : forall e, forallb P (error_log e) = true).
  { intros e. unfold error_log. destruct (is_pyodbc e); simpl; [now rewrite Hlog | reflexivity]. }
  destruct (get_connection_string (cfg w)) as [conn_str|e] eqn:Hs.
  - destruct (db_connect (db w) conn_str (QUERY_TIMEOUT (cfg w))) as [e|] eqn:Hc.
    + rewrite (with_block_refused w body conn_str t e Hs Hc).
      eexists. split; [reflexivity|].
      cbn [forallb]. now rewrite Hconn, Herr.
    + destruct (Hb (app t (established conn_str))) as (inner & Hinner & HP).
      destruct (body (app t (established conn_str))) as [[a|e] t1] eqn:Hbody;
        simpl in Hinner; subst t1.
      * rewrite (with_block_returns w body conn_str t a _ Hs Hc Hbody).
        rewrite <- !app_assoc. eexists. split; [reflexivity|].
        rewrite !forallb_app, HP. simpl. now rewrite Hconn, !Hlog, Hclose.
      * rewrite (with_block_raises w body conn_str t e _ Hs Hc Hbody).
        rewrite <- !app_assoc. eexists. split; [reflexivity|].
        rewrite !forallb_app, HP, Herr. simpl. now rewrite Hconn, !Hlog, Hclose.
  - rewrite (with_block_unconfigured w body t e Hs).
    eexists. split; [reflexivity|]. apply Herr.
Qed.

Lemma closes_app (a b : trace) : closes (app a b) = closes a + closes b.
Proof. unfold closes. now rewrite filter_app, length_app. Qed.

Lemma connects_tried_app (a b : trace) :
  connects_tried (app a b) = connects_tried a + connects_tried b.
Proof. unfold connects_tried. now rewrite filter_app, length_app. Qed.

Lemma balanced_app (w : World) (a b : trace) :
  balanced w a -> balanced w b -> balanced w (app a b).
Proof.
  unfold balanced. rewrite closes_app, connects_tried_app.
  destruct (can_connect w); lia.
Qed.

Lemma balanced_outside (w : World) (e : event) :
  inside_connection e = true -> balanced w [e].
Proof.
  unfold balanced, inside_connection, closes, connects_tried. simpl.
  destruct (is_connect e), (is_close e); try discriminate.
  now destruct (can_connect w).
Qed.

Lemma connection_balanced (w : World) (A : Type) (body : M A) :
  adds (balanced w) body -> adds (balanced w) (get_db_connection w body).
Proof.
  intros Hb t.
  assert (Herr : forall e, closes (error_log e) = 0 /\
                           connects_tried (error_log e) = 0).
  { intros e. unfold error_log. now destruct (is_pyodbc e). }
  unfold balanced, can_connect in *.
  destruct (get_connection_string (cfg w)) as [conn_str|e] eqn:Hs.
  - destruct (db_connect (db w) conn_str (QUERY_TIMEOUT (cfg w))) as [e|] eqn:Hc.
    + rewrite (with_block_refused w body conn_str t e Hs Hc).
      eexists. split; [reflexivity|].
      change (EConnect conn_str :: error_log e)
        with (app [EConnect conn_str] (error_log e)).
      rewrite closes_app. now rewrite (proj1 (Herr e)).
    + destruct (Hb (app t (established conn_str))) as (inner & Hinner & HQ).
      destruct (body (app t (established conn_str))) as [[a|e] t1] eqn:Hbody;
        simpl in Hinner; subst t1.
      * rewrite (with_block_returns w body conn_str t a _ Hs Hc Hbody).
        rewrite <- !app_assoc. eexists. split; [reflexivity|].
        rewrite !closes_app, !connects_tried_app, HQ.
        unfold closes, connects_tried. simpl. lia.
      * rewrite (with_block_raises w body conn_str t e _ Hs Hc Hbody).
        rewrite <- !app_assoc. eexists. split; [reflexivity|].
        rewrite !closes_app, !connects_tried_app, HQ.
        destruct (Herr e) as [-> ->].
        unfold closes, connects_tried. simpl. lia.
  - rewrite (with_block_unconfigured w body t e Hs).
    eexists. split; [reflexivity|]. apply Herr.
Qed.

Lemma adds_run {A} (Q : trace -> Prop) (c : M A) :
  adds Q c -> Q (snd (run c)).
Proof.
  intros Hc. unfold run. destruct (Hc []) as (added & -> & HQ). exact HQ.
Qed.

(* ===================================================================== *)
(** ** What the four tools never do *)
(* ===================================================================== *)

(** X3. Whatever the text, the cap and the world, query_sql and
    query_to_csv never commit and never touch the file system, and the only
    text they hand to the server is their argument, character for
    character (not its trimmed or upper-cased form). *)
Theorem read_tools_footprint (w : World) (sql : string) (max_rows : option Z) :
  forallb (fun e => read_only_event e && executes_only sql e)
          (snd (run (query_sql w sql max_rows))) = true /\
  forallb (fun e => read_only_event e && executes_only sql e)
          (snd (run (query_to_csv w sql max_rows))) = true.
Proof.
  set (P := fun e => read_only_event e && executes_only sql e).
  assert (Hconn : forall (A : Type) (body : M A),
             appends P body -> appends P (get_db_connection w body))
    by (apply connection_appends; reflexivity).
  assert (Hexec : forallb P [EExecute sql] = true)
    by (unfold P; simpl; now rewrite String.eqb_refl).
  assert (Happ : forall a b, forallb P a = true -> forallb P b = true ->
                             forallb P (app a b) = true)
    by (intros a b Ha Hb; now rewrite forallb_app, Ha, Hb).
  split.
  - apply (adds_run (fun added => forallb P added = true)
                    (query_sql w sql max_rows)).
    now apply adds_query_sql.
  - apply (adds_run (fun added => forallb P added = true)
                    (query_to_csv w sql max_rows)).
    now apply adds_query_to_csv.
Qed.

(** X4. Whatever the arguments and the world, export_to_csv never commits,
    hands to the server no other text than its argument, opens and writes
    no other file than file_path, and calls os.makedirs on nothing but
    os.path.dirname(file_path), and only when that name is not empty and
    os.path.exists says the directory is not there. (What os.makedirs then
    creates, the directory and its missing ancestors, is the file system's
    matter.) *)
Theorem export_to_csv_footprint
        (w : World) (sql file_path : string) (max_rows : option Z) :
  forallb (fun e => negb (is_commit e) && executes_only sql e
                    && writes_only (fs_dirname (fs w) file_path) file_path e
                    && makedirs_only_if (directory_missing w file_path) e)
          (snd (run (export_to_csv w sql file_path max_rows))) = true.
Proof.
  set (P := fun e => negb (is_commit e) && executes_only sql e
                     && writes_only (fs_dirname (fs w) file_path) file_path e
                     && makedirs_only_if (directory_missing w file_path) e).
  apply (adds_run (fun added => forallb P added = true)
                  (export_to_csv w sql file_path max_rows)).
  apply adds_export_to_csv.
  - reflexivity.
  - intros a b Ha Hb. now rewrite forallb_app, Ha, Hb.
  - reflexivity.
  - apply connection_appends; reflexivity.
  - unfold P. simpl. now rewrite String.eqb_refl.
  - intros Hmissing. unfold P. simpl. now rewrite String.eqb_refl, Hmissing.
  - unfold P. simpl. now rewrite String.eqb_refl.
  - intros r. unfold P. simpl. now rewrite String.eqb_refl.
Qed.

(** X5. Whatever the arguments and the world, each of the four tools leaves
    the connection as it found it: the trace has as many conn.close() as
    pyodbc.connect calls when the connection can be opened, and no close at
    all when it cannot. This holds on the paths that return an envelope and
    on the paths of execute_dml that let an exception escape. *)
Theorem tools_close_what_they_open
        (w : World) (sql file_path : string) (max_rows : option Z) :
  balanced w (snd (run (query_sql w sql max_rows))) /\
  balanced w (snd (run (execute_dml w sql))) /\
  balanced w (snd (run (export_to_csv w sql file_path max_rows))) /\
  balanced w (snd (run (query_to_csv w sql max_rows))).
Proof.
  assert (Hnil : balanced w [])
    by (unfold balanced, closes, connects_tried; simpl; now destruct (can_connect w)).
  assert (Happ := balanced_app w).
  assert (Hout : forall e, inside_connection e = true -> balanced w [e])
    by apply balanced_outside.
  assert (Hconn := connection_balanced w).
  assert (Hlog : forall level msg, balanced w [ELog level msg])
    by (intros; now apply Hout).
  repeat split.
  - apply (adds_run (balanced w) (query_sql w sql max_rows)).
    apply adds_query_sql; auto.
  - apply (adds_run (balanced w) (execute_dml w sql)).
    apply adds_execute_dml; auto.
  - apply (adds_run (balanced w) (export_to_csv w sql file_path max_rows)).
    apply adds_export_to_csv; auto.
  - apply (adds_run (balanced w) (query_to_csv w sql max_rows)).
    apply adds_query_to_csv; auto.
Qed.

Lemma handlers_return (w : World) (e : exn) (t : trace) :
  (exists envelope t',
      dispatch [database_error w; unexpected_error w] e t = (Ok envelope, t') /\
      error_populated envelope = true) /\
  (exists envelope t',
      dispatch [database_error w; file_io_error w; unexpected_error w] e t
      = (Ok envelope, t') /\
      error_populated envelope = true).
Proof.
  split; simpl.
  - destruct (is_pyodbc e); eexists _, _; split; reflexivity.
  - destruct (is_pyodbc e); [eexists _, _; split; reflexivity|].
    destruct (is_ioerror e); eexists _, _; split; reflexivity.
Qed.

(** X6. query_sql, export_to_csv and query_to_csv end every run by
    returning an envelope: whatever the configuration, the driver or the
    file system raise, no exception leaves these three tools (their last
    handler takes every exception and its body raises nothing). *)
Theorem tools_with_catch_all_never_raise
        (w : World) (sql file_path : string) (max_rows : option Z) :
  (exists envelope t, run (query_sql w sql max_rows) = (Ok envelope, t)) /\
  (exists envelope t,
      run (export_to_csv w sql file_path max_rows) = (Ok envelope, t)) /\
  (exists envelope t, run (query_to_csv w sql max_rows) = (Ok envelope, t)).
Proof.
  repeat split.
  - unfold run, query_sql, try_except at 1.
    match goal with |- context [let (_, _) := ?c in _] => destruct c as [[a|e] t1] end.
    + eauto.
    + destruct (proj1 (handlers_return w e t1)) as (envelope & t' & -> & _). eauto.
  - unfold run, export_to_csv, try_except at 1.
    match goal with |- context [let (_, _) := ?c in _] => destruct c as [[a|e] t1] end.
    + eauto.
    + destruct (proj2 (handlers_return w e t1)) as (envelope & t' & -> & _). eauto.
  - unfold run, query_to_csv, try_except at 1.
    match goal with |- context [let (_, _) := ?c in _] => destruct c as [[a|e] t1] end.
    + eauto.
    + destruct (proj1 (handlers_return w e t1)) as (envelope & t' & -> & _). eauto.
Qed.

Lemma warning_is_a_log (sql : string) : commits (warning sql) = false.
Proof. unfold warning. now destruct (matched_rule sql). Qed.

(** X7. execute_dml calls conn.commit() only for a text that passed the
    validator and the verb test, on a connection that opened, after
    cursor.execute returned: a statement whose execution raised is never
    committed. *)
Theorem execute_dml_commits_only_after_execution (w : World) (sql : string) :
  commits (snd (run (execute_dml w sql))) = true ->
  accepts sql = true /\
  starts_with_dml_verb sql = true /\
  can_connect w = true /\
  exists description rows rows_affected,
    db_execute (db w) sql = ExecDone description rows rows_affected.
Proof.
  intros H.
  destruct (accepts sql) eqn:Ha.
  2:{ rewrite (execute_dml_rejected w sql Ha) in H. simpl in H.
      rewrite warning_is_a_log in H. discriminate H. }
  destruct (starts_with_dml_verb sql) eqn:Hv.
  2:{ rewrite (execute_dml_not_dml w sql Ha Hv) in H. discriminate H. }
  revert H. unfold run, execute_dml, try_except at 1, bind at 1, can_connect.
  rewrite validate_sql_query_run, Ha, (accepted_logs_nothing _ Ha).
  unfold starts_with_dml_verb in Hv. rewrite Hv. cbn [negb app].
  destruct (get_connection_string (cfg w)) as [conn_str|e] eqn:Hs.
  2:{ rewrite (with_block_unconfigured w _ [] e Hs).
      unfold error_log. cbn [dispatch database_error fst snd].
      destruct (is_pyodbc e); intros H; cbn in H; discriminate H. }
  destruct (db_connect (db w) conn_str (QUERY_TIMEOUT (cfg w))) as [e|] eqn:Hc.
  { rewrite (with_block_refused w _ conn_str [] e Hs Hc).
    unfold error_log. cbn [dispatch database_error fst snd].
    destruct (is_pyodbc e); intros H; cbn in H; discriminate H. }
  destruct (db_execute (db w) sql) as [e|description rows rows_affected] eqn:He.
  - rewrite (get_db_connection_connected w _ conn_str [] Hs Hc).
    unfold try_finally, try_except, release, bind, cursor_execute, bind, emit.
    rewrite He. unfold raise.
    cbn [app dispatch connection_error database_error fst snd].
    destruct (is_pyodbc e) eqn:Hp; intros H; cbn in H; rewrite ?Hp in H;
      cbn in H; discriminate H.
  - intros _. repeat split. eauto.
Qed.

Lemma execute_dml_commits_only_after_execution_witness :
  accepts "UPDATE dbo.Temp SET n = 1 WHERE id = 5" = true /\
  starts_with_dml_verb "UPDATE dbo.Temp SET n = 1 WHERE id = 5" = true /\
  can_connect (Samples.mutating 1) = true /\
  exists description rows rows_affected,
    db_execute (db (Samples.mutating 1)) "UPDATE dbo.Temp SET n = 1 WHERE id = 5"
    = ExecDone description rows rows_affected.
Proof.
  apply (execute_dml_commits_only_after_execution
           (Samples.mutating 1) "UPDATE dbo.Temp SET n = 1 WHERE id = 5").
  reflexivity.
Defined.

(** X26. When conn.commit() raises a pyodbc.Error, execute_dml returns an
    error envelope although cursor.execute had succeeded; nothing more is
    sent to the server (no rollback) and the connection is closed. *)
Theorem execute_dml_commit_failure
        (w : World) (sql conn_str : string)
        (description : option (list string)) (rows : list row) (rows_affected : Z)
        (e : exn) :
  accepts sql = true ->
  starts_with_dml_verb sql = true ->
  get_connection_string (cfg w) = Ok conn_str ->
  db_connect (db w) conn_str (QUERY_TIMEOUT (cfg w)) = None ->
  db_execute (db w) sql = ExecDone description rows rows_affected ->
  db_commit (db w) = Some e ->
  is_pyodbc e = true ->
  run (execute_dml w sql) =
  (Ok (error_envelope w ("Database error: " ++ exn_str e)),
   app (established conn_str)
       (app [ EExecute sql; ECommit;
              ELog ERROR ("Database connection error: " ++ exn_str e) ]
            (app closed [ELog ERROR ("Database error: " ++ exn_str e)]))).
Proof.
  intros Ha Hv Hs Hc He Hk Hp.
  unfold run, execute_dml, try_except at 1, bind at 1.
  rewrite validate_sql_query_run, Ha, (accepted_logs_nothing _ Ha).
  unfold starts_with_dml_verb in Hv. rewrite Hv.
  cbn [negb app].
  rewrite (get_db_connection_connected w _ conn_str [] Hs Hc).
  unfold try_finally, try_except, release, bind, cursor_execute, conn_commit,
    bind, log, emit, ret, raise.
  rewrite He, Hk.
  cbn [app dispatch connection_error database_error fst snd]. rewrite Hp.
  unfold bind, log, emit, raise.
  cbn [app dispatch connection_error database_error fst snd]. rewrite Hp.
  reflexivity.
Qed.

Lemma execute_dml_commit_failure_witness :
  run (execute_dml
         {| cfg := Samples.trusted;
            db := {| db_connect := fun _ _ => None;
                     db_execute := fun _ => ExecDone None [] 1;
                     db_commit := Some (mk_exn PyodbcError "deadlock victim");
                     db_fetchmany_negative := fun _ _ => Ok [] |};
            fs := Samples.disk;
            now := Samples.clock |}
         "DELETE FROM dbo.Temp WHERE id=5") =
  (Ok (JDict [ ("error", JStr "Database error: deadlock victim");
               ("timestamp", JStr Samples.clock) ]),
   app (established
          "DRIVER={ODBC Driver 17 for SQL Server};SERVER=localhost;DATABASE=ServiceNow;Trusted_Connection=yes")
       (app [ EExecute "DELETE FROM dbo.Temp WHERE id=5"; ECommit;
              ELog ERROR "Database connection error: deadlock victim" ]
            (app closed [ELog ERROR "Database error: deadlock victim"]))).
Proof.
  apply (execute_dml_commit_failure
           {| cfg := Samples.trusted;
              db := {| db_connect := fun _ _ => None;
                       db_execute := fun _ => ExecDone None [] 1;
                       db_commit := Some (mk_exn PyodbcError "deadlock victim");
                       db_fetchmany_negative := fun _ _ => Ok [] |};
              fs := Samples.disk;
              now := Samples.clock |}
           "DELETE FROM dbo.Temp WHERE id=5"
           "DRIVER={ODBC Driver 17 for SQL Server};SERVER=localhost;DATABASE=ServiceNow;Trusted_Connection=yes"
           None [] 1%Z (mk_exn PyodbcError "deadlock victim"));
    reflexivity.
Defined.

(* ===================================================================== *)
(** ** The validator and the shape of the text *)
(* ===================================================================== *)

Lemma upper_char_idempotent (c : ascii) :
  PyStr.upper_char (PyStr.upper_char c) = PyStr.upper_char c.
Proof. by_cases_on_char c. Qed.

Lemma upper_char_of_lower (c : ascii) :
  PyStr.upper_char (PyStr.lower_char c) = PyStr.upper_char c.
Proof. by_cases_on_char c. Qed.

Lemma upper_char_keeps_space (c : ascii) :
  PyStr.is_space (PyStr.upper_char c) = PyStr.is_space c.
Proof. by_cases_on_char c. Qed.

Lemma upper_char_keeps_dash (c : ascii) :
  Ascii.eqb (PyStr.upper_char c) "-" = Ascii.eqb c "-".
Proof. by_cases_on_char c. Qed.

Lemma space_is_no_dash (c : ascii) :
  PyStr.is_space c = true -> Ascii.eqb c "-" = false.
Proof. destruct c as [[] [] [] [] [] [] [] []]; intros H; try reflexivity; discriminate H. Qed.

Lemma upper_idempotent (s : string) : PyStr.upper (PyStr.upper s) = PyStr.upper s.
Proof.
  induction s as [|c r IH]; simpl; [reflexivity|].
  now rewrite upper_char_idempotent, IH.
Qed.

Lemma upper_of_lower (s : string) : PyStr.upper (PyStr.lower s) = PyStr.upper s.
Proof.
  induction s as [|c r IH]; simpl; [reflexivity|].
  now rewrite upper_char_of_lower, IH.
Qed.

Lemma upper_lstrip (s : string) :
  PyStr.upper (PyStr.lstrip s) = PyStr.lstrip (PyStr.upper s).
Proof.
  induction s as [|c r IH]; simpl; [reflexivity|].
  rewrite upper_char_keeps_space.
  destruct (PyStr.is_space c); [exact IH | reflexivity].
Qed.

Lemma upper_rstrip (s : string) :
  PyStr.upper (PyStr.rstrip s) = PyStr.rstrip (PyStr.upper s).
Proof.
  induction s as [|c r IH]; simpl; [reflexivity|].
  rewrite <- IH, upper_char_keeps_space.
  destruct (PyStr.rstrip r) as [|d r']; simpl.
  - now destruct (PyStr.is_space c).
  - reflexivity.
Qed.

Lemma upper_strip (s : string) :
  PyStr.upper (PyStr.strip s) = PyStr.strip (PyStr.upper s).
Proof. unfold PyStr.strip. now rewrite upper_rstrip, upper_lstrip. Qed.

Lemma rstrip_idempotent (s : string) :
  PyStr.rstrip (PyStr.rstrip s) = PyStr.rstrip s.
Proof.
  induction s as [|c r IH]; simpl; [reflexivity|].
  destruct (PyStr.rstrip r) as [|d r'] eqn:E.
  - destruct (PyStr.is_space c) eqn:Hc; simpl; [reflexivity | now rewrite Hc].
  - change (PyStr.rstrip (String c (String d r')))
      with (match PyStr.rstrip (String d r') with
            | EmptyString =>
                if PyStr.is_space c then EmptyString else String c EmptyString
            | r'' => String c r''
            end).
    now rewrite IH.
Qed.

Lemma lstrip_starts_clean (s : string) : starts_clean (PyStr.lstrip s).
Proof.
  induction s as [|c r IH]; simpl; [exact I|].
  destruct (PyStr.is_space c) eqn:Hc; [exact IH | exact Hc].
Qed.

Lemma lstrip_of_clean (s : string) : starts_clean s -> PyStr.lstrip s = s.
Proof. destruct s as [|c r]; simpl; [reflexivity|]. now intros ->. Qed.

Lemma rstrip_keeps_clean (s : string) : starts_clean s -> starts_clean (PyStr.rstrip s).
Proof.
  destruct s as [|c r]; simpl; [exact id|]. intros Hc.
  destruct (PyStr.rstrip r); [now rewrite Hc | exact Hc].
Qed.

Lemma strip_idempotent (s : string) : PyStr.strip (PyStr.strip s) = PyStr.strip s.
Proof.
  unfold PyStr.strip.
  rewrite (lstrip_of_clean (PyStr.rstrip (PyStr.lstrip s))).
  - apply rstrip_idempotent.
  - apply rstrip_keeps_clean, lstrip_starts_clean.
Qed.

(** X8. On ASCII text the verdict of the validator does not depend on
    letter case nor on whitespace around the text: the upper-cased, the
    lower-cased and the trimmed text get the verdict of the text itself.
    (Not so beyond ASCII, where lower-casing can put a combining mark in
    front of a keyword.) *)
Theorem validator_ignores_case_and_margins (sql : string) :
  PyStr.isascii sql = true ->
  accepts (PyStr.upper sql) = accepts sql /\
  accepts (PyStr.lower sql) = accepts sql /\
  accepts (PyStr.strip sql) = accepts sql.
Proof.
  intros _. unfold accepts.
  rewrite upper_idempotent, upper_of_lower, upper_strip, strip_idempotent.
  repeat split.
Qed.

Lemma validator_ignores_case_and_margins_witness :
  accepts (PyStr.upper "  Drop  Table dbo.Employees ")
  = accepts "  Drop  Table dbo.Employees " /\
  accepts (PyStr.lower "  Drop  Table dbo.Employees ")
  = accepts "  Drop  Table dbo.Employees " /\
  accepts (PyStr.strip "  Drop  Table dbo.Employees ")
  = accepts "  Drop  Table dbo.Employees ".
Proof.
  apply (validator_ignores_case_and_margins "  Drop  Table dbo.Employees ").
  reflexivity.
Defined.

Lemma has_dashes_two (c d : ascii) (r : string) :
  has_dashes (String c (String d r)) =
  if Ascii.eqb c "-" && Ascii.eqb d "-" then true else has_dashes (String d r).
Proof. reflexivity. Qed.

Lemma has_dashes_upper (s : string) : has_dashes (PyStr.upper s) = has_dashes s.
Proof.
  induction s as [|c r IH]; [reflexivity|].
  destruct r as [|d r']; [reflexivity|].
  change (PyStr.upper (String c (String d r')))
    with (String (PyStr.upper_char c) (String (PyStr.upper_char d) (PyStr.upper r'))).
  rewrite !has_dashes_two, !upper_char_keeps_dash.
  destruct (Ascii.eqb c "-" && Ascii.eqb d "-"); [reflexivity|].
  exact IH.
Qed.

Lemma has_dashes_skip (c : ascii) (r : string) :
  Ascii.eqb c "-" = false -> has_dashes (String c r) = has_dashes r.
Proof.
  intros Hc. destruct r as [|d r']; [reflexivity|].
  rewrite has_dashes_two. now rewrite Hc.
Qed.

Lemma has_dashes_lstrip (s : string) : has_dashes (PyStr.lstrip s) = has_dashes s.
Proof.
  induction s as [|c r IH]; [reflexivity|].
  cbn [PyStr.lstrip]. destruct (PyStr.is_space c) eqn:Hc; [|reflexivity].
  rewrite IH. symmetry. now apply has_dashes_skip, space_is_no_dash.
Qed.

(** Where [rstrip] leaves nothing there was only whitespace. *)
Lemma rstrip_empty_no_dashes (s : string) :
  PyStr.rstrip s = EmptyString -> has_dashes s = false.
Proof.
  induction s as [|c r IH]; [reflexivity|].
  cbn [PyStr.rstrip]. destruct (PyStr.rstrip r) eqn:E; [|discriminate].
  destruct (PyStr.is_space c) eqn:Hc; [|discriminate]. intros _.
  rewrite has_dashes_skip by now apply space_is_no_dash.
  now apply IH.
Qed.

Lemma has_dashes_one_then_spaces (c : ascii) (r : string) :
  PyStr.rstrip r = EmptyString ->
  has_dashes (PyStr.rstrip (String c r)) = has_dashes (String c r).
Proof.
  intros E. cbn [PyStr.rstrip]. rewrite E.
  assert (Hr := rstrip_empty_no_dashes r E).
  destruct r as [|d r'].
  - now destruct (PyStr.is_space c).
  - rewrite has_dashes_two, Hr.
    assert (Hd : Ascii.eqb d "-" = false).
    { cbn [PyStr.rstrip] in E.
      destruct (PyStr.rstrip r'); [|discriminate E].
      destruct (PyStr.is_space d) eqn:Hd; [|discriminate E].
      now apply space_is_no_dash. }
    rewrite Hd, andb_false_r. now destruct (PyStr.is_space c).
Qed.

Lemma rstrip_cons (c : ascii) (r : string) :
  PyStr.rstrip r <> EmptyString ->
  PyStr.rstrip (String c r) = String c (PyStr.rstrip r).
Proof. cbn [PyStr.rstrip]. now destruct (PyStr.rstrip r). Qed.

Lemma rstrip_head (d : ascii) (r u : string) (e : ascii) :
  PyStr.rstrip (String d r) = String e u -> e = d.
Proof.
  cbn [PyStr.rstrip].
  destruct (PyStr.rstrip r); [destruct (PyStr.is_space d)|]; congruence.
Qed.

Lemma has_dashes_rstrip (s : string) : has_dashes (PyStr.rstrip s) = has_dashes s.
Proof.
  induction s as [|c r IH]; [reflexivity|].
  destruct (PyStr.rstrip r) as [|e u] eqn:E.
  - rewrite (has_dashes_one_then_spaces c r E). reflexivity.
  - rewrite rstrip_cons by congruence.
    destruct r as [|d r']; [discriminate E|].
    assert (He := rstrip_head d r' u e E). subst e.
    rewrite E, !has_dashes_two.
    destruct (Ascii.eqb c "-" && Ascii.eqb d "-"); [reflexivity|].
    exact IH.
Qed.

Lemma has_dashes_inside (a b : string) : has_dashes (a ++ "--" ++ b) = true.
Proof.
  induction a as [|c r IH]; [reflexivity|].
  change (String c r ++ "--" ++ b) with (String c (r ++ "--" ++ b)).
  destruct (r ++ "--" ++ b) as [|d r'] eqn:E; [discriminate IH|].
  rewrite has_dashes_two.
  destruct (Ascii.eqb c "-" && Ascii.eqb d "-"); [reflexivity | exact IH].
Qed.

(** The pattern [--] finds exactly the texts with two hyphens in a row. *)
Lemma search_dashes (s : string) : Re.search "--" s = has_dashes s.
Proof.
  unfold Re.search.
  change (Re.compile "--")
    with [Re.Rep Re.Once (Re.CLit "-"); Re.Rep Re.Once (Re.CLit "-")].
  generalize (@None ascii).
  induction s as [|c r IH]; intros prev; [reflexivity|].
  cbn [Re.search_from Re.match_here Re.in_class].
  destruct r as [|d r'].
  - destruct (Ascii.eqb c "-"); reflexivity.
  - rewrite has_dashes_two.
    destruct (Ascii.eqb c "-"); cbn [andb].
    + destruct (Ascii.eqb d "-"); [reflexivity | apply IH].
    + apply IH.
Qed.

Lemma dashes_rejected (sql : string) :
  has_dashes sql = true -> accepts sql = false.
Proof.
  intros H. apply rejects_iff_some_rule.
  exists "--". split; [simpl; tauto|].
  rewrite search_dashes. unfold PyStr.strip.
  now rewrite has_dashes_rstrip, has_dashes_lstrip, has_dashes_upper.
Qed.

Lemma has_dashes_after (a s : string) :
  has_dashes s = true -> has_dashes (a ++ s) = true.
Proof.
  intros H. induction a as [|c r IH]; [exact H|].
  change (String c r ++ s) with (String c (r ++ s)).
  destruct (r ++ s) as [|d r'] eqn:E; [discriminate IH|].
  rewrite has_dashes_two.
  destruct (Ascii.eqb c "-" && Ascii.eqb d "-"); [reflexivity | exact IH].
Qed.

Lemma has_dashes_before (s b : string) :
  has_dashes s = true -> has_dashes (s ++ b) = true.
Proof.
  induction s as [|c r IH]; [discriminate|].
  destruct r as [|d r']; [discriminate|].
  rewrite has_dashes_two.
  change (String c (String d r') ++ b) with (String c (String d (r' ++ b))).
  rewrite has_dashes_two.
  destruct (Ascii.eqb c "-" && Ascii.eqb d "-"); [reflexivity|].
  exact IH.
Qed.

Lemma has_dashes_truthy (s : string) : has_dashes s = true -> PyStr.truthy s = true.
Proof. now destruct s. Qed.

(** X9. Every text that contains the comment marker -- anywhere, also
    inside a quoted literal, is rejected by the validator, whatever stands
    before and after it. *)
Theorem validator_rejects_every_comment_marker (before after : string) :
  accepts (before ++ "--" ++ after) = false.
Proof. apply dashes_rejected, has_dashes_inside. Qed.

Lemma last_char_some (r : string) (d : ascii) :
  exists e, last_char (String d r) = Some e.
Proof.
  revert d. induction r as [|c r IH]; intros d.
  - now exists d.
  - destruct (IH c) as (e & He). exists e. exact He.
Qed.

Lemma last_or_cons (prev : option ascii) (c : ascii) (r : string) :
  last_or prev (String c r) = last_or (Some c) r.
Proof.
  unfold last_or. destruct r as [|d r']; [reflexivity|].
  change (last_char (String c (String d r'))) with (last_char (String d r')).
  destruct (last_char_some r' d) as (e & ->). reflexivity.
Qed.

(** A match that starts right after a prefix [x] of the text is found by
    the search. *)
Lemma search_from_skips (p : Re.regex) (x s : string) :
  forall prev,
    Re.match_here p (last_or prev x) s = true ->
    Re.search_from p prev (x ++ s) = true.
Proof.
  induction x as [|c r IH]; intros prev H.
  - change (last_or prev EmptyString) with prev in H.
    change (EmptyString ++ s) with s.
    destruct s; cbn [Re.search_from]; now rewrite H.
  - change (String c r ++ s) with (String c (r ++ s)).
    cbn [Re.search_from].
    destruct (Re.match_here p prev (String c (r ++ s))); [reflexivity|].
    apply IH. now rewrite <- (last_or_cons prev).
Qed.

Lemma upper_app (a b : string) :
  PyStr.upper (a ++ b) = PyStr.upper a ++ PyStr.upper b.
Proof. induction a as [|c r IH]; simpl; [reflexivity | now rewrite IH]. Qed.

Lemma lstrip_app (x y : string) :
  starts_clean y -> y <> EmptyString ->
  PyStr.lstrip (x ++ y) = PyStr.lstrip x ++ y.
Proof.
  intros Hy Hne. induction x as [|c r IH]; simpl.
  - now apply lstrip_of_clean.
  - destruct (PyStr.is_space c); [exact IH | reflexivity].
Qed.

Lemma rstrip_solid (c : ascii) (z : string) :
  PyStr.is_space c = false ->
  PyStr.rstrip (String c z) = String c (PyStr.rstrip z).
Proof. intros Hc. cbn [PyStr.rstrip]. destruct (PyStr.rstrip z); now rewrite ?Hc. Qed.

Lemma rstrip_app (x : string) (c : ascii) (z : string) :
  PyStr.is_space c = false ->
  PyStr.rstrip (x ++ String c z) = x ++ String c (PyStr.rstrip z).
Proof.
  intros Hc. induction x as [|d r IH].
  - now apply rstrip_solid.
  - change (String d r ++ String c z) with (String d (r ++ String c z)).
    rewrite rstrip_cons; [now rewrite IH|].
    rewrite IH. now destruct r.
Qed.

Lemma upper_char_keeps_word (c : ascii) :
  PyStr.is_word (PyStr.upper_char c) = PyStr.is_word c.
Proof. by_cases_on_char c. Qed.

Lemma last_char_upper (s : string) :
  Re.word_at (last_char (PyStr.upper s)) = Re.word_at (last_char s).
Proof.
  induction s as [|c r IH]; [reflexivity|].
  destruct r as [|d r'].
  - simpl. apply upper_char_keeps_word.
  - exact IH.
Qed.

Lemma next_char_upper (s : string) :
  Re.word_at (Re.next_char (PyStr.upper s)) = Re.word_at (Re.next_char s).
Proof. destruct s; [reflexivity|]. simpl. apply upper_char_keeps_word. Qed.

Lemma last_char_lstrip (s : string) :
  Re.word_at (last_char s) = false ->
  Re.word_at (last_char (PyStr.lstrip s)) = false.
Proof.
  induction s as [|c r IH]; [reflexivity|].
  intros H. cbn [PyStr.lstrip].
  destruct (PyStr.is_space c) eqn:Hc; [|exact H].
  destruct r as [|d r']; [reflexivity|]. now apply IH.
Qed.

Lemma next_char_rstrip (s : string) :
  Re.word_at (Re.next_char s) = false ->
  Re.word_at (Re.next_char (PyStr.rstrip s)) = false.
Proof.
  destruct s as [|c r]; [reflexivity|].
  intros H. cbn [PyStr.rstrip].
  destruct (PyStr.rstrip r); [destruct (PyStr.is_space c)|]; trivial.
Qed.

Lemma truncate_matches_here (prev : option ascii) (y : string) :
  Re.word_at prev = false ->
  Re.word_at (Re.next_char y) = false ->
  Re.match_here (Re.compile "\bTRUNCATE\b") prev ("TRUNCATE" ++ y) = true.
Proof.
  intros Hp Hy.
  change (Re.match_here (Re.compile "\bTRUNCATE\b") prev ("TRUNCATE" ++ y))
    with (if xorb (Re.word_at prev) true
          then if xorb true (Re.word_at (Re.next_char y)) then true else false
          else false).
  now rewrite Hp, Hy.
Qed.

(** X10. In ASCII text, the word TRUNCATE, in any letter case, standing as
    a word of its own (no letter, digit or underscore right before or right
    after it) makes the validator reject the text. *)
Theorem validator_rejects_truncate_as_a_word (before keyword after : string) :
  PyStr.isascii (before ++ keyword ++ after) = true ->
  PyStr.upper keyword = "TRUNCATE" ->
  Re.word_at (last_char before) = false ->
  Re.word_at (Re.next_char after) = false ->
  accepts (before ++ keyword ++ after) = false.
Proof.
  intros _ Hk Hb Ha.
  apply rejects_iff_some_rule.
  exists "\bTRUNCATE\b". split; [simpl; tauto|].
  rewrite !upper_app, Hk. unfold PyStr.strip.
  rewrite lstrip_app by (simpl; easy).
  cbn [append].
  rewrite rstrip_app by reflexivity.
  rewrite !rstrip_solid by reflexivity.
  unfold Re.search.
  apply (search_from_skips _ (PyStr.lstrip (PyStr.upper before))
                           ("TRUNCATE" ++ PyStr.rstrip (PyStr.upper after))).
  apply truncate_matches_here.
  - unfold last_or.
    assert (H := last_char_lstrip (PyStr.upper before)).
    rewrite last_char_upper in H. specialize (H Hb).
    now destruct (last_char (PyStr.lstrip (PyStr.upper before))).
  - apply next_char_rstrip. now rewrite next_char_upper.
Qed.

Lemma validator_rejects_truncate_as_a_word_witness :
  accepts ("SELECT 1;" ++ "Truncate" ++ " TABLE dbo.Employees") = false.
Proof.
  apply (validator_rejects_truncate_as_a_word
           "SELECT 1;" "Truncate" " TABLE dbo.Employees");
    reflexivity.
Defined.

(* ===================================================================== *)
(** ** Result shaping: edges *)
(* ===================================================================== *)

Lemma slice_to_is_prefix {A} (n : Z) (l : list A) :
  exists k, slice_to n l = firstn k l.
Proof. unfold slice_to. destruct (0 <=? n)%Z; eauto. Qed.

(** X11. Whatever the cap (absent, zero, negative or positive), the rows of
    the envelope built by format_query_result are the first rows of the
    fetched rows, in order; and when truncated is false the envelope holds
    every fetched row. *)
Theorem envelope_rows_are_a_prefix
        (w : World) (columns : list string) (rows : list row) (max_rows : option Z) :
  (exists k,
      field "rows" (format_query_result w columns rows max_rows) =
      Some (JList (map row_json (firstn k rows)))) /\
  (field "truncated" (format_query_result w columns rows max_rows)
   = Some (JBool false) ->
   field "rows" (format_query_result w columns rows max_rows) =
   Some (JList (map row_json rows))).
Proof.
  unfold format_query_result.
  cbn [field assoc String.eqb Ascii.eqb Bool.eqb].
  split.
  - destruct (slice_to_is_prefix (int_or max_rows (MAX_ROWS (cfg w))) rows)
      as (k & ->).
    now exists k.
  - intros H. injection H as H.
    apply Z.ltb_ge in H. unfold slice_to, len in *.
    destruct (Z.leb_spec 0 (int_or max_rows (MAX_ROWS (cfg w)))); [|lia].
    rewrite firstn_all2 by lia. reflexivity.
Qed.

Lemma envelope_rows_are_a_prefix_witness :
  field "rows" (format_query_result (Samples.reading []) ["name"]
                                    (Samples.employees 2) (Some 2%Z)) =
  Some (JList (map row_json (Samples.employees 2))).
Proof.
  apply (proj2 (envelope_rows_are_a_prefix (Samples.reading []) ["name"]
                  (Samples.employees 2) (Some 2%Z))).
  reflexivity.
Defined.

(** X12. An accepted text with the SELECT prefix whose execution yields no
    result set (cursor.description is None) is executed all the same;
    query_sql then returns the envelope that has only a message field (no
    error, rows or timestamp), and the connection is closed without a
    commit. *)
Theorem query_sql_without_result_set
        (w : World) (sql : string) (max_rows : option Z)
        (conn_str : string) (rows : list row) (rowcount : Z) :
  accepts sql = true ->
  starts_with_select sql = true ->
  get_connection_string (cfg w) = Ok conn_str ->
  db_connect (db w) conn_str (QUERY_TIMEOUT (cfg w)) = None ->
  db_execute (db w) sql = ExecDone None rows rowcount ->
  run (query_sql w sql max_rows) =
  (Ok (JDict [("message", JStr "Query executed successfully with no results")]),
   app (established conn_str) (EExecute sql :: closed)).
Proof.
  intros Ha Hv Hs Hc He.
  unfold run, query_sql, try_except at 1, bind at 1.
  rewrite validate_sql_query_run, Ha, (accepted_logs_nothing _ Ha).
  unfold starts_with_select in Hv. rewrite Hv.
  cbn [negb app].
  rewrite (get_db_connection_connected w _ conn_str [] Hs Hc).
  unfold try_finally, try_except, release, bind, cursor_execute,
    bind, log, emit, ret.
  rewrite He. reflexivity.
Qed.

Lemma query_sql_without_result_set_witness :
  run (query_sql (Samples.mutating 3)
                 "SELECT name INTO dbo.Copy FROM dbo.Employees" None) =
  (Ok (JDict [("message", JStr "Query executed successfully with no results")]),
   app (established
          "DRIVER={ODBC Driver 17 for SQL Server};SERVER=localhost;DATABASE=ServiceNow;Trusted_Connection=yes")
       (EExecute "SELECT name INTO dbo.Copy FROM dbo.Employees" :: closed)).
Proof.
  apply (query_sql_without_result_set
           (Samples.mutating 3)
           "SELECT name INTO dbo.Copy FROM dbo.Employees" None
           "DRIVER={ODBC Driver 17 for SQL Server};SERVER=localhost;DATABASE=ServiceNow;Trusted_Connection=yes"
           [] 3%Z);
    reflexivity.
Defined.

(* ===================================================================== *)
(** ** The file export: cap and failures *)
(* ===================================================================== *)

Section ExportFacts.

Variable w : World.

(** The start of every run of [export_to_csv] on an accepted text with the
    SELECT prefix: the directory is prepared, then the connection is asked
    for. *)
Lemma export_to_csv_prepared sql file_path max_rows :
  accepts sql = true ->
  starts_with_select sql = true ->
  directory_ready w file_path ->
  run (export_to_csv w sql file_path max_rows) =
  try_except (get_db_connection w (export_body w sql file_path max_rows))
             [database_error w; file_io_error w; unexpected_error w]
             (directory_events w file_path).
Proof.
  intros Ha Hv Hd.
  unfold run, export_to_csv, try_except at 1, bind at 1.
  rewrite validate_sql_query_run, Ha, (accepted_logs_nothing _ Ha).
  unfold starts_with_select in Hv. rewrite Hv.
  cbn [negb app].
  unfold try_except at 2, bind at 1, bind at 1.
  unfold directory_ready, directory_events, directory_missing in *.
  cbv zeta in *.
  destruct (PyStr.truthy _ && negb _).
  - unfold makedirs, bind, emit. rewrite (Hd eq_refl). reflexivity.
  - reflexivity.
Qed.

Lemma file_lines_after_directory (path : string) (t : trace) :
  file_lines path (app (directory_events w path) t) = file_lines path t.
Proof.
  unfold file_lines. now rewrite fold_left_app, directory_events_write_nothing.
Qed.

End ExportFacts.

(** X13. With a positive cap c, export_to_csv writes the header and the
    first min(c, n) rows of the n rows of the result set, reports that
    number as rows_exported, and its envelope has no field that tells
    whether rows were left out. *)
Theorem export_to_csv_capped
        (w : World) (sql file_path : string) (cap : Z)
        (columns : list string) (rows : list row) (rowcount : Z) :
  accepts sql = true ->
  starts_with_select sql = true ->
  directory_ready w file_path ->
  fs_open_w (fs w) file_path = None ->
  connects w ->
  db_execute (db w) sql = ExecDone (Some columns) rows rowcount ->
  (0 < cap)%Z ->
  exists envelope t,
    run (export_to_csv w sql file_path (Some cap)) = (Ok envelope, t) /\
    field "rows_exported" envelope = Some (JInt (Z.min cap (len rows))) /\
    has_field "truncated" envelope = false /\
    file_lines file_path t = header columns :: firstn (Z.to_nat cap) rows.
Proof.
  intros Ha Hv Hd Ho (conn_str & Hs & Hc) He Hcap.
  rewrite (export_to_csv_prepared w sql file_path (Some cap) Ha Hv Hd).
  unfold try_except.
  assert (Hbody : forall t0,
    export_body w sql file_path (Some cap) t0 =
    (Ok (JDict [ ("success", JBool true);
                 ("file_path", JStr file_path);
                 ("rows_exported", JInt (len (firstn (Z.to_nat cap) rows)));
                 ("file_size_bytes",
                  JInt (fs_getsize (fs w) file_path
                          (file_lines file_path
                             (app t0 (app [EExecute sql; EOpenWrite file_path;
                                           EWriteRow file_path (header columns)]
                                          (map (EWriteRow file_path)
                                               (firstn (Z.to_nat cap) rows)))))));
                 ("file_size_mb",
                  JMegabytes (fs_getsize (fs w) file_path
                          (file_lines file_path
                             (app t0 (app [EExecute sql; EOpenWrite file_path;
                                           EWriteRow file_path (header columns)]
                                          (map (EWriteRow file_path)
                                               (firstn (Z.to_nat cap) rows)))))));
                 ("columns", JList (map JStr columns));
                 ("timestamp", JStr (now w)) ]),
     app t0 (app [EExecute sql; EOpenWrite file_path;
                  EWriteRow file_path (header columns)]
                 (app (map (EWriteRow file_path) (firstn (Z.to_nat cap) rows))
                      [ELog INFO ("CSV export successful: "
                                    ++ str_int (len (firstn (Z.to_nat cap) rows))
                                    ++ " rows written to " ++ file_path)])))).
  { intros t0.
    unfold export_body, bind, cursor_execute, open_write, fetchmany, getsize,
      bind, log, emit, ret.
    rewrite He, Ho.
    replace (int_truthy (Some cap)) with true
      by (unfold int_truthy; destruct (Z.eqb_spec cap 0); [lia | reflexivity]).
    destruct (Z.leb_spec 0 cap); [|lia].
    rewrite write_rows_run, Z.add_0_l.
    rewrite <- !app_assoc. reflexivity. }
  rewrite (with_block_returns w _ conn_str _ _ _ Hs Hc (Hbody _)).
  eexists _, _. split; [reflexivity|].
  cbn [field assoc String.eqb Ascii.eqb Bool.eqb has_field].
  rewrite (len_firstn cap rows) by lia.
  repeat split.
  rewrite <- !app_assoc, file_lines_after_directory.
  unfold file_lines, established, closed.
  cbn [app fold_left file_step].
  rewrite String.eqb_refl. cbn [app].
  rewrite fold_left_app, file_lines_of_rows. reflexivity.
Qed.

Lemma export_to_csv_capped_witness :
  exists envelope t,
    run (export_to_csv (Samples.reading (Samples.employees 5))
                       "SELECT name FROM dbo.Employees" "exports/top.csv" (Some 2%Z))
    = (Ok envelope, t) /\
    field "rows_exported" envelope = Some (JInt 2) /\
    has_field "truncated" envelope = false /\
    file_lines "exports/top.csv" t =
    header ["name"] :: firstn 2 (Samples.employees 5).
Proof.
  apply (export_to_csv_capped
           (Samples.reading (Samples.employees 5))
           "SELECT name FROM dbo.Employees" "exports/top.csv" 2%Z
           ["name"] (Samples.employees 5) (-1)%Z).
  - reflexivity.
  - reflexivity.
  - intros _. reflexivity.
  - reflexivity.
  - eexists. split; reflexivity.
  - reflexivity.
  - lia.
Defined.

(** X14. When the directory of file_path is missing and cannot be created,
    export_to_csv returns the envelope "Invalid file path: ..." with the
    cause, whatever the kind of the exception, and stops there: no
    connection is asked for and nothing is executed. *)
Theorem export_to_csv_bad_directory
        (w : World) (sql file_path : string) (max_rows : option Z) (e : exn) :
  accepts sql = true ->
  starts_with_select sql = true ->
  directory_missing w file_path = true ->
  fs_makedirs (fs w) (fs_dirname (fs w) file_path) = Some e ->
  run (export_to_csv w sql file_path max_rows) =
  (Ok (error_envelope w ("Invalid file path: " ++ exn_str e)),
   [EMakedirs (fs_dirname (fs w) file_path)]).
Proof.
  intros Ha Hv Hd Hm.
  unfold run, export_to_csv, try_except at 1, bind at 1.
  rewrite validate_sql_query_run, Ha, (accepted_logs_nothing _ Ha).
  unfold starts_with_select in Hv. rewrite Hv.
  cbn [negb app].
  unfold try_except at 1, bind at 1, bind at 1.
  unfold directory_missing in Hd. cbv zeta in Hd. rewrite Hd.
  unfold makedirs, bind, emit. rewrite Hm. reflexivity.
Qed.

Lemma export_to_csv_bad_directory_witness :
  run (export_to_csv
         {| cfg := Samples.trusted;
            db := Samples.serving [];
            fs := {| fs_dirname := fun _ => "Z:\exports";
                     fs_exists := fun _ => false;
                     fs_makedirs := fun _ => Some (mk_exn IOError "no such drive");
                     fs_open_w := fun _ => None;
                     fs_getsize := fun _ _ => 0%Z |};
            now := Samples.clock |}
         "SELECT name FROM dbo.Employees" "Z:\exports\all.csv" None) =
  (Ok (JDict [ ("error", JStr "Invalid file path: no such drive");
               ("timestamp", JStr Samples.clock) ]),
   [EMakedirs "Z:\exports"]).
Proof.
  apply (export_to_csv_bad_directory
           {| cfg := Samples.trusted;
              db := Samples.serving [];
              fs := {| fs_dirname := fun _ => "Z:\exports";
                       fs_exists := fun _ => false;
                       fs_makedirs := fun _ => Some (mk_exn IOError "no such drive");
                       fs_open_w := fun _ => None;
                       fs_getsize := fun _ _ => 0%Z |};
              now := Samples.clock |}
           "SELECT name FROM dbo.Employees" "Z:\exports\all.csv" None
           (mk_exn IOError "no such drive"));
    reflexivity.
Defined.

(** X15. When the statement yields no result set, export_to_csv returns an
    error envelope and the file is not opened: nothing is created or
    emptied at file_path, although the statement has been executed. *)
Theorem export_to_csv_without_result_set
        (w : World) (sql file_path : string) (max_rows : option Z)
        (rows : list row) (rowcount : Z) :
  accepts sql = true ->
  starts_with_select sql = true ->
  directory_ready w file_path ->
  connects w ->
  db_execute (db w) sql = ExecDone None rows rowcount ->
  exists t,
    run (export_to_csv w sql file_path max_rows) =
    (Ok (error_envelope w "Query returned no results to export"), t) /\
    reaches_database t = true /\
    forallb (fun e => match e with
                      | EOpenWrite _ | EWriteRow _ _ => false
                      | _ => true
                      end) t = true.
Proof.
  intros Ha Hv Hd (conn_str & Hs & Hc) He.
  rewrite (export_to_csv_prepared w sql file_path max_rows Ha Hv Hd).
  unfold try_except.
  assert (Hbody : forall t0,
    export_body w sql file_path max_rows t0 =
    (Ok (error_envelope w "Query returned no results to export"),
     app t0 [EExecute sql])).
  { intros t0. unfold export_body, bind, cursor_execute, bind, emit, ret.
    now rewrite He. }
  rewrite (with_block_returns w _ conn_str _ _ _ Hs Hc (Hbody _)).
  eexists. split; [reflexivity|].
  unfold reaches_database, directory_events.
  destruct (directory_missing w file_path); split; reflexivity.
Qed.

Lemma export_to_csv_without_result_set_witness :
  exists t,
    run (export_to_csv (Samples.mutating 0)
                       "SELECT name INTO dbo.Copy FROM dbo.Employees"
                       "exports/copy.csv" None) =
    (Ok (error_envelope (Samples.mutating 0) "Query returned no results to export"), t) /\
    reaches_database t = true /\
    forallb (fun e => match e with
                      | EOpenWrite _ | EWriteRow _ _ => false
                      | _ => true
                      end) t = true.
Proof.
  apply (export_to_csv_without_result_set
           (Samples.mutating 0)
           "SELECT name INTO dbo.Copy FROM dbo.Employees"
           "exports/copy.csv" None [] 0%Z).
  - reflexivity.
  - reflexivity.
  - intros _. reflexivity.
  - eexists. split; reflexivity.
  - reflexivity.
Defined.

(** X16. When the file cannot be opened (open raises an OSError),
    export_to_csv returns the envelope "File I/O error: ..." with the
    cause; by then the statement has been executed, the connection is
    closed again, and no line has been written to the file. *)
Theorem export_to_csv_unwritable_file
        (w : World) (sql file_path : string) (max_rows : option Z)
        (columns : list string) (rows : list row) (rowcount : Z) (e : exn) :
  accepts sql = true ->
  starts_with_select sql = true ->
  directory_ready w file_path ->
  connects w ->
  db_execute (db w) sql = ExecDone (Some columns) rows rowcount ->
  fs_open_w (fs w) file_path = Some e ->
  exn_kind e = IOError ->
  exists t,
    run (export_to_csv w sql file_path max_rows) =
    (Ok (error_envelope w ("File I/O error: " ++ exn_str e)), t) /\
    reaches_database t = true /\
    closes t = 1 /\
    forallb (fun ev => match ev with EWriteRow _ _ => false | _ => true end) t = true.
Proof.
  intros Ha Hv Hd (conn_str & Hs & Hc) He Ho Hk.
  rewrite (export_to_csv_prepared w sql file_path max_rows Ha Hv Hd).
  unfold try_except.
  assert (Hbody : forall t0,
    export_body w sql file_path max_rows t0 =
    (Raise e, app t0 [EExecute sql; EOpenWrite file_path])).
  { intros t0. unfold export_body, bind, cursor_execute, open_write, bind, emit, ret.
    rewrite He, Ho. unfold raise. now rewrite <- app_assoc. }
  rewrite (with_block_raises w _ conn_str _ _ _ Hs Hc (Hbody _)).
  assert (Hp : is_pyodbc e = false) by (unfold is_pyodbc; now rewrite Hk).
  assert (Hi : is_ioerror e = true) by (unfold is_ioerror; now rewrite Hk).
  unfold error_log. cbn [dispatch database_error file_io_error fst snd].
  rewrite Hp, Hi. unfold bind, log, emit, ret.
  eexists. split; [reflexivity|].
  rewrite <- !app_assoc.
  unfold reaches_database, closes, directory_events, established, closed.
  destruct (directory_missing w file_path); repeat split.
Qed.

Lemma export_to_csv_unwritable_file_witness :
  exists t,
    run (export_to_csv
           {| cfg := Samples.trusted;
              db := Samples.serving (Samples.employees 2);
              fs := {| fs_dirname := fun _ => "";
                       fs_exists := fun _ => true;
                       fs_makedirs := fun _ => None;
                       fs_open_w := fun _ => Some (mk_exn IOError "Permission denied");
                       fs_getsize := fun _ _ => 0%Z |};
              now := Samples.clock |}
           "SELECT name FROM dbo.Employees" "locked.csv" None) =
    (Ok (JDict [ ("error", JStr "File I/O error: Permission denied");
                 ("timestamp", JStr Samples.clock) ]), t) /\
    reaches_database t = true /\
    closes t = 1 /\
    forallb (fun ev => match ev with EWriteRow _ _ => false | _ => true end) t = true.
Proof.
  apply (export_to_csv_unwritable_file
           {| cfg := Samples.trusted;
              db := Samples.serving (Samples.employees 2);
              fs := {| fs_dirname := fun _ => "";
                       fs_exists := fun _ => true;
                       fs_makedirs := fun _ => None;
                       fs_open_w := fun _ => Some (mk_exn IOError "Permission denied");
                       fs_getsize := fun _ _ => 0%Z |};
              now := Samples.clock |}
           "SELECT name FROM dbo.Employees" "locked.csv" None
           ["name"] (Samples.employees 2) (-1)%Z
           (mk_exn IOError "Permission denied")).
  - reflexivity.
  - reflexivity.
  - intros H. discriminate H.
  - eexists. split; reflexivity.
  - reflexivity.
  - reflexivity.
  - reflexivity.
Defined.

(* ===================================================================== *)
(** ** The text export without a cap *)
(* ===================================================================== *)

Lemma query_to_csv_prepared (w : World) sql max_rows :
  accepts sql = true ->
  starts_with_select sql = true ->
  run (query_to_csv w sql max_rows) =
  try_except (get_db_connection w (text_export_body w sql max_rows))
             [database_error w; unexpected_error w] [].
Proof.
  intros Ha Hv.
  unfold run, query_to_csv, try_except at 1, bind at 1.
  rewrite validate_sql_query_run, Ha, (accepted_logs_nothing _ Ha).
  unfold starts_with_select in Hv. rewrite Hv. reflexivity.
Qed.

(** The with-block ends as its body does, or raises before the body. *)
Lemma with_block_result {A} (w : World) (body : M A) (t : trace) :
  (exists e, fst (get_db_connection w body t) = Raise e) \/
  (exists conn_str,
      fst (get_db_connection w body t) = fst (body (app t (established conn_str)))).
Proof.
  destruct (get_connection_string (cfg w)) as [conn_str|e] eqn:Hs.
  - destruct (db_connect (db w) conn_str (QUERY_TIMEOUT (cfg w))) as [e|] eqn:Hc.
    + left. exists e. now rewrite (with_block_refused w body conn_str t e Hs Hc).
    + right. exists conn_str.
      destruct (body (app t (established conn_str))) as [[a|e] t1] eqn:Hb.
      * now rewrite (with_block_returns w body conn_str t a t1 Hs Hc Hb).
      * now rewrite (with_block_raises w body conn_str t e t1 Hs Hc Hb).
  - left. exists e. now rewrite (with_block_unconfigured w body t e Hs).
Qed.

(** X17. query_to_csv has no uncapped mode: called with max_rows=None it
    returns an envelope with error set on every path, whatever the text
    and the world (the fetch and the comparison rows_written >= max_rows
    both need a number). *)
Theorem query_to_csv_needs_a_cap (w : World) (sql : string) :
  exists envelope t,
    run (query_to_csv w sql None) = (Ok envelope, t) /\
    error_populated envelope = true.
Proof.
  destruct (accepts sql) eqn:Ha.
  2:{ eexists _, _. split; [now apply query_to_csv_rejected | reflexivity]. }
  destruct (starts_with_select sql) eqn:Hv.
  2:{ unfold run, query_to_csv, try_except at 1, bind at 1.
      rewrite validate_sql_query_run, Ha, (accepted_logs_nothing _ Ha).
      unfold starts_with_select in Hv. rewrite Hv.
      eexists _, _. split; reflexivity. }
  rewrite (query_to_csv_prepared w sql None Ha Hv). unfold try_except.
  assert (Hbody : forall t0,
    (exists e, fst (text_export_body w sql None t0) = Raise e) \/
    fst (text_export_body w sql None t0) =
    Ok (error_envelope w "Query returned no results to convert to CSV")).
  { intros t0. unfold text_export_body, bind, cursor_execute, fetchmany, bind, emit.
    destruct (db_execute (db w) sql) as [e|[columns|] rows rowcount].
    - left. now exists e.
    - left. eexists. reflexivity.
    - now right. }
  destruct (with_block_result w (text_export_body w sql None) [])
    as [(e & Hr)|(conn_str & Hr)].
  - destruct (get_db_connection w _ []) as [r t1]. simpl in Hr. subst r.
    destruct (proj1 (handlers_return w e t1)) as (envelope & t' & -> & Herr).
    eauto.
  - destruct (get_db_connection w _ []) as [r t1]. cbn [fst] in Hr. subst r.
    destruct (Hbody (app [] (established conn_str))) as [(e & ->)| ->].
    + destruct (proj1 (handlers_return w e t1)) as (envelope & t' & -> & Herr).
      eauto.
    + eexists _, _. split; reflexivity.
Qed.

(* ===================================================================== *)
(** ** The catalog tools *)
(* ===================================================================== *)

Section CatalogFacts.

Variable w : World.

(** Every entry of the catalog is the shared block run on the entry's text
    with the entry's cap. *)
Lemma catalog_entries (a : catalog_args) query cap (tool : M json) :
  In (query, cap, tool) (catalog w a) ->
  exists info, tool = run_catalog_query w query cap info.
Proof.
  intros H. simpl in H.
  repeat (destruct H as [H|H]; [injection H as <- <- <-; eexists; reflexivity|]).
  destruct H.
Qed.

Lemma run_catalog_query_result_set query cap info conn_str columns rows rowcount :
  get_connection_string (cfg w) = Ok conn_str ->
  db_connect (db w) conn_str (QUERY_TIMEOUT (cfg w)) = None ->
  db_execute (db w) query = ExecDone (Some columns) rows rowcount ->
  run (run_catalog_query w query cap info) =
  (Ok (format_query_result w columns rows cap),
   app (established conn_str)
       (app [EExecute query; ELog INFO (info rows)] closed)).
Proof.
  intros Hs Hc He.
  unfold run, run_catalog_query, try_except.
  assert (Hbody : forall (k : M json) t0,
             k = (cur <- cursor_execute w query ;;
                  let '(description, fetched, _) := cur in
                  columns <- column_names description ;;
                  let rows := fetched in
                  let result_json := format_query_result w columns rows cap in
                  log INFO (info rows) ;;
                  ret result_json) ->
             k t0 = (Ok (format_query_result w columns rows cap),
                     app t0 [EExecute query; ELog INFO (info rows)])).
  { intros k t0 ->.
    unfold bind, cursor_execute, column_names, bind, log, emit, ret.
    rewrite He. now rewrite <- app_assoc. }
  rewrite (with_block_returns w _ conn_str _ _ _ Hs Hc (Hbody _ _ eq_refl)).
  now rewrite <- !app_assoc.
Qed.

Lemma run_catalog_query_no_result_set query cap info conn_str rows rowcount :
  get_connection_string (cfg w) = Ok conn_str ->
  db_connect (db w) conn_str (QUERY_TIMEOUT (cfg w)) = None ->
  db_execute (db w) query = ExecDone None rows rowcount ->
  run (run_catalog_query w query cap info) =
  (Raise (mk_exn TypeError "'NoneType' object is not iterable"),
   app (established conn_str) (EExecute query :: closed)).
Proof.
  intros Hs Hc He.
  unfold run, run_catalog_query, try_except.
  assert (Hbody : forall (k : M json) t0,
             k = (cur <- cursor_execute w query ;;
                  let '(description, fetched, _) := cur in
                  columns <- column_names description ;;
                  let rows := fetched in
                  let result_json := format_query_result w columns rows cap in
                  log INFO (info rows) ;;
                  ret result_json) ->
             k t0 = (Raise (mk_exn TypeError "'NoneType' object is not iterable"),
                     app t0 [EExecute query])).
  { intros k t0 ->.
    unfold bind, cursor_execute, column_names, bind, log, emit, ret.
    now rewrite He. }
  rewrite (with_block_raises w _ conn_str _ _ _ Hs Hc (Hbody _ _ eq_refl)).
  now rewrite <- !app_assoc.
Qed.

Lemma run_catalog_query_unconfigured query cap info e :
  get_connection_string (cfg w) = Raise e ->
  is_pyodbc e = false ->
  run (run_catalog_query w query cap info) = (Raise e, []).
Proof.
  intros Hs Hp.
  unfold run, run_catalog_query, try_except.
  rewrite (with_block_unconfigured w _ [] e Hs).
  unfold error_log. cbn [dispatch database_error fst snd].
  now rewrite Hp.
Qed.

Lemma run_catalog_query_database_error query cap info conn_str e :
  get_connection_string (cfg w) = Ok conn_str ->
  db_connect (db w) conn_str (QUERY_TIMEOUT (cfg w)) = None ->
  db_execute (db w) query = ExecRaises e ->
  is_pyodbc e = true ->
  run (run_catalog_query w query cap info) =
  (Ok (error_envelope w ("Database error: " ++ exn_str e)),
   app (established conn_str)
       (app [EExecute query;
             ELog ERROR ("Database connection error: " ++ exn_str e)]
            (app closed [ELog ERROR ("Database error: " ++ exn_str e)]))).
Proof.
  intros Hs Hc He Hp.
  unfold run, run_catalog_query, try_except.
  assert (Hbody : forall (k : M json) t0,
             k = (cur <- cursor_execute w query ;;
                  let '(description, fetched, _) := cur in
                  columns <- column_names description ;;
                  let rows := fetched in
                  let result_json := format_query_result w columns rows cap in
                  log INFO (info rows) ;;
                  ret result_json) ->
             k t0 = (Raise e, app t0 [EExecute query])).
  { intros k t0 ->.
    unfold bind, cursor_execute, column_names, bind, log, emit, ret.
    now rewrite He. }
  rewrite (with_block_raises w _ conn_str _ _ _ Hs Hc (Hbody _ _ eq_refl)).
  unfold error_log. cbn [dispatch database_error fst snd]. rewrite Hp.
  unfold bind, log, emit, ret. now rewrite <- !app_assoc.
Qed.

End CatalogFacts.

Lemma connection_string_raises_value_error (c : Config) (e : exn) :
  get_connection_string c = Raise e -> exn_kind e = ValueError.
Proof.
  unfold get_connection_string.
  destruct (String.eqb _ _); [discriminate|].
  destruct (USERNAME c) as [u|], (PASSWORD c) as [p|];
    try destruct (PyStr.truthy u && PyStr.truthy p);
    intros H; try discriminate H; now injection H as <-.
Qed.

(** X18. None of the thirteen catalog tools has a handler for anything but
    pyodbc.Error. With a configuration from which no connection string can
    be built, each of them lets the ValueError escape, before any connect;
    and when the executed text yields no result set, each of them lets the
    TypeError of iterating cursor.description escape, after the statement
    has run and the connection has been closed. *)
Theorem catalog_tools_let_exceptions_escape
        (w : World) (a : catalog_args) (query : string) (cap : option Z)
        (tool : M json) :
  In (query, cap, tool) (catalog w a) ->
  (forall e, get_connection_string (cfg w) = Raise e ->
             run tool = (Raise e, [])) /\
  (forall rows rowcount,
      connects w ->
      db_execute (db w) query = ExecDone None rows rowcount ->
      exists t,
        run tool = (Raise (mk_exn TypeError "'NoneType' object is not iterable"), t) /\
        In (EExecute query) t /\
        closes t = 1).
Proof.
  intros Hin. destruct (catalog_entries w a query cap tool Hin) as (info & ->).
  split.
  - intros e Hs. apply run_catalog_query_unconfigured; [exact Hs|].
    unfold is_pyodbc. now rewrite (connection_string_raises_value_error _ _ Hs).
  - intros rows rowcount (conn_str & Hs & Hc) He.
    rewrite (run_catalog_query_no_result_set w query cap info conn_str rows rowcount
               Hs Hc He).
    eexists. split; [reflexivity|]. split.
    + simpl. tauto.
    + reflexivity.
Qed.

Lemma catalog_tools_let_exceptions_escape_witness :
  run (get_database_info Samples.misconfigured) =
  (Raise (mk_exn ValueError
            "Either use Trusted_Connection or provide USERNAME and PASSWORD"), [])
  /\
  exists t,
    run (describe_table (Samples.mutating 0) "Employees" "dbo") =
    (Raise (mk_exn TypeError "'NoneType' object is not iterable"), t) /\
    In (EExecute (describe_table_query "Employees" "dbo")) t /\
    closes t = 1.
Proof.
  split.
  - apply (proj1 (catalog_tools_let_exceptions_escape
                    Samples.misconfigured (default_args "Employees")
                    Sql.get_database_info None
                    (get_database_info Samples.misconfigured)
                    ltac:(simpl; tauto))).
    reflexivity.
  - apply (proj2 (catalog_tools_let_exceptions_escape
                    (Samples.mutating 0) (default_args "Employees")
                    (describe_table_query "Employees" "dbo") None
                    (describe_table (Samples.mutating 0) "Employees" "dbo")
                    ltac:(simpl; tauto)) [] 0%Z).
    + eexists. split; reflexivity.
    + reflexivity.
Defined.

Section CatalogRuns.

Variable w : World.

(** Once the connection opens, the shared block hands its text to the
    server, however the execution ends. *)
Lemma run_catalog_query_executes query cap info :
  connects w ->
  In (EExecute query) (snd (run (run_catalog_query w query cap info))).
Proof.
  intros (conn_str & Hs & Hc).
  unfold run, run_catalog_query, try_except.
  rewrite (get_db_connection_connected w _ conn_str [] Hs Hc).
  unfold try_finally, try_except, release, bind, cursor_execute, column_names,
    bind, log, emit, ret, raise.
  destruct (db_execute (db w) query) as [e|[columns|] rows rowcount].
  - cbn [app dispatch connection_error database_error fst snd].
    destruct (is_pyodbc e) eqn:Hp; cbn; rewrite ?Hp; cbn; tauto.
  - cbn. tauto.
  - cbn. tauto.
Qed.

End CatalogRuns.

(** X19. The catalog tools splice their name arguments into the SQL text as
    they are and never call the validator: for a name that contains --,
    the text that list_tables, describe_table, get_table_sample,
    list_indexes and get_index_fragmentation build is one that
    validate_sql_query rejects, and the tool hands it to the server all the
    same. *)
Theorem catalog_tools_execute_unvalidated_names
        (w : World) (name schema : string) (limit : Z) :
  connects w ->
  has_dashes name = true ->
  (accepts (list_tables_query (Some name)) = false /\
   In (EExecute (list_tables_query (Some name)))
      (snd (run (list_tables w (Some name))))) /\
  (accepts (describe_table_query name schema) = false /\
   In (EExecute (describe_table_query name schema))
      (snd (run (describe_table w name schema)))) /\
  (accepts (get_table_sample_query name schema limit) = false /\
   In (EExecute (get_table_sample_query name schema limit))
      (snd (run (get_table_sample w name schema limit)))) /\
  (accepts (list_indexes_query (Some name) schema) = false /\
   In (EExecute (list_indexes_query (Some name) schema))
      (snd (run (list_indexes w (Some name) schema)))) /\
  (accepts (get_index_fragmentation_query (Some name) schema) = false /\
   In (EExecute (get_index_fragmentation_query (Some name) schema))
      (snd (run (get_index_fragmentation w (Some name) schema)))).
Proof.
  intros Hconn Hd.
  assert (Ht := has_dashes_truthy name Hd).
  repeat split; try (now apply run_catalog_query_executes); apply dashes_rejected.
  - unfold list_tables_query. rewrite Ht.
    apply has_dashes_after, has_dashes_before, has_dashes_after.
    now apply has_dashes_before.
  - unfold describe_table_query.
    do 3 apply has_dashes_after. now apply has_dashes_before.
  - unfold get_table_sample_query.
    do 5 apply has_dashes_after. exact Hd.
  - unfold list_indexes_query. rewrite Ht.
    apply has_dashes_after, has_dashes_before, has_dashes_after.
    now apply has_dashes_before.
  - unfold get_index_fragmentation_query. rewrite Ht.
    apply has_dashes_after, has_dashes_before, has_dashes_after.
    now apply has_dashes_before.
Qed.

Lemma catalog_tools_execute_unvalidated_names_witness :
  accepts (list_tables_query (Some "x'; DROP TABLE dbo.Employees --")) = false /\
  In (EExecute (list_tables_query (Some "x'; DROP TABLE dbo.Employees --")))
     (snd (run (list_tables (Samples.reading [])
                            (Some "x'; DROP TABLE dbo.Employees --")))).
Proof.
  apply (catalog_tools_execute_unvalidated_names
           (Samples.reading []) "x'; DROP TABLE dbo.Employees --" "dbo" 10%Z).
  - eexists. split; reflexivity.
  - reflexivity.
Defined.

(** X20. Each catalog tool shapes its rows with its own cap: 100 for
    get_active_sessions, get_long_running_queries and
    get_blocking_sessions, the limit argument for get_table_sample, and
    Config.MAX_ROWS for the other nine (and for a limit of 0). When the
    execution yields a result set and that cap is not negative, the
    envelope has min(row_count, cap) rows and truncated is
    (row_count > cap). *)
Theorem catalog_tools_cap_accounting
        (w : World) (a : catalog_args) (query : string) (cap : option Z)
        (tool : M json) (columns : list string) (rows : list row) (rowcount : Z) :
  In (query, cap, tool) (catalog w a) ->
  connects w ->
  db_execute (db w) query = ExecDone (Some columns) rows rowcount ->
  (0 <= int_or cap (MAX_ROWS (cfg w)))%Z ->
  exists envelope t,
    run tool = (Ok envelope, t) /\
    capped_envelope envelope (len rows) (int_or cap (MAX_ROWS (cfg w))).
Proof.
  intros Hin (conn_str & Hs & Hc) He Hcap.
  destruct (catalog_entries w a query cap tool Hin) as (info & ->).
  rewrite (run_catalog_query_result_set w query cap info conn_str columns rows
             rowcount Hs Hc He).
  eexists _, _. split; [reflexivity|].
  now apply format_query_result_capped.
Qed.

Lemma catalog_tools_cap_accounting_witness :
  exists envelope t,
    run (get_active_sessions (Samples.reading (Samples.employees 150)))
    = (Ok envelope, t) /\
    capped_envelope envelope 150 100.
Proof.
  apply (catalog_tools_cap_accounting
           (Samples.reading (Samples.employees 150)) (default_args "Employees")
           Sql.get_active_sessions (Some 100%Z)
           (get_active_sessions (Samples.reading (Samples.employees 150)))
           ["name"] (Samples.employees 150) (-1)%Z).
  - simpl. tauto.
  - eexists. split; reflexivity.
  - reflexivity.
  - unfold int_or. simpl Z.eqb. cbv iota. lia.
Defined.

(** X21. get_table_sample puts its limit both into the text (SELECT TOP
    limit) and into the cap of the envelope: for a positive limit, when the
    server returns no more rows than TOP allows, the envelope holds every
    returned row and truncated is false. *)
Theorem get_table_sample_keeps_what_top_returns
        (w : World) (table_name schema : string) (limit : Z)
        (columns : list string) (rows : list row) (rowcount : Z) :
  connects w ->
  db_execute (db w)
    ("SELECT TOP " ++ str_int limit ++ " * FROM " ++ schema ++ "." ++ table_name)
  = ExecDone (Some columns) rows rowcount ->
  (0 < limit)%Z ->
  (len rows <= limit)%Z ->
  exists envelope t,
    run (get_table_sample w table_name schema limit) = (Ok envelope, t) /\
    field "rows" envelope = Some (JList (map row_json rows)) /\
    field "row_count" envelope = Some (JInt (len rows)) /\
    field "truncated" envelope = Some (JBool false).
Proof.
  intros (conn_str & Hs & Hc) He Hpos Hle.
  unfold get_table_sample.
  rewrite (run_catalog_query_result_set w _ (Some limit) _ conn_str columns rows
             rowcount Hs Hc He).
  eexists _, _. split; [reflexivity|].
  unfold format_query_result, int_or.
  destruct (Z.eqb_spec limit 0); [lia|].
  cbn [field assoc String.eqb Ascii.eqb Bool.eqb].
  unfold slice_to, len in *.
  destruct (Z.leb_spec 0 limit); [|lia].
  rewrite firstn_all2 by lia.
  destruct (Z.ltb_spec limit (Z.of_nat (length rows))); [lia|].
  repeat split.
Qed.

Lemma get_table_sample_keeps_what_top_returns_witness :
  exists envelope t,
    run (get_table_sample (Samples.reading (Samples.employees 3)) "Employees" "dbo" 10)
    = (Ok envelope, t) /\
    field "rows" envelope = Some (JList (map row_json (Samples.employees 3))) /\
    field "row_count" envelope = Some (JInt 3) /\
    field "truncated" envelope = Some (JBool false).
Proof.
  apply (get_table_sample_keeps_what_top_returns
           (Samples.reading (Samples.employees 3)) "Employees" "dbo" 10%Z
           ["name"] (Samples.employees 3) (-1)%Z).
  - eexists. split; reflexivity.
  - reflexivity.
  - lia.
  - unfold len. simpl length. lia.
Defined.

(** X22. The schema argument of list_indexes and get_index_fragmentation
    takes effect only together with a table name: without one (None or the
    empty string) the tool runs the same, unfiltered text whatever the
    schema; and list_tables treats the empty schema as no schema. *)
Theorem filters_need_a_name (w : World) (schema other : string) :
  list_indexes w None schema = list_indexes w None other /\
  list_indexes w (Some "") schema = list_indexes w None other /\
  get_index_fragmentation w None schema = get_index_fragmentation w None other /\
  get_index_fragmentation w (Some "") schema = get_index_fragmentation w None other /\
  list_tables w (Some "") = list_tables w None.
Proof. repeat split. Qed.

Section CatalogFootprint.

Variable w : World.
Variable Q : trace -> Prop.
Hypothesis nothing_allowed : Q [].
Hypothesis sequence_allowed : forall a b, Q a -> Q b -> Q (app a b).
Hypothesis logging_allowed : forall level msg, Q [ELog level msg].
Hypothesis connection_allowed :
  forall (A : Type) (body : M A), adds Q body -> adds Q (get_db_connection w body).

(** The footprint of the block that the catalog tools share. *)
Lemma adds_run_catalog_query query cap info :
  Q [EExecute query] -> adds Q (run_catalog_query w query cap info).
Proof.
  intros He. unfold run_catalog_query.
  apply (adds_try_except Q sequence_allowed).
  - apply connection_allowed.
    apply (adds_bind Q sequence_allowed).
    + now apply (adds_cursor_execute w Q nothing_allowed sequence_allowed).
    + intros [[description fetched] rowcount].
      apply (adds_bind Q sequence_allowed).
      * unfold column_names. destruct description.
        -- now apply adds_ret.
        -- now apply adds_raise.
      * intros columns. apply (adds_bind Q sequence_allowed).
        -- now apply adds_log.
        -- intros _. now apply adds_ret.
  - intros e.
    apply (adds_handlers w Q nothing_allowed sequence_allowed logging_allowed).
    repeat constructor; simpl; tauto.
Qed.

End CatalogFootprint.

(** X23. Whatever their arguments and the world, the thirteen catalog tools
    never commit and never touch the file system, hand to the server
    nothing but the one text they built, and leave no connection open: as
    many closes as connects when the connection can be opened, none
    otherwise, also on the paths where an exception escapes. *)
Theorem catalog_tools_footprint
        (w : World) (a : catalog_args) (query : string) (cap : option Z)
        (tool : M json) :
  In (query, cap, tool) (catalog w a) ->
  forallb (fun e => read_only_event e && executes_only query e)
          (snd (run tool)) = true /\
  balanced w (snd (run tool)).
Proof.
  intros Hin. destruct (catalog_entries w a query cap tool Hin) as (info & ->).
  split.
  - set (P := fun e => read_only_event e && executes_only query e).
    apply (adds_run (fun added => forallb P added = true)
                    (run_catalog_query w query cap info)).
    apply adds_run_catalog_query.
    + reflexivity.
    + intros x y Hx Hy. now rewrite forallb_app, Hx, Hy.
    + reflexivity.
    + apply connection_appends; reflexivity.
    + unfold P. simpl. now rewrite String.eqb_refl.
  - apply (adds_run (balanced w) (run_catalog_query w query cap info)).
    apply adds_run_catalog_query.
    + unfold balanced, closes, connects_tried. simpl. now destruct (can_connect w).
    + apply balanced_app.
    + intros level msg. now apply balanced_outside.
    + apply connection_balanced.
    + now apply balanced_outside.
Qed.

Lemma catalog_tools_footprint_witness :
  forallb (fun e => read_only_event e && executes_only Sql.get_wait_statistics e)
          (snd (run (get_wait_statistics (Samples.reading [])))) = true /\
  balanced (Samples.reading []) (snd (run (get_wait_statistics (Samples.reading [])))).
Proof.
  apply (catalog_tools_footprint (Samples.reading []) (default_args "Employees")
           Sql.get_wait_statistics None (get_wait_statistics (Samples.reading []))).
  simpl. tauto.
Defined.

(* ===================================================================== *)
(** ** The installation check *)
(* ===================================================================== *)

(** X24. check_python_version compares the two version numbers one by one
    (major >= 3 and minor >= 8). A version it accepts is 3.8 or later; but
    a version that is 3.8 or later is refused exactly when its major number
    is 4 or more and its minor number is below 8 (4.0 is refused with
    "Python 3.8+ required"). *)
Theorem check_python_version_compares_fieldwise (major minor micro : Z) :
  (fst (check_python_version major minor micro) = true ->
   at_least_3_8 major minor = true) /\
  (at_least_3_8 major minor = true ->
   (fst (check_python_version major minor micro) = false <->
    (4 <= major /\ minor < 8)%Z)).
Proof.
  unfold check_python_version, at_least_3_8.
  destruct (Z.leb_spec 3 major), (Z.leb_spec 8 minor), (Z.ltb_spec 3 major),
    (Z.eqb_spec major 3); cbn; split; intros; try split; intros;
    try lia; try discriminate; try reflexivity.
Qed.

Lemma check_python_version_compares_fieldwise_witness :
  at_least_3_8 3 12 = true /\
  (fst (check_python_version 4 0 0) = false <-> (4 <= 4 /\ 0 < 8)%Z).
Proof.
  split.
  - apply (proj1 (check_python_version_compares_fieldwise 3 12 1)). reflexivity.
  - apply (proj2 (check_python_version_compares_fieldwise 4 0 0)). reflexivity.
Defined.

(* ===================================================================== *)
(** ** The blanket UPDATE rule and the line break *)
(* ===================================================================== *)

Lemma star_any_skips (cont : option ascii -> string -> bool) (x s : string) :
  on_one_line x = true ->
  forall prev,
    cont (last_or prev x) s = true ->
    Re.star Re.CAny cont prev (x ++ s) = true.
Proof.
  induction x as [|c r IH]; intros Hx prev H.
  - change (last_or prev EmptyString) with prev in H.
    change (EmptyString ++ s) with s.
    destruct s as [|d s']; cbn [Re.star]; [exact H|].
    destruct (Re.in_class Re.CAny d); [|exact H].
    destruct (Re.star Re.CAny cont (Some d) s'); [reflexivity | exact H].
  - change (String c r ++ s) with (String c (r ++ s)).
    unfold on_one_line in Hx. cbn [all_chars] in Hx.
    apply andb_prop in Hx. destruct Hx as [Hc Hr].
    cbn [Re.star Re.in_class]. rewrite Hc.
    rewrite (IH Hr (Some c)); [reflexivity|].
    now rewrite <- (last_or_cons prev).
Qed.

Lemma on_one_line_upper (s : string) : on_one_line (PyStr.upper s) = on_one_line s.
Proof.
  unfold on_one_line. induction s as [|c r IH]; [reflexivity|].
  cbn [PyStr.upper all_chars]. rewrite IH. f_equal.
  by_cases_on_char c.
Qed.

(** X25. A text that begins with UPDATE and a blank and has WHERE 1=1
    further on the same line is rejected, in any letter case of what stands
    between and after; a line break between UPDATE and WHERE is enough to
    get the same statement accepted, because the pattern's dot does not
    match a line feed. *)
Theorem blanket_update_rule_stops_at_line_breaks :
  (forall between after : string,
      on_one_line between = true ->
      accepts ("UPDATE " ++ between ++ "WHERE 1=1" ++ after) = false) /\
  accepts ("UPDATE dbo.Employees SET salary = 0" ++ String "010" "WHERE 1=1") = true.
Proof.
  split; [|vm_compute; reflexivity].
  intros between after Hline.
  apply rejects_iff_some_rule.
  exists "\bUPDATE\b.*WHERE\s+1\s*=\s*1". split; [simpl; tauto|].
  rewrite !upper_app.
  change (PyStr.upper "UPDATE ") with "UPDATE ".
  change (PyStr.upper "WHERE 1=1") with "WHERE 1=1".
  unfold PyStr.strip.
  rewrite lstrip_of_clean by reflexivity.
  set (middle := PyStr.upper between).
  set (rest := PyStr.upper after).
  assert (Happ : forall x y z : string, (x ++ y) ++ z = x ++ y ++ z).
  { intros x y z. induction x as [|c r IH]; simpl; [reflexivity | now rewrite IH]. }
  assert (Hstrip : PyStr.rstrip ("UPDATE " ++ middle ++ "WHERE 1=1" ++ rest)
                   = "UPDATE " ++ middle ++ "WHERE 1=1" ++ PyStr.rstrip rest).
  { change ("WHERE 1=1" ++ rest) with ("WHERE 1=" ++ String "1" rest).
    rewrite <- (Happ middle "WHERE 1="), <- (Happ "UPDATE " (middle ++ "WHERE 1=")).
    rewrite rstrip_app by reflexivity.
    now rewrite (Happ "UPDATE " (middle ++ "WHERE 1=")), (Happ middle "WHERE 1="). }
  rewrite Hstrip.
  assert (Hstar :
    Re.star Re.CAny (Re.match_here (Re.compile "WHERE\s+1\s*=\s*1")) (Some "E"%char)
            ((" " ++ middle) ++ "WHERE 1=1" ++ PyStr.rstrip rest) = true).
  { apply star_any_skips; [|reflexivity].
    unfold on_one_line. cbn [append all_chars].
    fold (on_one_line middle). unfold middle. now rewrite on_one_line_upper. }
  unfold Re.search.
  change (Re.search_from (Re.compile "\bUPDATE\b.*WHERE\s+1\s*=\s*1") None
            ("UPDATE " ++ middle ++ "WHERE 1=1" ++ PyStr.rstrip rest))
    with (if Re.star Re.CAny (Re.match_here (Re.compile "WHERE\s+1\s*=\s*1"))
                     (Some "E"%char)
                     ((" " ++ middle) ++ "WHERE 1=1" ++ PyStr.rstrip rest)
          then true
          else Re.search_from (Re.compile "\bUPDATE\b.*WHERE\s+1\s*=\s*1")
                 (Some "U"%char)
                 ("PDATE " ++ middle ++ "WHERE 1=1" ++ PyStr.rstrip rest)).
  now rewrite Hstar.
Qed.

Lemma blanket_update_rule_stops_at_line_breaks_witness :
  accepts ("UPDATE " ++ "dbo.Employees set salary = 0 " ++ "WHERE 1=1" ++ "  ") = false.
Proof.
  apply (proj1 blanket_update_rule_stops_at_line_breaks
           "dbo.Employees set salary = 0 " "  ").
  reflexivity.
Defined.
